(** * somepixel: BiblioPixel-to-WS281x bridge firmware (PIC16F1454)

    A shallow embedding of [firmware/main.c]: the packet decoder in the
    polling loop of [main], the waveform emitter in [isr], and the pieces of
    memory and of the peripherals the two share.

    Integers of the C program are [Z] with their wrap-around written out
    ([u8], [u16]); pointers into [leds] are byte offsets from the start of
    the array, [None] for [NULL]; a memory access outside its array makes a
    step fail ([None] in the [option] monad). *)

From Stdlib Require Import ZArith List Bool Lia ZifyNat.
From stdpp Require Import base option list numbers.

Import ListNotations.
Local Open Scope Z_scope.

(** ** Data model *)

Definition LED_COUNT : Z := 128.

(** [struct ws_led_struct { uint8_t g, r, b; }]: three bytes, in this
    order, without padding. *)
Record ws_led_struct := { g : Z; r : Z; b : Z }.

Definition sizeof_ws_led_struct : Z := 3.

(** [uint8_t] and [uint16_t] arithmetic. *)
Definition u8 (x : Z) : Z := x mod 256.
Definition u16 (x : Z) : Z := x mod 65536.

Definition is_u8 (x : Z) : Prop := 0 <= x < 256.
Definition is_u16 (x : Z) : Prop := 0 <= x < 65536.

(** The variables of the program.  [leds] is the array seen through the
    [uint8_t *] the code uses on it ([LED_COUNT * 3] bytes); [isr_ptr] and
    [wptr] are offsets into it.  The static [current_byte] of [isr] is
    [isr_current_byte], since [main] has a local of the same name.
    [SSP1BUF] is the sequence of bytes written to the SPI data register,
    which is what the peripheral shifts out on the line; [in_buf] is the
    endpoint buffer returned by [usb_get_in_buffer(2)] and [toPC] the bytes
    handed over to the host by [usb_send_in_buffer]. *)
Record machine := {
  (* globals *)
  leds : list Z;
  isr_ptr : nat;
  (* locals of main *)
  toPC_count : Z;
  command : Z;
  color_index : Z;
  current_byte : Z;
  previous_byte : Z;
  led_index : Z;
  data_remaining : Z;
  wptr : option nat;
  (* statics of isr *)
  bit_position : Z;
  byte_count : Z;
  isr_current_byte : Z;
  (* peripherals *)
  GIE : bool;
  SSP1IF : bool;
  SSP1BUF : list Z;
  in_buf : list Z;
  toPC : list Z
}.

(** Field updates. *)

Definition set_leds (v : list Z) (m : machine) : machine :=
  {| leds := v; isr_ptr := isr_ptr m; toPC_count := toPC_count m;
     command := command m; color_index := color_index m;
     current_byte := current_byte m; previous_byte := previous_byte m;
     led_index := led_index m; data_remaining := data_remaining m;
     wptr := wptr m; bit_position := bit_position m;
     byte_count := byte_count m; isr_current_byte := isr_current_byte m;
     GIE := GIE m; SSP1IF := SSP1IF m; SSP1BUF := SSP1BUF m;
     in_buf := in_buf m; toPC := toPC m |}.

Definition set_isr_ptr (v : nat) (m : machine) : machine :=
  {| leds := leds m; isr_ptr := v; toPC_count := toPC_count m;
     command := command m; color_index := color_index m;
     current_byte := current_byte m; previous_byte := previous_byte m;
     led_index := led_index m; data_remaining := data_remaining m;
     wptr := wptr m; bit_position := bit_position m;
     byte_count := byte_count m; isr_current_byte := isr_current_byte m;
     GIE := GIE m; SSP1IF := SSP1IF m; SSP1BUF := SSP1BUF m;
     in_buf := in_buf m; toPC := toPC m |}.

Definition set_toPC_count (v : Z) (m : machine) : machine :=
  {| leds := leds m; isr_ptr := isr_ptr m; toPC_count := v;
     command := command m; color_index := color_index m;
     current_byte := current_byte m; previous_byte := previous_byte m;
     led_index := led_index m; data_remaining := data_remaining m;
     wptr := wptr m; bit_position := bit_position m;
     byte_count := byte_count m; isr_current_byte := isr_current_byte m;
     GIE := GIE m; SSP1IF := SSP1IF m; SSP1BUF := SSP1BUF m;
     in_buf := in_buf m; toPC := toPC m |}.

Definition set_command (v : Z) (m : machine) : machine :=
  {| leds := leds m; isr_ptr := isr_ptr m; toPC_count := toPC_count m;
     command := v; color_index := color_index m;
     current_byte := current_byte m; previous_byte := previous_byte m;
     led_index := led_index m; data_remaining := data_remaining m;
     wptr := wptr m; bit_position := bit_position m;
     byte_count := byte_count m; isr_current_byte := isr_current_byte m;
     GIE := GIE m; SSP1IF := SSP1IF m; SSP1BUF := SSP1BUF m;
     in_buf := in_buf m; toPC := toPC m |}.

Definition set_color_index (v : Z) (m : machine) : machine :=
  {| leds := leds m; isr_ptr := isr_ptr m; toPC_count := toPC_count m;
     command := command m; color_index := v; current_byte := current_byte m;
     previous_byte := previous_byte m; led_index := led_index m;
     data_remaining := data_remaining m; wptr := wptr m;
     bit_position := bit_position m; byte_count := byte_count m;
     isr_current_byte := isr_current_byte m; GIE := GIE m;
     SSP1IF := SSP1IF m; SSP1BUF := SSP1BUF m; in_buf := in_buf m;
     toPC := toPC m |}.

Definition set_current_byte (v : Z) (m : machine) : machine :=
  {| leds := leds m; isr_ptr := isr_ptr m; toPC_count := toPC_count m;
     command := command m; color_index := color_index m; current_byte := v;
     previous_byte := previous_byte m; led_index := led_index m;
     data_remaining := data_remaining m; wptr := wptr m;
     bit_position := bit_position m; byte_count := byte_count m;
     isr_current_byte := isr_current_byte m; GIE := GIE m;
     SSP1IF := SSP1IF m; SSP1BUF := SSP1BUF m; in_buf := in_buf m;
     toPC := toPC m |}.

Definition set_previous_byte (v : Z) (m : machine) : machine :=
  {| leds := leds m; isr_ptr := isr_ptr m; toPC_count := toPC_count m;
     command := command m; color_index := color_index m;
     current_byte := current_byte m; previous_byte := v;
     led_index := led_index m; data_remaining := data_remaining m;
     wptr := wptr m; bit_position := bit_position m;
     byte_count := byte_count m; isr_current_byte := isr_current_byte m;
     GIE := GIE m; SSP1IF := SSP1IF m; SSP1BUF := SSP1BUF m;
     in_buf := in_buf m; toPC := toPC m |}.

Definition set_led_index (v : Z) (m : machine) : machine :=
  {| leds := leds m; isr_ptr := isr_ptr m; toPC_count := toPC_count m;
     command := command m; color_index := color_index m;
     current_byte := current_byte m; previous_byte := previous_byte m;
     led_index := v; data_remaining := data_remaining m; wptr := wptr m;
     bit_position := bit_position m; byte_count := byte_count m;
     isr_current_byte := isr_current_byte m; GIE := GIE m;
     SSP1IF := SSP1IF m; SSP1BUF := SSP1BUF m; in_buf := in_buf m;
     toPC := toPC m |}.

Definition set_data_remaining (v : Z) (m : machine) : machine :=
  {| leds := leds m; isr_ptr := isr_ptr m; toPC_count := toPC_count m;
     command := command m; color_index := color_index m;
     current_byte := current_byte m; previous_byte := previous_byte m;
     led_index := led_index m; data_remaining := v; wptr := wptr m;
     bit_position := bit_position m; byte_count := byte_count m;
     isr_current_byte := isr_current_byte m; GIE := GIE m;
     SSP1IF := SSP1IF m; SSP1BUF := SSP1BUF m; in_buf := in_buf m;
     toPC := toPC m |}.

Definition set_wptr (v : option nat) (m : machine) : machine :=
  {| leds := leds m; isr_ptr := isr_ptr m; toPC_count := toPC_count m;
     command := command m; color_index := color_index m;
     current_byte := current_byte m; previous_byte := previous_byte m;
     led_index := led_index m; data_remaining := data_remaining m; wptr := v;
     bit_position := bit_position m; byte_count := byte_count m;
     isr_current_byte := isr_current_byte m; GIE := GIE m;
     SSP1IF := SSP1IF m; SSP1BUF := SSP1BUF m; in_buf := in_buf m;
     toPC := toPC m |}.

Definition set_bit_position (v : Z) (m : machine) : machine :=
  {| leds := leds m; isr_ptr := isr_ptr m; toPC_count := toPC_count m;
     command := command m; color_index := color_index m;
     current_byte := current_byte m; previous_byte := previous_byte m;
     led_index := led_index m; data_remaining := data_remaining m;
     wptr := wptr m; bit_position := v; byte_count := byte_count m;
     isr_current_byte := isr_current_byte m; GIE := GIE m;
     SSP1IF := SSP1IF m; SSP1BUF := SSP1BUF m; in_buf := in_buf m;
     toPC := toPC m |}.

Definition set_byte_count (v : Z) (m : machine) : machine :=
  {| leds := leds m; isr_ptr := isr_ptr m; toPC_count := toPC_count m;
     command := command m; color_index := color_index m;
     current_byte := current_byte m; previous_byte := previous_byte m;
     led_index := led_index m; data_remaining := data_remaining m;
     wptr := wptr m; bit_position := bit_position m; byte_count := v;
     isr_current_byte := isr_current_byte m; GIE := GIE m;
     SSP1IF := SSP1IF m; SSP1BUF := SSP1BUF m; in_buf := in_buf m;
     toPC := toPC m |}.

Definition set_isr_current_byte (v : Z) (m : machine) : machine :=
  {| leds := leds m; isr_ptr := isr_ptr m; toPC_count := toPC_count m;
     command := command m; color_index := color_index m;
     current_byte := current_byte m; previous_byte := previous_byte m;
     led_index := led_index m; data_remaining := data_remaining m;
     wptr := wptr m; bit_position := bit_position m;
     byte_count := byte_count m; isr_current_byte := v; GIE := GIE m;
     SSP1IF := SSP1IF m; SSP1BUF := SSP1BUF m; in_buf := in_buf m;
     toPC := toPC m |}.

Definition set_GIE (v : bool) (m : machine) : machine :=
  {| leds := leds m; isr_ptr := isr_ptr m; toPC_count := toPC_count m;
     command := command m; color_index := color_index m;
     current_byte := current_byte m; previous_byte := previous_byte m;
     led_index := led_index m; data_remaining := data_remaining m;
     wptr := wptr m; bit_position := bit_position m;
     byte_count := byte_count m; isr_current_byte := isr_current_byte m;
     GIE := v; SSP1IF := SSP1IF m; SSP1BUF := SSP1BUF m; in_buf := in_buf m;
     toPC := toPC m |}.

Definition set_SSP1IF (v : bool) (m : machine) : machine :=
  {| leds := leds m; isr_ptr := isr_ptr m; toPC_count := toPC_count m;
     command := command m; color_index := color_index m;
     current_byte := current_byte m; previous_byte := previous_byte m;
     led_index := led_index m; data_remaining := data_remaining m;
     wptr := wptr m; bit_position := bit_position m;
     byte_count := byte_count m; isr_current_byte := isr_current_byte m;
     GIE := GIE m; SSP1IF := v; SSP1BUF := SSP1BUF m; in_buf := in_buf m;
     toPC := toPC m |}.

Definition set_SSP1BUF (v : list Z) (m : machine) : machine :=
  {| leds := leds m; isr_ptr := isr_ptr m; toPC_count := toPC_count m;
     command := command m; color_index := color_index m;
     current_byte := current_byte m; previous_byte := previous_byte m;
     led_index := led_index m; data_remaining := data_remaining m;
     wptr := wptr m; bit_position := bit_position m;
     byte_count := byte_count m; isr_current_byte := isr_current_byte m;
     GIE := GIE m; SSP1IF := SSP1IF m; SSP1BUF := v; in_buf := in_buf m;
     toPC := toPC m |}.

Definition set_in_buf (v : list Z) (m : machine) : machine :=
  {| leds := leds m; isr_ptr := isr_ptr m; toPC_count := toPC_count m;
     command := command m; color_index := color_index m;
     current_byte := current_byte m; previous_byte := previous_byte m;
     led_index := led_index m; data_remaining := data_remaining m;
     wptr := wptr m; bit_position := bit_position m;
     byte_count := byte_count m; isr_current_byte := isr_current_byte m;
     GIE := GIE m; SSP1IF := SSP1IF m; SSP1BUF := SSP1BUF m; in_buf := v;
     toPC := toPC m |}.

Definition set_toPC (v : list Z) (m : machine) : machine :=
  {| leds := leds m; isr_ptr := isr_ptr m; toPC_count := toPC_count m;
     command := command m; color_index := color_index m;
     current_byte := current_byte m; previous_byte := previous_byte m;
     led_index := led_index m; data_remaining := data_remaining m;
     wptr := wptr m; bit_position := bit_position m;
     byte_count := byte_count m; isr_current_byte := isr_current_byte m;
     GIE := GIE m; SSP1IF := SSP1IF m; SSP1BUF := SSP1BUF m;
     in_buf := in_buf m; toPC := v |}.

(** Entry [i] of [leds], read through the struct. *)
Definition led_at (l : list Z) (i : nat) : option ws_led_struct :=
  gv ← l !! (3 * i)%nat;
  rv ← l !! (3 * i + 1)%nat;
  bv ← l !! (3 * i + 2)%nat;
  Some {| g := gv; r := rv; b := bv |}.

(** ** Memory and peripheral accesses *)

(** [*(p + off) = v] on an array: outside the array the program has no
    defined behaviour. *)
Definition store (off : nat) (v : Z) (l : list Z) : option (list Z) :=
  if decide (off < length l)%nat then Some (<[off := v]> l) else None.

Definition store_leds (off : nat) (v : Z) (m : machine) : option machine :=
  l ← store off v (leds m); Some (set_leds l m).

(** [SSP1BUF = v]: the peripheral shifts the byte out and raises [SSP1IF]
    when it is done. *)
Definition write_SSP1BUF (v : Z) (m : machine) : machine :=
  set_SSP1IF true (set_SSP1BUF (SSP1BUF m ++ [v]) m).

(** ** The packet decoder: body of the [for (index ...)] loop of [main] *)

(** Lines 143-145: [isr_ptr = leds; GIE = 1; SSP1BUF = 0x00]. *)
Definition hand_off (m : machine) : machine :=
  write_SSP1BUF 0x00 (set_GIE true (set_isr_ptr 0%nat m)).

(** Lines 117-135: the write through [wptr]. *)
Definition write_color (m : machine) : option machine :=
  match wptr m with
  | Some w =>
      match color_index m with
      | 0 => store_leds (w + 1) (current_byte m) m
      | 1 => store_leds (w + 0) (current_byte m) m
      | 2 => m' ← store_leds (w + 2) (current_byte m) m;
             Some (set_wptr (Some (w + 3)%nat) m')
      | _ => Some m
      end
  | None => Some m
  end.

(** Lines 148-158: colour and LED bookkeeping. *)
Definition next_color (m : machine) : machine :=
  let m := set_color_index (u8 (color_index m + 1)) m in
  if color_index m =? 3 then
    let m := set_color_index 0 m in
    let m := set_led_index (u8 (led_index m + 1)) m in
    if led_index m =? LED_COUNT then set_wptr None m else m
  else m.

(** Line 163: [in_buf[toPC_count++] = 0xFF]. *)
Definition acknowledge (m : machine) : option machine :=
  l ← store (Z.to_nat (toPC_count m)) 0xFF (in_buf m);
  Some (set_toPC_count (u8 (toPC_count m + 1)) (set_in_buf l m)).

(** Lines 110-164: one byte of a message body. *)
Definition payload_byte (m : machine) : option machine :=
  let m := set_data_remaining (u16 (data_remaining m - 1)) m in
  m ← (if command m =? 2 then
         m ← write_color m;
         let m := if data_remaining m =? 0 then hand_off m else m in
         Some (next_color m)
       else Some m);
  if data_remaining m =? 0 then acknowledge m else Some m.

(** Lines 165-187: one byte outside a message body; only the position in
    the chunk decides what it is. *)
Definition header_byte (index : nat) (m : machine) : machine :=
  match index with
  | 0%nat =>
      set_wptr (Some 0%nat)
        (set_led_index 0 (set_color_index 0 (set_command (current_byte m) m)))
  | 1%nat => m
  | 2%nat =>
      let m := set_data_remaining (u16 (Z.shiftl (current_byte m) 8)) m in
      set_data_remaining (Z.lor (data_remaining m) (previous_byte m)) m
  | _ => m
  end.

Definition loop_body (index : nat) (byte : Z) (m : machine) : option machine :=
  let m := set_previous_byte (current_byte m) m in
  let m := set_current_byte byte m in
  if data_remaining m =? 0 then Some (header_byte index m)
  else payload_byte m.

(** [for (index = 0; index < fromPC_count; index++)] over the chunk
    [out_buf] of [fromPC_count] bytes.  [fromPC_count] and [index] are
    [uint8_t], so a chunk has at most 255 bytes and [index] never wraps. *)
Fixpoint chunk_loop (index : nat) (out_buf : list Z) (m : machine)
  : option machine :=
  match out_buf with
  | [] => Some m
  | byte :: rest => m' ← loop_body index byte m; chunk_loop (S index) rest m'
  end.

(** Lines 92-96: pending bytes are handed to the USB stack. *)
Definition flush (m : machine) : machine :=
  if 0 <? toPC_count m then
    set_toPC_count 0
      (set_toPC (toPC m ++ take (Z.to_nat (toPC_count m)) (in_buf m)) m)
  else m.

(** One iteration of [for (;;)] that gets past every [continue] and
    receives the chunk [out_buf]. *)
Definition iteration (out_buf : list Z) (m : machine) : option machine :=
  chunk_loop 0 out_buf (flush m).

Fixpoint run (chunks : list (list Z)) (m : machine) : option machine :=
  match chunks with
  | [] => Some m
  | c :: cs => m' ← iteration c m; run cs m'
  end.

(** Every byte handed to the host so far or staged for it. *)
Definition acks (m : machine) : list Z :=
  toPC m ++ take (Z.to_nat (toPC_count m)) (in_buf m).

(** ** The waveform emitter: [isr] *)

Definition pulse (byte : Z) : Z :=
  if Z.land byte 0x80 =? 0 then 0xF0 else 0xFF.

Definition isr (m : machine) : option machine :=
  if SSP1IF m then
    let m := set_SSP1IF false m in
    if (bit_position m =? 0)
       && (byte_count m =? LED_COUNT * sizeof_ws_led_struct) then
      Some (set_byte_count 0 (set_GIE false m))
    else
      m ← (if bit_position m =? 0 then
             v ← leds m !! isr_ptr m;
             let m := set_isr_current_byte v m in
             let m := set_isr_ptr (S (isr_ptr m)) m in
             Some (set_byte_count (u16 (byte_count m + 1)) m)
           else Some m);
      let m := write_SSP1BUF (pulse (isr_current_byte m)) m in
      let m := set_isr_current_byte (u8 (Z.shiftl (isr_current_byte m) 1)) m in
      Some (set_bit_position (Z.land (bit_position m + 1) 0x7) m)
  else Some m.

(** The interrupt is taken when it is pending and globally enabled
    ([PEIE] and [SSP1IE] are set once in [main] and never cleared). *)
Definition interrupt (m : machine) : option machine :=
  if GIE m && SSP1IF m then isr m else Some m.

Fixpoint serve (n : nat) (m : machine) : option machine :=
  match n with
  | O => Some m
  | S n' => m' ← interrupt m; serve n' m'
  end.

(** The polling loop with the interrupt handler running in between: before
    each byte of a chunk is decoded, the given number of interrupts is
    served. *)
Fixpoint chunk_loop_irq (index : nat) (out_buf : list (nat * Z)) (m : machine)
  : option machine :=
  match out_buf with
  | [] => Some m
  | (n, byte) :: rest =>
      m1 ← serve n m;
      m2 ← loop_body index byte m1;
      chunk_loop_irq (S index) rest m2
  end.

Definition iteration_irq (out_buf : list (nat * Z)) (m : machine)
  : option machine :=
  chunk_loop_irq 0 out_buf (flush m).

Fixpoint run_irq (chunks : list (list (nat * Z))) (m : machine)
  : option machine :=
  match chunks with
  | [] => Some m
  | c :: cs => m' ← iteration_irq c m; run_irq cs m'
  end.

(** The machine after reset, when the loop of [main] is first entered:
    statics are zero, [toPC_count] and [data_remaining] have been cleared,
    the other locals of [main] hold whatever they hold. *)
Definition power_on (m : machine) : Prop :=
  leds m = replicate (Z.to_nat (LED_COUNT * sizeof_ws_led_struct)) 0
  /\ toPC_count m = 0 /\ data_remaining m = 0
  /\ bit_position m = 0 /\ byte_count m = 0 /\ isr_current_byte m = 0
  /\ GIE m = false /\ SSP1IF m = false /\ SSP1BUF m = [] /\ toPC m = []
  /\ is_u8 (current_byte m).

(** ** One message, byte by byte *)

(** The host sends red, green, blue; the strip wants green, red, blue.
    [swap_rg k] is the offset in [leds] of payload byte [k], and the payload
    position of the byte at offset [k]. *)
Definition swap_rg (k : nat) : nat :=
  match (k mod 3)%nat with
  | 0%nat => (k + 1)%nat
  | 1%nat => (k - 1)%nat
  | _ => k
  end.

(** [P] is the body of a message and [s1] the machine when the third
    header byte has just been decoded. *)

(** What holds after [n] bytes of the body, whatever the command. *)
Record decoding (P : list Z) (s1 : machine) (n : nat) (s : machine) : Prop := {
  dec_command : command s = command s1;
  dec_remaining : data_remaining s = Z.of_nat (length P - n);
  dec_count : 0 <= toPC_count s;
  dec_staged : (n < length P)%nat -> toPC_count s = 0;
  dec_acks :
    acks s = acks s1 ++ (if decide (n = length P) then [0xFF] else []);
  dec_in_buf : length (in_buf s) = length (in_buf s1);
  dec_leds_len : length (leds s) = length (leds s1);
  dec_statics :
    bit_position s = bit_position s1 /\ byte_count s = byte_count s1
    /\ isr_current_byte s = isr_current_byte s1
}.

(** Command 2. *)
Record pixels (P : list Z) (s1 : machine) (n : nat) (s : machine) : Prop := {
  px_color : color_index s = Z.of_nat (n mod 3);
  px_led : led_index s = Z.of_nat (n / 3) mod 256;
  px_wptr :
    wptr s = if decide (n / 3 < 128)%nat then Some (3 * (n / 3))%nat
             else None;
  px_leds : forall off : nat,
    leds s !! off
    = if decide (off < 384 /\ swap_rg off < n)%nat then P !! swap_rg off
      else leds s1 !! off;
  px_hand :
    if decide (n = length P) then
      isr_ptr s = 0%nat /\ GIE s = true /\ SSP1IF s = true
      /\ SSP1BUF s = SSP1BUF s1 ++ [0]
    else
      isr_ptr s = isr_ptr s1 /\ GIE s = GIE s1 /\ SSP1IF s = SSP1IF s1
      /\ SSP1BUF s = SSP1BUF s1
}.

(** Any other command. *)
Record untouched (s1 s : machine) : Prop := {
  un_leds : leds s = leds s1;
  un_color : color_index s = color_index s1;
  un_led : led_index s = led_index s1;
  un_wptr : wptr s = wptr s1;
  un_hand :
    isr_ptr s = isr_ptr s1 /\ GIE s = GIE s1 /\ SSP1IF s = SSP1IF s1
    /\ SSP1BUF s = SSP1BUF s1
}.

Definition body_inv (P : list Z) (s1 : machine) (n : nat) (s : machine)
  : Prop :=
  decoding P s1 n s
  /\ if decide (command s1 = 2) then pixels P s1 n s else untouched s1 s.


(** The machine when the header [op; lo; hi], received as the first three
    bytes of a chunk, has been decoded. *)
Definition latched (op lo hi : Z) (s0 : machine) : machine :=
  set_data_remaining (Z.lor (u16 (Z.shiftl hi 8)) lo)
    (set_wptr (Some 0%nat)
       (set_led_index 0
          (set_color_index 0
             (set_command op
                (set_previous_byte lo (set_current_byte hi (flush s0))))))).

(** ** Invariants of the decoder *)

(** The write cursor and the LED counter move together. *)
Definition cursor_ok (s : machine) : Prop :=
  0 <= color_index s < 3
  /\ match wptr s with
     | Some w => Z.of_nat w = 3 * led_index s /\ 0 <= led_index s < LED_COUNT
     | None => True
     end.

(** Whether the byte about to be decoded is the last one of a message
    body. *)
Definition last_of_body (s : machine) : bool :=
  negb (data_remaining s =? 0) && (u16 (data_remaining s - 1) =? 0).

(** Before the byte at position [index] of a chunk is decoded.  The
    endpoint buffer [in_buf] has room for two bytes at least. *)
Definition chunk_inv (index : nat) (s : machine) : Prop :=
  length (leds s) = 384%nat /\ (2 <= length (in_buf s))%nat
  /\ 0 <= toPC_count s
  /\ toPC_count s + (if data_remaining s =? 0 then 0 else 1)
     + (if (index <=? 2)%nat then 1 else 0) <= 2
  /\ ((index = 0%nat /\ data_remaining s = 0) \/ cursor_ok s).

(** Between two chunks. *)
Definition decoder_inv (s : machine) : Prop :=
  length (leds s) = 384%nat /\ (2 <= length (in_buf s))%nat
  /\ 0 <= toPC_count s /\ (data_remaining s = 0 \/ cursor_ok s).

(** How many bytes of a stream end a message body. *)
Fixpoint completions_chunk (index : nat) (out_buf : list Z) (m : machine)
  : nat :=
  match out_buf with
  | [] => 0%nat
  | byte :: rest =>
      ((if last_of_body m then 1 else 0)
       + match loop_body index byte m with
         | Some m' => completions_chunk (S index) rest m'
         | None => 0
         end)%nat
  end.

Fixpoint completions (chunks : list (list Z)) (m : machine) : nat :=
  match chunks with
  | [] => 0%nat
  | c :: cs =>
      (completions_chunk 0 c (flush m)
       + match iteration c m with
         | Some m' => completions cs m'
         | None => 0
         end)%nat
  end.

(** ** Statements *)

(** The header [op; lo; hi] has been taken as a header. *)
Definition header_parsed (op lo hi : Z) (s : machine) : Prop :=
  command s = op /\ data_remaining s = Z.lor lo (Z.shiftl hi 8)
  /\ color_index s = 0 /\ led_index s = 0 /\ wptr s = Some 0%nat.

(** Nothing but the two byte latches of the loop differs. *)
Definition same_but_latches (s s' : machine) : Prop :=
  command s' = command s /\ data_remaining s' = data_remaining s
  /\ wptr s' = wptr s /\ color_index s' = color_index s
  /\ led_index s' = led_index s /\ leds s' = leds s
  /\ toPC_count s' = toPC_count s /\ in_buf s' = in_buf s /\ toPC s' = toPC s
  /\ isr_ptr s' = isr_ptr s /\ GIE s' = GIE s /\ SSP1IF s' = SSP1IF s
  /\ SSP1BUF s' = SSP1BUF s /\ bit_position s' = bit_position s
  /\ byte_count s' = byte_count s /\ isr_current_byte s' = isr_current_byte s.

(** A machine just after reset, with a 64-byte endpoint buffer. *)
Definition reset_machine : machine :=
  {| leds := replicate 384 0; isr_ptr := 0; toPC_count := 0; command := 0;
     color_index := 0; current_byte := 0; previous_byte := 0; led_index := 0;
     data_remaining := 0; wptr := None; bit_position := 0; byte_count := 0;
     isr_current_byte := 0; GIE := false; SSP1IF := false; SSP1BUF := [];
     in_buf := replicate 64 0; toPC := [] |}.

(** ** The waveform *)

(** The bits of a byte, most significant first. *)
Definition bits_msb_first (byte : Z) : list bool :=
  map (fun k : nat => Z.testbit byte (Z.of_nat (7 - k))) (seq 0 8).

(** A 1 is a long pulse, a 0 a short one. *)
Definition pattern (bit : bool) : Z := if bit then 0xFF else 0xF0.

Definition waveform (bytes : list Z) : list Z :=
  flat_map (fun byte : Z => map pattern (bits_msb_first byte)) bytes.

(** What [isr] does to its [current_byte] between two bits, and the pulses
    it emits for the next [k] bits. *)
Definition shl8 (byte : Z) : Z := u8 (Z.shiftl byte 1).

Fixpoint shift_out (k : nat) (byte : Z) : list Z :=
  match k with
  | O => []
  | S k' => pulse byte :: shift_out k' (shl8 byte)
  end.

(** The machine during a pass started by [hand_off m], when [q] bytes of
    the buffer have been shifted out. *)
Definition in_pass (m : machine) (q : nat) : machine :=
  set_byte_count (Z.of_nat q)
    (set_isr_ptr q
       (set_isr_current_byte (match q with O => isr_current_byte m | _ => 0 end)
          (set_SSP1BUF (SSP1BUF m ++ [0] ++ waveform (take q (leds m)))
             (set_SSP1IF true (set_GIE true m))))).

(** The machine when the pass is over. *)
Definition after_pass (m : machine) : machine :=
  set_byte_count 0
    (set_isr_ptr 384%nat
       (set_isr_current_byte 0
          (set_SSP1BUF (SSP1BUF m ++ [0] ++ waveform (leds m))
             (set_SSP1IF false (set_GIE false m))))).

(** ** The two contexts *)

(** What the decoder reads and owns: its locals, the pixel buffer and the
    bytes for the host. *)
Definition decoder_view (m : machine) :=
  (leds m, toPC_count m, command m, color_index m, current_byte m,
   previous_byte m, led_index m, data_remaining m, wptr m, in_buf m, toPC m).

(** The activation flag as a gate: with [GIE] set, decoding a byte leaves
    the pixel buffer alone. *)
Definition gate_respected (index : nat) (byte : Z) (m : machine) : Prop :=
  GIE m = true ->
  forall m' : machine, loop_body index byte m = Some m' -> leds m' = leds m.


(** ** The rest of [main] and the two contexts together *)

(** What the USB stack answers during one iteration of [for (;;)]:
    [usb_is_configured()], [usb_in_endpoint_halted(2)],
    [usb_in_endpoint_busy(2)], and the chunk [usb_get_out_buffer] returns
    when [usb_out_endpoint_has_data(2)]. *)
Record usb_answers := {
  usb_is_configured : bool;
  usb_in_endpoint_halted : bool;
  usb_in_endpoint_busy : bool;
  usb_get_out_buffer : option (list Z)
}.

(** Whether the iteration gets past the two [continue] of lines 81-86. *)
Definition usb_ready (u : usb_answers) : bool :=
  usb_is_configured u
  && negb (usb_in_endpoint_halted u || usb_in_endpoint_busy u).

(** Lines 78-191: one iteration of [for (;;)]. *)
Definition main_loop (u : usb_answers) (m : machine) : option machine :=
  if negb (usb_is_configured u) then Some m
  else if usb_in_endpoint_halted u || usb_in_endpoint_busy u then Some m
  else
    let m := flush m in
    match usb_get_out_buffer u with
    | None => Some m
    | Some out_buf => chunk_loop 0 out_buf m
    end.

Fixpoint poll (us : list usb_answers) (m : machine) : option machine :=
  match us with
  | [] => Some m
  | u :: us' => m' ← main_loop u m; poll us' m'
  end.

(** The packet line 94 hands to [usb_send_in_buffer], if any. *)
Definition in_packet (m : machine) : list (list Z) :=
  if 0 <? toPC_count m then [take (Z.to_nat (toPC_count m)) (in_buf m)]
  else [].

(** The packets handed to the USB stack over a run of iterations. *)
Fixpoint packets (us : list usb_answers) (m : machine) : list (list Z) :=
  match us with
  | [] => []
  | u :: us' =>
      (if usb_ready u then in_packet m else [])
      ++ match main_loop u m with
         | Some m' => packets us' m'
         | None => []
         end
  end.

(** The bytes staged in [in_buf] are acknowledgments, two at most. *)
Definition staged_ok (m : machine) : Prop :=
  toPC_count m <= 2
  /\ take (Z.to_nat (toPC_count m)) (in_buf m)
     = replicate (Z.to_nat (toPC_count m)) 0xFF.

(** The statics of [isr] and the read pointer.  While the interrupt is
    enabled it is pending and the read pointer is not ahead of the byte
    counter; while it is disabled the emitter is at rest. *)
Definition emitter_inv (m : machine) : Prop :=
  0 <= byte_count m <= LED_COUNT * sizeof_ws_led_struct
  /\ 0 <= bit_position m <= 7
  /\ if GIE m then SSP1IF m = true /\ Z.of_nat (isr_ptr m) <= byte_count m
     else bit_position m = 0 /\ byte_count m = 0.

(** The interrupts left before the pass in progress is over. *)
Definition pass_left (m : machine) : Z :=
  if GIE m then
    (if bit_position m =? 0 then 0 else 8 - bit_position m)
    + 8 * (LED_COUNT * sizeof_ws_led_struct - byte_count m) + 1
  else 0.

(** Whether decoding the next byte performs the hand-off. *)
Definition hands_off (m : machine) : bool :=
  negb (data_remaining m =? 0) && (command m =? 2)
  && (u16 (data_remaining m - 1) =? 0).

(** What a receiver makes of the pulses: a long one is a 1. *)
Definition bit_of_pulse (p : Z) : bool := p =? 0xFF.

Definition byte_of_bits (bits : list bool) : Z :=
  fold_left (fun acc (bit : bool) => 2 * acc + (if bit then 1 else 0)) bits 0.

Fixpoint bytes_of_pulses (n : nat) (pulses : list Z) : list Z :=
  match n with
  | O => []
  | S n' =>
      byte_of_bits (map bit_of_pulse (take 8 pulses))
      :: bytes_of_pulses n' (drop 8 pulses)
  end.

(** The interleaved schedule without its interrupts. *)
Definition bytes_only (sched : list (list (nat * Z))) : list (list Z) :=
  map (map snd) sched.

(** What the decoder leaves to the emitter and to the USB stack. *)
Definition hw_view (m : machine) :=
  (isr_ptr m, GIE m, SSP1IF m, SSP1BUF m, bit_position m, byte_count m,
   isr_current_byte m, toPC m).

(** A body of command 2 in the order of the buffer and of the wire: green,
    red, blue. *)
Fixpoint wire_order (P : list Z) : list Z :=
  match P with
  | rv :: gv :: bv :: P' => gv :: rv :: bv :: wire_order P'
  | _ => []
  end.

(** Two machines that differ at most in the locals of [main] that are not
    initialised before the loop. *)
Definition same_but_locals (m1 m2 : machine) : Prop :=
  leds m1 = leds m2 /\ isr_ptr m1 = isr_ptr m2
  /\ toPC_count m1 = toPC_count m2 /\ data_remaining m1 = data_remaining m2
  /\ bit_position m1 = bit_position m2 /\ byte_count m1 = byte_count m2
  /\ isr_current_byte m1 = isr_current_byte m2 /\ GIE m1 = GIE m2
  /\ SSP1IF m1 = SSP1IF m2 /\ SSP1BUF m1 = SSP1BUF m2
  /\ in_buf m1 = in_buf m2 /\ toPC m1 = toPC m2.

(** The chunks the decoder gets to see over a run of iterations: one for
    every iteration that passes the guards, empty when no data is
    waiting. *)
Definition chunks_of (us : list usb_answers) : list (list Z) :=
  flat_map (fun u : usb_answers =>
              if usb_ready u then [default [] (usb_get_out_buffer u)] else [])
           us.

(** How far two runs of the decoder agree when they started with different
    values in the locals that are not initialised: after no byte, after one
    byte, and from the second byte on. *)
Definition agree (k : nat) (m1 m2 : machine) : Prop :=
  match k with
  | 0%nat => same_but_locals m1 m2 /\ data_remaining m1 = 0
  | 1%nat => m2 = set_previous_byte (previous_byte m2) m1
  | _ => m1 = m2
  end.

(** The command, the two byte latches and the length still expected. *)
Definition latch_view (m : machine) :=
  (command m, current_byte m, previous_byte m, data_remaining m).

(** ** Messages that start a chunk *)

(** A message as the host sends it when every header starts a chunk: the
    header [msg_op; msg_lo; msg_hi] and the first bytes [msg_first] of the
    body in one chunk, the rest of the body in the chunks [msg_rest]. *)
Record message := {
  msg_op : Z;
  msg_lo : Z;
  msg_hi : Z;
  msg_first : list Z;
  msg_rest : list (list Z)
}.

Definition msg_body (c : message) : list Z :=
  msg_first c ++ concat (msg_rest c).

Definition msg_chunks (c : message) : list (list Z) :=
  ([msg_op c; msg_lo c; msg_hi c] ++ msg_first c) :: msg_rest c.

(** The header declares the length of the body, low byte first. *)
Definition framed (c : message) : Prop :=
  is_u8 (msg_lo c) /\ is_u8 (msg_hi c)
  /\ Z.lor (msg_lo c) (Z.shiftl (msg_hi c) 8) = Z.of_nat (length (msg_body c)).

Definition stream (cs : list message) : list (list Z) :=
  flat_map msg_chunks cs.

(** The messages of a list that have a body. *)
Definition with_body (cs : list message) : list message :=
  List.filter (fun c : message => negb (length (msg_body c) =? 0)%nat) cs.

(** ** What the emitter reads and writes *)






(** ** Proof support *)

Ltac Zify.zify_post_hook ::= Z.to_euclidean_division_equations.

(** Normalise field updates and projections, leaving arithmetic alone. *)
Ltac fields :=
  cbv beta iota zeta delta
    [hand_off write_SSP1BUF set_leds set_isr_ptr set_toPC_count set_command
     set_color_index set_current_byte set_previous_byte set_led_index
     set_data_remaining set_wptr set_bit_position set_byte_count
     set_isr_current_byte set_GIE set_SSP1IF set_SSP1BUF set_in_buf set_toPC
     leds isr_ptr toPC_count command color_index current_byte previous_byte
     led_index data_remaining wptr bit_position byte_count isr_current_byte
     GIE SSP1IF SSP1BUF in_buf toPC mbind option_bind] in *.

Ltac close :=
  first [ assumption | reflexivity | lia
        | rewrite length_insert; first [assumption | lia]
        | repeat split; first [assumption | reflexivity]
        | unfold u8, u16 in *; lia ].

Lemma Zeqb_false (x y : Z) : x <> y -> (x =? y) = false.
Proof. intros; apply Z.eqb_neq; assumption. Qed.

Lemma chunk_loop_app (a c : list Z) : forall (index : nat) (m : machine),
  chunk_loop index (a ++ c) m
  = m' ← chunk_loop index a m; chunk_loop (index + length a) c m'.
Proof.
  induction a as [|x a IH]; intros index m; cbn [app chunk_loop length].
  - cbn. f_equal. lia.
  - destruct (loop_body index x m) as [m'|]; cbn; [|reflexivity].
    rewrite IH. replace (S index + length a)%nat with (index + S (length a))%nat
      by lia. reflexivity.
Qed.

Lemma run_app (a c : list (list Z)) : forall m : machine,
  run (a ++ c) m = m' ← run a m; run c m'.
Proof.
  induction a as [|x a IH]; intros m; cbn [app run]; [reflexivity|].
  destruct (iteration x m) as [m'|]; cbn; [apply IH|reflexivity].
Qed.

Lemma serve_add (j k : nat) : forall m : machine,
  serve (j + k) m = m' ← serve j m; serve k m'.
Proof.
  induction j as [|j IH]; intros m; cbn [Nat.add serve]; [reflexivity|].
  destruct (interrupt m) as [m'|]; cbn; [apply IH|reflexivity].
Qed.

(** Handing the staged bytes over does not change what the host gets. *)
Lemma acks_flush (m : machine) : 0 <= toPC_count m -> acks (flush m) = acks m.
Proof.
  intros Hc. unfold flush, acks.
  destruct (0 <? toPC_count m) eqn:E; [|reflexivity].
  fields. rewrite take_0, app_nil_r. reflexivity.
Qed.

Lemma flush_staged_0 (m : machine) : toPC_count m = 0 -> flush m = m.
Proof. intros H. unfold flush. rewrite H. reflexivity. Qed.

(** The length of a message, as the third header byte latches it. *)
Lemma lor_shiftl_byte (lo hi : Z) :
  is_u8 lo -> is_u8 hi ->
  Z.lor (u16 (Z.shiftl hi 8)) lo = Z.lor lo (Z.shiftl hi 8)
  /\ Z.lor lo (Z.shiftl hi 8) = lo + 256 * hi.
Proof.
  unfold is_u8, u16. intros Hlo Hhi.
  rewrite Z.shiftl_mul_pow2 by lia. change (2 ^ 8) with 256.
  rewrite Z.mod_small by lia. split; [apply Z.lor_comm|].
  replace (256 * hi) with (hi * 256) by lia.
  symmetry. apply Z.add_nocarry_lor.
  apply Z.bits_inj'. intros k Hk. rewrite Z.land_spec, Z.bits_0.
  destruct (Z.lt_ge_cases k 8) as [Hlt|Hge].
  - replace (hi * 256) with (hi * 2 ^ 8) by reflexivity.
    rewrite (Z.mul_pow2_bits_low hi 8 k) by lia. apply andb_false_r.
  - replace lo with (lo mod 2 ^ 8) by (apply Z.mod_small; change (2 ^ 8) with 256; lia).
    rewrite Z.mod_pow2_bits_high by lia. reflexivity.
Qed.

Lemma acknowledge_0 (m : machine) :
  toPC_count m = 0 -> (1 <= length (in_buf m))%nat ->
  acknowledge m
  = Some (set_toPC_count 1 (set_in_buf (<[0%nat := 0xFF]> (in_buf m)) m)).
Proof.
  intros Hc Hl. unfold acknowledge, store. rewrite Hc.
  change (Z.to_nat 0) with 0%nat.
  destruct (decide (0 < length (in_buf m))%nat) as [_|]; [|lia]. reflexivity.
Qed.

Lemma take_1_insert_0 (x : Z) (l : list Z) :
  (1 <= length l)%nat -> take 1 (<[0%nat := x]> l) = [x].
Proof. destruct l; cbn; [lia|reflexivity]. Qed.

Lemma swap_rg_cases (k : nat) :
  ((k mod 3 = 0 /\ swap_rg k = k + 1) \/ (k mod 3 = 1 /\ swap_rg k = k - 1)
   \/ (k mod 3 = 2 /\ swap_rg k = k))%nat.
Proof.
  unfold swap_rg. destruct (k mod 3)%nat as [|[|[|j]]] eqn:E; lia.
Qed.

Section Message.
Variable P : list Z.
Hypothesis P_short : Z.of_nat (length P) < 65536.

Lemma other_step (s1 : machine) (n index : nat) (byte : Z) (s : machine) :
  (1 <= length (in_buf s1))%nat ->
  command s1 <> 2 -> body_inv P s1 n s -> (n < length P)%nat ->
  exists s', loop_body index byte s = Some s' /\ body_inv P s1 (S n) s'.
Proof.
  intros Hroom Hop Hinv Hn. unfold body_inv in *.
  destruct (decide (command s1 = 2)) as [|_]; [contradiction|].
  destruct Hinv as [Hd Hu].
  destruct Hd as [Hcmd Hrem Hcnt Hst Hacks Hib Hll Hstat].
  destruct Hu as [Hl Hci Hli Hw Hh]. specialize (Hst Hn).
  destruct (decide (n = length P)) as [|_]; [lia|].
  rewrite app_nil_r in Hacks.
  destruct Hh as (Hh1 & Hh2 & Hh3 & Hh4).
  destruct Hstat as (Hs1 & Hs2 & Hs3).
  unfold acks in *.
  destruct s as [l ip tc cmd ci cb pb li dr w bp bc icb gie sif sbuf ib tp].
  destruct s1 as [l1 ip1 tc1 cmd1 ci1 cb1 pb1 li1 dr1 w1 bp1 bc1 icb1 gie1
                    sif1 sbuf1 ib1 tp1].
  fields. subst.
  change (Z.to_nat 0) with 0%nat in Hacks. rewrite take_0, app_nil_r in Hacks.
  subst tp. unfold loop_body, payload_byte. fields.
  rewrite (Zeqb_false (Z.of_nat (length P - n)) 0) by lia.
  rewrite (Zeqb_false cmd1 2) by assumption.
  replace (u16 (Z.of_nat (length P - n) - 1)) with (Z.of_nat (length P - S n))
    by (unfold u16; lia).
  destruct (decide (S n = length P)) as [Hlast|Hmore].
  - replace (Z.of_nat (length P - S n) =? 0) with true
      by (symmetry; apply Z.eqb_eq; lia).
    unfold acknowledge, store. fields. change (Z.to_nat 0) with 0%nat.
    destruct (decide (0 < length ib)%nat) as [_|]; [|lia].
    eexists. split; [reflexivity|].
    split; constructor; unfold acks; fields; try close.
    change (Z.to_nat (u8 (0 + 1))) with 1%nat.
    destruct ib as [|x ib]; [cbn in Hib; lia|].
    case_decide; [reflexivity|lia].
  - rewrite (Zeqb_false (Z.of_nat (length P - S n)) 0) by lia.
    eexists. split; [reflexivity|].
    split; constructor; unfold acks; fields; try close.
    change (Z.to_nat 0) with 0%nat. rewrite take_0, app_nil_r.
    case_decide; [lia|]. rewrite app_nil_r. reflexivity.
Qed.
Lemma pixel_step (s1 : machine) (n index : nat) (byte : Z) (s : machine) :
  (1 <= length (in_buf s1))%nat -> length (leds s1) = 384%nat ->
  command s1 = 2 -> body_inv P s1 n s -> P !! n = Some byte ->
  exists s', loop_body index byte s = Some s' /\ body_inv P s1 (S n) s'.
Proof.
  intros Hroom Hsz Hop Hinv Hbyte.
  pose proof (lookup_lt_Some _ _ _ Hbyte) as Hn. unfold body_inv in *.
  destruct (decide (command s1 = 2)) as [_|]; [|contradiction].
  destruct Hinv as [Hd Hp].
  destruct Hd as [Hcmd Hrem Hcnt Hst Hacks Hib Hll Hstat].
  destruct Hp as [Hci Hli Hw Hleds Hh]. specialize (Hst Hn).
  destruct (decide (n = length P)) as [|_]; [lia|].
  rewrite app_nil_r in Hacks.
  destruct Hh as (Hh1 & Hh2 & Hh3 & Hh4).
  destruct Hstat as (Hs1 & Hs2 & Hs3).
  unfold acks in *.
  destruct s as [l ip tc cmd ci cb pb li dr w bp bc icb gie sif sbuf ib tp].
  destruct s1 as [l1 ip1 tc1 cmd1 ci1 cb1 pb1 li1 dr1 w1 bp1 bc1 icb1 gie1
                    sif1 sbuf1 ib1 tp1].
  fields. subst.
  change (Z.to_nat 0) with 0%nat in Hacks. rewrite take_0, app_nil_r in Hacks.
  subst tp. unfold loop_body, payload_byte. fields.
  rewrite (Zeqb_false (Z.of_nat (length P - n)) 0) by lia.
  change (2 =? 2) with true. cbv iota.
  replace (u16 (Z.of_nat (length P - n) - 1)) with (Z.of_nat (length P - S n))
    by (unfold u16; lia).
  assert (Hz : (Z.of_nat (length P - S n) =? 0)
               = if decide (S n = length P) then true else false)
    by (case_decide; [apply Z.eqb_eq|apply Z.eqb_neq]; lia).
  unfold write_color, next_color, store_leds, store. fields.
  pose proof (swap_rg_cases n) as Hsw.
  destruct (decide (n / 3 < 128)%nat) as [Hin|Hout];
  destruct Hsw as [[Hm Hs]|[[Hm Hs]|[Hm Hs]]]; rewrite Hm;
    change (Z.of_nat 0) with 0; change (Z.of_nat 1) with 1;
    change (Z.of_nat 2) with 2; cbv iota;
    destruct (decide (S n = length P)) as [Hlast|Hmore];
    repeat first
      [ progress fields
      | progress (change (u8 (0 + 1) =? 3) with false;
                  change (u8 (1 + 1) =? 3) with false;
                  change (u8 (2 + 1) =? 3) with true)
      | rewrite Hz
      | rewrite acknowledge_0 by (cbn; first [reflexivity | lia])
      | match goal with
        | |- context [decide (?a < length l)%nat] =>
            destruct (decide (a < length l)%nat); [|lia]
        | |- context [?a =? LED_COUNT] =>
            destruct (a =? LED_COUNT) eqn:Hled
        end ].
  all: eexists; (split; [reflexivity|]).
  all: try match goal with
       | H : (_ =? LED_COUNT) = true |- _ => apply Z.eqb_eq in H
       | H : (_ =? LED_COUNT) = false |- _ => apply Z.eqb_neq in H
       end.
  all: unfold LED_COUNT, u8 in *.
  all: split; constructor; unfold acks; fields.
  all: try first [ assumption | reflexivity | repeat split; reflexivity
                 | rewrite length_insert; assumption ].
  all: match goal with
       | |- forall off : nat, <[?o := _]> _ !! _ = _ =>
           intros off; pose proof (swap_rg_cases off) as Ho;
           destruct (decide (off = o)) as [->|Hne];
           [ rewrite list_lookup_insert_eq by lia; case_decide; [|lia];
             rewrite <- Hbyte; f_equal; lia
           | rewrite list_lookup_insert_ne by lia; rewrite Hleds;
             repeat case_decide; first [reflexivity | lia] ]
       | |- forall off : nat, _ =>
           intros off; pose proof (swap_rg_cases off) as Ho; rewrite Hleds;
           repeat case_decide; first [reflexivity | lia]
       | |- _ ++ _ = _ ++ _ =>
           f_equal; case_decide;
           first [lia | reflexivity | apply take_1_insert_0; lia]
       | |- _ = (if decide _ then _ else _) =>
           clear Hleds; case_decide; first [reflexivity | f_equal; lia | lia]
       | |- (if decide _ then _ else _) =>
           clear Hleds; case_decide; first [lia | repeat split; reflexivity]
       | |- _ => clear Hleds; lia
       end.
Qed.

Lemma body_step (s1 : machine) (n index : nat) (byte : Z) (s : machine) :
  (1 <= length (in_buf s1))%nat ->
  (command s1 = 2 -> length (leds s1) = 384%nat) ->
  body_inv P s1 n s -> P !! n = Some byte ->
  exists s', loop_body index byte s = Some s' /\ body_inv P s1 (S n) s'.
Proof.
  intros Hroom Hsz Hinv Hbyte. destruct (decide (command s1 = 2)) as [Hop|Hop].
  - apply pixel_step; auto.
  - apply other_step; auto. eapply lookup_lt_Some; eassumption.
Qed.

Lemma body_chunk (s1 : machine) (bytes : list Z) :
  (1 <= length (in_buf s1))%nat ->
  (command s1 = 2 -> length (leds s1) = 384%nat) ->
  forall (tail : list Z) (n index : nat) (s : machine),
  body_inv P s1 n s -> drop n P = bytes ++ tail ->
  exists s', chunk_loop index bytes s = Some s'
    /\ body_inv P s1 (n + length bytes) s'.
Proof.
  intros Hroom Hsz. induction bytes as [|x bytes IH]; intros tail n index s Hinv Hd.
  - exists s. cbn [chunk_loop length]. rewrite Nat.add_0_r. auto.
  - assert (Hx : P !! n = Some x).
    { rewrite <- (Nat.add_0_r n), <- lookup_drop, Hd. reflexivity. }
    destruct (body_step s1 n index x s Hroom Hsz Hinv Hx) as (s' & Hs' & Hinv').
    destruct (IH tail (S n) (S index) s' Hinv') as (s'' & Hs'' & Hinv'').
    { replace (S n) with (n + 1)%nat by lia. rewrite <- drop_drop, Hd.
      reflexivity. }
    exists s''. cbn [chunk_loop length]. rewrite Hs'. cbn.
    replace (n + S (length bytes))%nat with (S n + length bytes)%nat by lia.
    auto.
Qed.

Lemma body_flush (s1 : machine) (n : nat) (s : machine) :
  body_inv P s1 n s -> body_inv P s1 n (flush s).
Proof.
  intros Hinv. unfold flush. destruct (0 <? toPC_count s) eqn:E; [|assumption].
  apply Z.ltb_lt in E. destruct Hinv as [Hd Hp].
  assert (Ha : acks (flush s) = acks s) by (apply acks_flush; lia).
  unfold flush in Ha. replace (0 <? toPC_count s) with true in Ha
    by (symmetry; apply Z.ltb_lt; assumption).
  split.
  - destruct Hd as [H1 H2 H3 H4 H5 H6 H7 H8].
    constructor; try exact H1; try exact H2; try exact H6; try exact H7;
      try exact H8.
    + cbn. lia.
    + intros Hn. specialize (H4 Hn). lia.
    + rewrite Ha. exact H5.
  - destruct (decide (command s1 = 2)); destruct Hp as [G1 G2 G3 G4 G5];
      constructor; first [exact G1 | exact G2 | exact G3 | exact G4 | exact G5].
Qed.

Lemma body_run (s1 : machine) (chunks : list (list Z)) :
  (1 <= length (in_buf s1))%nat ->
  (command s1 = 2 -> length (leds s1) = 384%nat) ->
  forall (tail : list Z) (n : nat) (s : machine),
  body_inv P s1 n s -> drop n P = concat chunks ++ tail ->
  exists s', run chunks s = Some s'
    /\ body_inv P s1 (n + length (concat chunks)) s'.
Proof.
  intros Hroom Hsz. induction chunks as [|c cs IH]; intros tail n s Hinv Hd.
  - exists s. cbn. rewrite Nat.add_0_r. auto.
  - cbn [concat] in Hd. rewrite <- app_assoc in Hd.
    destruct (body_chunk s1 c Hroom Hsz (concat cs ++ tail) n 0%nat (flush s)
                (body_flush _ _ _ Hinv) Hd) as (s' & Hs' & Hinv').
    destruct (IH tail (n + length c)%nat s' Hinv') as (s'' & Hs'' & Hinv'').
    { rewrite <- drop_drop, Hd, drop_app_length. reflexivity. }
    exists s''. cbn [run concat]. unfold iteration. rewrite Hs'. cbn.
    rewrite length_app, Nat.add_assoc. auto.
Qed.

End Message.

(** ** A header at the start of a chunk *)

Lemma header_chunk (op lo hi : Z) (s0 : machine) :
  data_remaining s0 = 0 ->
  chunk_loop 0 [op; lo; hi] (flush s0) = Some (latched op lo hi s0).
Proof.
  intros Hidle. unfold latched, flush.
  destruct s0 as [l ip tc cmd ci cb pb li dr w bp bc icb gie sif sbuf ib tp].
  fields. subst dr.
  destruct (0 <? tc); cbn [chunk_loop]; unfold loop_body, header_byte; fields;
    change (0 =? 0) with true; fields; reflexivity.
Qed.

Lemma latched_frame (op lo hi : Z) (s0 : machine) :
  0 <= toPC_count s0 ->
  let s1 := latched op lo hi s0 in
  command s1 = op /\ data_remaining s1 = Z.lor (u16 (Z.shiftl hi 8)) lo
  /\ color_index s1 = 0 /\ led_index s1 = 0 /\ wptr s1 = Some 0%nat
  /\ toPC_count s1 = 0 /\ acks s1 = acks s0
  /\ leds s1 = leds s0 /\ in_buf s1 = in_buf s0
  /\ isr_ptr s1 = isr_ptr s0 /\ GIE s1 = GIE s0 /\ SSP1IF s1 = SSP1IF s0
  /\ SSP1BUF s1 = SSP1BUF s0
  /\ bit_position s1 = bit_position s0 /\ byte_count s1 = byte_count s0
  /\ isr_current_byte s1 = isr_current_byte s0.
Proof.
  intros Hc s1. subst s1. unfold latched, flush, acks.
  destruct s0 as [l ip tc cmd ci cb pb li dr w bp bc icb gie sif sbuf ib tp].
  fields. destruct (0 <? tc) eqn:E; fields.
  - change (Z.to_nat 0) with 0%nat. rewrite take_0, app_nil_r.
    repeat split; reflexivity.
  - apply Z.ltb_ge in E. assert (tc = 0) by lia. subst tc.
    repeat split; reflexivity.
Qed.

Lemma latched_inv (P : list Z) (op lo hi : Z) (s0 : machine) :
  0 <= toPC_count s0 ->
  Z.of_nat (length P) = Z.lor (u16 (Z.shiftl hi 8)) lo -> (0 < length P)%nat ->
  body_inv P (latched op lo hi s0) 0 (latched op lo hi s0).
Proof.
  intros Hc HL Hpos.
  destruct (latched_frame op lo hi s0 Hc)
    as (F1 & F2 & F3 & F4 & F5 & F6 & F7 & _).
  split.
  - constructor.
    + reflexivity.
    + rewrite F2, Nat.sub_0_r. auto.
    + lia.
    + auto.
    + destruct (decide (0%nat = length P)); [lia|]. rewrite app_nil_r.
      reflexivity.
    + reflexivity.
    + reflexivity.
    + auto.
  - destruct (decide (command (latched op lo hi s0) = 2)).
    + constructor; try assumption.
      * intros off. case_decide; [lia|reflexivity].
      * destruct (decide (0%nat = length P)); [lia|]. auto.
    + constructor; auto.
Qed.

(** A whole message, or the part of it received so far, cut into chunks in
    any way after a header that starts a chunk. *)
Lemma message_run (P : list Z) (op lo hi : Z) (s0 : machine)
      (p0 : list Z) (rest : list (list Z)) (tail : list Z) :
  data_remaining s0 = 0 -> 0 <= toPC_count s0 ->
  (1 <= length (in_buf s0))%nat -> (op = 2 -> length (leds s0) = 384%nat) ->
  is_u8 lo -> is_u8 hi ->
  Z.of_nat (length P) = Z.lor lo (Z.shiftl hi 8) -> (0 < length P)%nat ->
  p0 ++ concat rest ++ tail = P ->
  exists s', run (([op; lo; hi] ++ p0) :: rest) s0 = Some s'
    /\ body_inv P (latched op lo hi s0) (length (p0 ++ concat rest)) s'.
Proof.
  intros Hidle Hc Hroom Hsz Hlo Hhi HL Hpos Hsplit.
  destruct (lor_shiftl_byte lo hi Hlo Hhi) as [E1 E2].
  destruct (latched_frame op lo hi s0 Hc)
    as (F1 & F2 & _ & _ & _ & _ & _ & F8 & F9 & _).
  assert (Hshort : Z.of_nat (length P) < 65536)
    by (rewrite HL, E2; unfold is_u8 in *; lia).
  assert (Hroom1 : (1 <= length (in_buf (latched op lo hi s0)))%nat)
    by (rewrite F9; assumption).
  assert (Hsz1 : command (latched op lo hi s0) = 2 ->
                 length (leds (latched op lo hi s0)) = 384%nat)
    by (rewrite F1, F8; assumption).
  assert (Hinv0 := latched_inv P op lo hi s0 Hc).
  rewrite E1 in Hinv0. specialize (Hinv0 HL Hpos).
  destruct (body_chunk P Hshort _ p0 Hroom1 Hsz1 (concat rest ++ tail) 0%nat
              3%nat _ Hinv0) as (s2 & Hs2 & Hinv2);
    [rewrite drop_0; symmetry; assumption|].
  destruct (body_run P Hshort _ rest Hroom1 Hsz1 tail _ s2 Hinv2)
    as (s3 & Hs3 & Hinv3).
  { rewrite <- Hsplit. cbn [Nat.add]. rewrite drop_app_length. reflexivity. }
  exists s3. cbn [run]. unfold iteration.
  rewrite chunk_loop_app, header_chunk by assumption. cbn [mbind option_bind].
  cbn [length Nat.add]. rewrite Hs2. cbn [mbind option_bind].
  rewrite length_app. auto.
Qed.

(** ** Memory safety of the decoder *)

Lemma acknowledge_ok (m : machine) :
  (Z.to_nat (toPC_count m) < length (in_buf m))%nat ->
  acknowledge m
  = Some (set_toPC_count (u8 (toPC_count m + 1))
            (set_in_buf (<[Z.to_nat (toPC_count m) := 0xFF]> (in_buf m)) m)).
Proof.
  intros H. unfold acknowledge, store.
  destruct (decide (Z.to_nat (toPC_count m) < length (in_buf m))%nat); [|lia].
  reflexivity.
Qed.

Lemma loop_body_safe (index : nat) (byte : Z) (s : machine) :
  chunk_inv index s ->
  exists s', loop_body index byte s = Some s' /\ chunk_inv (S index) s'
    /\ toPC_count s' = toPC_count s + (if last_of_body s then 1 else 0)
    /\ acks s' = acks s ++ (if last_of_body s then [0xFF] else []).
Proof.
  unfold chunk_inv, cursor_ok, last_of_body, acks, LED_COUNT.
  destruct s as [l ip tc cmd ci cb pb li dr w bp bc icb gie sif sbuf ib tp].
  fields. intros (Hl & Hib & Hc & Hpot & Hcur).
  unfold loop_body. fields. destruct (dr =? 0) eqn:Hdr.
  - (* header *)
    apply Z.eqb_eq in Hdr. subst dr. eexists. split; [reflexivity|].
    cbn [negb andb]. rewrite app_nil_r, Z.add_0_r.
    destruct index as [|[|[|index]]]; unfold header_byte; fields;
      cbn [Nat.leb] in *.
    all: repeat split; try close.
    all: try (destruct (Z.lor _ _ =? 0); lia).
    all: try (right; cbn; lia).
    all: destruct Hcur as [[? _]|?]; [lia|auto].
  - (* message body *)
    apply Z.eqb_neq in Hdr. cbn [negb andb].
    destruct Hcur as [[_ ?]|(Hci & Hw)]; [contradiction|].
    assert (Htc : tc = 0 \/ tc = 1) by (destruct (index <=? 2)%nat; lia).
    assert (Htake : take (Z.to_nat (u8 (tc + 1))) (<[Z.to_nat tc := 255]> ib)
                    = take (Z.to_nat tc) ib ++ [255]).
    { destruct ib as [|y0 [|y1 ib]]; cbn in Hib; try lia.
      destruct Htc; subst tc; reflexivity. }
    unfold payload_byte. fields.
    destruct (u16 (dr - 1) =? 0) eqn:Hlast;
    destruct (cmd =? 2) eqn:Hcmd; fields; rewrite ?Hlast.
    1,3: assert (Hc3 : ci = 0 \/ ci = 1 \/ ci = 2) by lia;
      unfold write_color, next_color, store_leds, store; fields;
      destruct w as [w|]; [destruct Hw as [Hw1 Hw2]|];
      destruct Hc3 as [-> | [-> | ->]]; cbv iota;
      repeat first
        [ progress fields
        | rewrite Hlast
        | progress (change (u8 (0 + 1) =? 3) with false;
                    change (u8 (1 + 1) =? 3) with false;
                    change (u8 (2 + 1) =? 3) with true)
        | match goal with
          | |- context [decide (?a < length ?x)%nat] =>
              destruct (decide (a < length x)%nat); [|lia]
          | |- context [?a =? LED_COUNT] =>
              destruct (a =? LED_COUNT) eqn:Hled
          end ].
    all: try rewrite acknowledge_ok by (cbn; lia).
    all: eexists; (split; [reflexivity|]); fields.
    all: rewrite ?Htake, ?app_nil_r, ?app_assoc, ?length_insert.
    all: repeat split; try close.
    all: try (apply Z.eqb_eq in Hled || apply Z.eqb_neq in Hled).
    all: unfold u8, LED_COUNT in *; rewrite ?Hlast; try lia.
    all: try (destruct index as [|[|[|?]]]; cbn [Nat.leb] in *; lia).
    all: try (right; repeat split; try lia).
    all: try (destruct w; auto).
Qed.

Lemma last_of_body_1 (s : machine) :
  is_u16 (data_remaining s) -> last_of_body s = (data_remaining s =? 1).
Proof.
  unfold is_u16, last_of_body, u16. intros H.
  destruct (Z.eqb_spec (data_remaining s) 0) as [E0|E0];
    destruct (Z.eqb_spec (data_remaining s) 1) as [E1|E1];
    cbn [negb andb]; try reflexivity; try lia;
    first [apply Z.eqb_eq; lia | apply Z.eqb_neq; lia].
Qed.

Lemma chunk_loop_safe (out_buf : list Z) : forall (index : nat) (s : machine),
  chunk_inv index s ->
  exists s', chunk_loop index out_buf s = Some s'
    /\ chunk_inv (index + length out_buf) s'
    /\ toPC_count s'
       = toPC_count s + Z.of_nat (completions_chunk index out_buf s)
    /\ acks s' = acks s ++ replicate (completions_chunk index out_buf s) 0xFF.
Proof.
  induction out_buf as [|x rest IH]; intros index s Hinv.
  - exists s. cbn. rewrite Nat.add_0_r, app_nil_r, Z.add_0_r. auto.
  - destruct (loop_body_safe index x s Hinv) as (s1 & Hs1 & Hinv1 & Hc1 & Ha1).
    destruct (IH (S index) s1 Hinv1) as (s2 & Hs2 & Hinv2 & Hc2 & Ha2).
    exists s2. cbn [chunk_loop completions_chunk length]. rewrite Hs1. cbn.
    rewrite Hs2, Hc2, Hc1, Ha2, Ha1.
    replace (index + S (length rest))%nat with (S index + length rest)%nat by lia.
    split; [reflexivity|]. split; [assumption|]. split.
    + destruct (last_of_body s); cbv iota; lia.
    + rewrite <- app_assoc. f_equal. destruct (last_of_body s); reflexivity.
Qed.

Lemma flush_inv (s : machine) :
  decoder_inv s ->
  chunk_inv 0 (flush s) /\ toPC_count (flush s) = 0 /\ acks (flush s) = acks s.
Proof.
  intros (Hl & Hb & Hc & Hcur). rewrite acks_flush by assumption.
  unfold chunk_inv, flush. destruct (0 <? toPC_count s) eqn:E.
  - cbn. repeat split; try assumption; try lia.
    + destruct (data_remaining s =? 0); lia.
    + destruct Hcur as [?|?]; [left|right]; auto.
  - apply Z.ltb_ge in E. assert (H0 : toPC_count s = 0) by lia. rewrite H0.
    cbn. repeat split; try assumption; try lia.
    + destruct (data_remaining s =? 0); lia.
    + destruct Hcur as [?|?]; [left|right]; auto.
Qed.

Lemma chunk_inv_decoder (index : nat) (s : machine) :
  chunk_inv index s -> decoder_inv s /\ toPC_count s <= 2.
Proof.
  intros (Hl & Hb & Hc & Hpot & Hcur). unfold decoder_inv.
  repeat split; try assumption.
  - destruct Hcur as [[_ ?]|?]; [left|right]; assumption.
  - destruct (data_remaining s =? 0); destruct (index <=? 2)%nat; lia.
Qed.

Lemma iteration_safe (out_buf : list Z) (s : machine) :
  decoder_inv s ->
  exists s', iteration out_buf s = Some s' /\ decoder_inv s'
    /\ toPC_count s' = Z.of_nat (completions_chunk 0 out_buf (flush s))
    /\ toPC_count s' <= 2
    /\ acks s' = acks s ++ replicate (completions_chunk 0 out_buf (flush s)) 0xFF.
Proof.
  intros Hinv. destruct (flush_inv s Hinv) as (Hf & Hf0 & Hfa).
  destruct (chunk_loop_safe out_buf 0 (flush s) Hf) as (s' & Hs' & Hinv' & Hc' & Ha').
  destruct (chunk_inv_decoder _ _ Hinv') as [Hd' Hle].
  exists s'. unfold iteration. rewrite Hs', Ha', Hfa.
  split; [reflexivity|]. split; [assumption|]. split; [lia|]. split; auto.
Qed.

Lemma run_safe (chunks : list (list Z)) : forall s : machine,
  decoder_inv s ->
  exists s', run chunks s = Some s' /\ decoder_inv s'
    /\ acks s' = acks s ++ replicate (completions chunks s) 0xFF.
Proof.
  induction chunks as [|c cs IH]; intros s Hinv.
  - exists s. cbn. rewrite app_nil_r. auto.
  - destruct (iteration_safe c s Hinv) as (s1 & Hs1 & Hinv1 & _ & _ & Ha1).
    destruct (IH s1 Hinv1) as (s2 & Hs2 & Hinv2 & Ha2).
    exists s2. cbn [run completions]. rewrite Hs1. cbn.
    rewrite Hs2, Ha2, Ha1, <- app_assoc, replicate_add. auto.
Qed.

Lemma power_on_inv (m : machine) :
  power_on m -> (2 <= length (in_buf m))%nat -> decoder_inv m.
Proof.
  intros (Hl & Hc & Hd & _) Hb. unfold decoder_inv.
  rewrite Hl, Hc, Hd. repeat split; auto; lia.
Qed.

(** ** The claims *)

Ltac goal_decide :=
  match goal with |- context [decide ?p] => destruct (decide p) end.

Lemma idle_run (rest : list (list Z)) : forall s : machine,
  toPC_count s = 0 -> concat rest = [] -> run rest s = Some s.
Proof.
  induction rest as [|c cs IH]; intros s Hc Hnil; [reflexivity|].
  cbn [concat] in Hnil. apply app_eq_nil in Hnil as [-> Hnil].
  cbn [run]. unfold iteration. rewrite flush_staged_0 by assumption. cbn.
  apply IH; assumption.
Qed.

Lemma led_at_triple (l : list Z) (i : nat) (gv rv bv : Z) :
  l !! (3 * i)%nat = Some gv -> l !! (3 * i + 1)%nat = Some rv ->
  l !! (3 * i + 2)%nat = Some bv ->
  led_at l i = Some {| g := gv; r := rv; b := bv |}.
Proof. intros Hg Hr Hb. unfold led_at. rewrite Hg, Hr, Hb. reflexivity. Qed.

Lemma led_at_ext (l l' : list Z) (i : nat) :
  (forall off : nat, (3 * i <= off < 3 * i + 3)%nat -> l !! off = l' !! off) ->
  led_at l i = led_at l' i.
Proof.
  intros H. unfold led_at. rewrite !H by lia. reflexivity.
Qed.

Lemma swap_rg_0 (i : nat) : swap_rg (3 * i) = (3 * i + 1)%nat.
Proof. unfold swap_rg. replace ((3 * i) mod 3)%nat with 0%nat by lia. reflexivity. Qed.

Lemma swap_rg_1 (i : nat) : swap_rg (3 * i + 1) = (3 * i)%nat.
Proof.
  unfold swap_rg. replace ((3 * i + 1) mod 3)%nat with 1%nat by lia. lia.
Qed.

Lemma swap_rg_2 (i : nat) : swap_rg (3 * i + 2) = (3 * i + 2)%nat.
Proof.
  unfold swap_rg. replace ((3 * i + 2) mod 3)%nat with 2%nat by lia.
  reflexivity.
Qed.

Lemma swap_rg_lt (off k : nat) :
  (swap_rg off < 3 * k)%nat -> (off < 3 * k)%nat.
Proof. pose proof (swap_rg_cases off). lia. Qed.

Lemma lt_swap_rg (off k : nat) :
  (off < 3 * k)%nat -> (swap_rg off < 3 * k)%nat.
Proof. pose proof (swap_rg_cases off). lia. Qed.

(** Reading the buffer back, entry by entry. *)
Lemma pixels_triple (P l l0 : list Z) (n i : nat) (rv gv bv : Z) :
  (forall off : nat,
     l !! off = if decide (off < 384 /\ swap_rg off < n)%nat
                then P !! swap_rg off else l0 !! off) ->
  (i < 128)%nat -> (3 * i + 2 < n)%nat ->
  P !! (3 * i)%nat = Some rv -> P !! (3 * i + 1)%nat = Some gv ->
  P !! (3 * i + 2)%nat = Some bv ->
  led_at l i = Some {| g := gv; r := rv; b := bv |}.
Proof.
  intros H Hi Hn Hr Hg Hb. apply led_at_triple; rewrite H.
  - rewrite swap_rg_0, decide_True by lia. assumption.
  - rewrite swap_rg_1, decide_True by lia. assumption.
  - rewrite swap_rg_2, decide_True by lia. assumption.
Qed.

Lemma pixels_rest (P l l0 : list Z) (n i : nat) :
  (forall off : nat,
     l !! off = if decide (off < 384 /\ swap_rg off < n)%nat
                then P !! swap_rg off else l0 !! off) ->
  (n <= 3 * i)%nat -> led_at l i = led_at l0 i.
Proof.
  intros H Hn. apply led_at_ext. intros off Hoff. rewrite H.
  rewrite decide_False; [reflexivity|]. intros [_ Hlt].
  assert (Hs : (swap_rg off < 3 * i)%nat) by lia.
  apply swap_rg_lt in Hs. lia.
Qed.

(** C1, as the code has it.  A command with opcode 2 whose declared length
    is [3 * K] with [K <= LED_COUNT], received between messages after a
    header that starts a chunk, and cut into chunks in any way: when its last byte has been decoded, entry [i]
    of the pixel buffer holds green, red, blue from payload bytes [3i+1],
    [3i], [3i+2] for every [i < K], every other entry is as it was, and one
    acknowledgment 0xFF has been queued (none when [K = 0]). *)
Theorem C1_set_pixels (s0 : machine) (lo hi : Z) (P p0 : list Z)
    (rest : list (list Z)) (K : nat) :
  data_remaining s0 = 0 -> is_u8 (toPC_count s0) ->
  length (leds s0) = 384%nat -> (1 <= length (in_buf s0))%nat ->
  is_u8 lo -> is_u8 hi ->
  Z.lor lo (Z.shiftl hi 8) = Z.of_nat (length P) ->
  length P = (3 * K)%nat -> Z.of_nat K <= LED_COUNT ->
  p0 ++ concat rest = P ->
  exists s',
    run (([2; lo; hi] ++ p0) :: rest) s0 = Some s'
    /\ data_remaining s' = 0
    /\ (forall (i : nat) (rv gv bv : Z),
          P !! (3 * i)%nat = Some rv -> P !! (3 * i + 1)%nat = Some gv ->
          P !! (3 * i + 2)%nat = Some bv ->
          led_at (leds s') i = Some {| g := gv; r := rv; b := bv |})
    /\ (forall i : nat, (K <= i)%nat -> led_at (leds s') i = led_at (leds s0) i)
    /\ length (leds s') = 384%nat
    /\ acks s' = acks s0 ++ (if decide (K = 0%nat) then [] else [0xFF]).
Proof.
  intros Hidle Hc Hsz Hroom Hlo Hhi HL HK HKmax Hsplit.
  unfold LED_COUNT in HKmax.
  assert (Hc0 : 0 <= toPC_count s0) by (unfold is_u8 in Hc; lia).
  destruct (latched_frame 2 lo hi s0 Hc0)
    as (F1 & F2 & F3 & F4 & F5 & F6 & F7 & F8 & F9 & _).
  destruct (lor_shiftl_byte lo hi Hlo Hhi) as [E1 _].
  destruct (decide (K = 0%nat)) as [HK0|HK0].
  - (* no body *)
    subst K. destruct P; [|cbn in HK; lia].
    apply app_eq_nil in Hsplit as [-> Hrest].
    exists (latched 2 lo hi s0). cbn [run app]. unfold iteration.
    rewrite header_chunk by assumption. cbn [mbind option_bind].
    rewrite idle_run by assumption. rewrite F2, E1, HL, F7, F8, app_nil_r.
    repeat split; try assumption; try reflexivity.
    intros i rv gv bv Hr. rewrite lookup_nil in Hr. discriminate.
  - destruct (message_run P 2 lo hi s0 p0 rest []) as (s' & Hrun & Hd & Hp);
      try assumption; try lia; try (rewrite app_nil_r; assumption); auto.
    rewrite Hsplit in *.
    destruct (decide (command (latched 2 lo hi s0) = 2)) as [_|]; [|contradiction].
    destruct Hd as [_ Hrem _ _ Hacks _ Hlen _]. destruct Hp as [_ _ _ Hleds _].
    exists s'. split; [assumption|]. split; [rewrite Hrem; lia|].
    rewrite F8 in *. rewrite F7 in Hacks.
    destruct (decide (length P = length P)) as [_|]; [|contradiction].
    repeat split; try congruence.
    + intros i rv gv bv Hr Hg Hb.
      pose proof (lookup_lt_Some _ _ _ Hb) as Hi.
      apply (pixels_triple P _ _ _ i rv gv bv Hleds); auto; lia.
    + intros i Hi. apply (pixels_rest P _ _ _ i Hleds). lia.
Qed.

(** C7, as the code has it.  A command whose opcode is not 2 and whose
    body is not empty, received between messages after a header that
    starts a chunk: when its last byte has been
    decoded the pixel buffer is as it was, no hand-off has taken place (the
    read pointer, the interrupt enable and the SPI data register are
    untouched), and one acknowledgment 0xFF has been queued. *)
Theorem C7_other_opcode (s0 : machine) (op lo hi : Z) (P p0 : list Z)
    (rest : list (list Z)) :
  data_remaining s0 = 0 -> is_u8 (toPC_count s0) ->
  (1 <= length (in_buf s0))%nat ->
  op <> 2 -> is_u8 lo -> is_u8 hi ->
  Z.lor lo (Z.shiftl hi 8) = Z.of_nat (length P) -> (0 < length P)%nat ->
  p0 ++ concat rest = P ->
  exists s',
    run (([op; lo; hi] ++ p0) :: rest) s0 = Some s'
    /\ data_remaining s' = 0 /\ leds s' = leds s0
    /\ isr_ptr s' = isr_ptr s0 /\ GIE s' = GIE s0 /\ SSP1IF s' = SSP1IF s0
    /\ SSP1BUF s' = SSP1BUF s0
    /\ acks s' = acks s0 ++ [0xFF].
Proof.
  intros Hidle Hc Hroom Hop Hlo Hhi HL Hpos Hsplit.
  assert (Hc0 : 0 <= toPC_count s0) by (unfold is_u8 in Hc; lia).
  destruct (latched_frame op lo hi s0 Hc0)
    as (F1 & _ & _ & _ & _ & _ & F7 & F8 & _ & F10 & F11 & F12 & F13 & _).
  destruct (message_run P op lo hi s0 p0 rest []) as (s' & Hrun & Hd & Hp);
    try assumption; try lia; try (rewrite app_nil_r; assumption);
    try (intros; contradiction); auto.
  rewrite Hsplit in *.
  destruct (decide (command (latched op lo hi s0) = 2)) as [E|_];
    [rewrite F1 in E; contradiction|].
  destruct Hd as [_ Hrem _ _ Hacks _ _ _].
  destruct Hp as [Hleds _ _ _ (H1 & H2 & H3 & H4)].
  destruct (decide (length P = length P)) as [_|]; [|contradiction].
  exists s'. split; [assumption|]. split; [rewrite Hrem; lia|].
  repeat split; congruence.
Qed.

(** C5, as the code has it.  A command with opcode 2 that declares more
    than [LED_COUNT] triples, received between messages after a header
    that starts a chunk, at any chunk boundary reached while it is decoded: the write cursor is active as long
    as fewer than 384 body bytes have been decoded and [NULL] from then on;
    once it is [NULL] the buffer holds the first 128 triples and nothing
    else is ever written; every byte is counted, and the only byte sent to
    the host is the acknowledgment 0xFF at the end.  And whatever chunks are
    received, no access leaves the buffer (no step fails). *)
Theorem C5_overflow_guard (s0 : machine) (lo hi : Z) (P p0 : list Z)
    (rest : list (list Z)) (tail : list Z) (chunks : list (list Z)) :
  data_remaining s0 = 0 -> is_u8 (toPC_count s0) ->
  length (leds s0) = 384%nat -> (2 <= length (in_buf s0))%nat ->
  is_u8 lo -> is_u8 hi ->
  Z.lor lo (Z.shiftl hi 8) = Z.of_nat (length P) ->
  LED_COUNT < Z.of_nat (length P / 3) ->
  p0 ++ concat rest ++ tail = P ->
  (exists s',
     run (([2; lo; hi] ++ p0) :: rest) s0 = Some s'
     /\ data_remaining s' = Z.of_nat (length tail)
     /\ wptr s'
        = (if decide (length (p0 ++ concat rest) < 384)%nat
           then Some (3 * (length (p0 ++ concat rest) / 3))%nat else None)
     /\ length (leds s') = 384%nat
     /\ ((384 <= length (p0 ++ concat rest))%nat ->
         forall (i : nat) (rv gv bv : Z),
           (i < 128)%nat ->
           P !! (3 * i)%nat = Some rv -> P !! (3 * i + 1)%nat = Some gv ->
           P !! (3 * i + 2)%nat = Some bv ->
           led_at (leds s') i = Some {| g := gv; r := rv; b := bv |})
     /\ acks s'
        = acks s0 ++ (if decide (length tail = 0%nat) then [0xFF] else []))
  /\ (exists s'', run chunks s0 = Some s'' /\ length (leds s'') = 384%nat).
Proof.
  intros Hidle Hc Hsz Hroom Hlo Hhi HL HK Hsplit. unfold LED_COUNT in HK.
  assert (Hc0 : 0 <= toPC_count s0) by (unfold is_u8 in Hc; lia).
  split.
  - destruct (latched_frame 2 lo hi s0 Hc0)
      as (F1 & _ & _ & _ & _ & _ & F7 & F8 & _).
    assert (Hpos : (0 < length P)%nat) by (clear - HK; lia).
    assert (Hroom1 : (1 <= length (in_buf s0))%nat) by (clear - Hroom; lia).
    destruct (message_run P 2 lo hi s0 p0 rest tail) as (s' & Hrun & Hd & Hp);
      auto.
    destruct (decide (command (latched 2 lo hi s0) = 2)) as [_|];
      [|contradiction].
    destruct Hd as [_ Hrem _ _ Hacks _ Hlen _].
    destruct Hp as [_ _ Hw Hleds _].
    assert (Hn : length P = (length (p0 ++ concat rest) + length tail)%nat)
      by (rewrite <- Hsplit, !length_app; lia).
    remember (length (p0 ++ concat rest)) as n eqn:En. clear En.
    exists s'. split; [assumption|].
    split; [rewrite Hrem; clear - Hn; lia|]. split.
    { rewrite Hw. destruct (decide (n / 3 < 128)%nat) as [A|A];
        destruct (decide (n < 384)%nat) as [B|B];
        first [reflexivity | exfalso; clear - A B; lia]. }
    split; [congruence|]. split.
    + intros Hfull i rv gv bv Hi Hr Hg Hb.
      apply (pixels_triple P _ _ _ i rv gv bv Hleds); auto.
      clear - Hi Hfull. lia.
    + rewrite Hacks, F7. f_equal.
      destruct (decide (n = length P)) as [A|A];
        destruct (decide (length tail = 0%nat)) as [B|B];
        first [reflexivity | exfalso; clear - A B Hn; lia].
  - destruct (run_safe chunks s0) as (s'' & Hrun & Hinv & _).
    + unfold decoder_inv. auto.
    + exists s''. split; [assumption|]. apply Hinv.
Qed.

(** C6, as the code has it.  A command with opcode 2 whose declared length
    is not a multiple of 3, received after a header that starts a chunk:
    the bytes of its trailing group are written as they arrive.  With [K]
    full triples, [K < LED_COUNT], the first byte of the group is the red
    channel of entry [K] and the second, if there is one, its green
    channel; the blue channel of entry [K] and the entries after it are as
    they were.  With [K >= LED_COUNT] the group is not written. *)
Theorem C6_partial_group (s0 : machine) (lo hi : Z) (P p0 : list Z)
    (rest : list (list Z)) (K : nat) :
  data_remaining s0 = 0 -> is_u8 (toPC_count s0) ->
  length (leds s0) = 384%nat -> (1 <= length (in_buf s0))%nat ->
  is_u8 lo -> is_u8 hi ->
  Z.lor lo (Z.shiftl hi 8) = Z.of_nat (length P) ->
  (length P mod 3 <> 0)%nat -> K = (length P / 3)%nat ->
  p0 ++ concat rest = P ->
  exists s',
    run (([2; lo; hi] ++ p0) :: rest) s0 = Some s'
    /\ ((K < 128)%nat ->
        leds s' !! (3 * K + 1)%nat = P !! (3 * K)%nat
        /\ leds s' !! (3 * K)%nat
           = (if decide (length P mod 3 = 2)%nat then P !! (3 * K + 1)%nat
              else leds s0 !! (3 * K)%nat)
        /\ leds s' !! (3 * K + 2)%nat = leds s0 !! (3 * K + 2)%nat
        /\ forall i : nat, (K < i)%nat ->
             led_at (leds s') i = led_at (leds s0) i)
    /\ ((128 <= K)%nat ->
        forall off : nat, (off < 384)%nat ->
          leds s' !! off = P !! swap_rg off).
Proof.
  intros Hidle Hc Hsz Hroom Hlo Hhi HL Hmod HK Hsplit.
  assert (Hc0 : 0 <= toPC_count s0) by (unfold is_u8 in Hc; lia).
  destruct (latched_frame 2 lo hi s0 Hc0)
    as (F1 & _ & _ & _ & _ & _ & F7 & F8 & _).
  assert (Hpos : (0 < length P)%nat) by (clear - Hmod; lia).
  destruct (message_run P 2 lo hi s0 p0 rest []) as (s' & Hrun & Hd & Hp);
    try (rewrite app_nil_r; assumption); auto.
  rewrite Hsplit in *.
  destruct (decide (command (latched 2 lo hi s0) = 2)) as [_|]; [|contradiction].
  destruct Hp as [_ _ _ Hleds _]. rewrite F8 in Hleds.
  exists s'. split; [assumption|].
  remember (length P) as L eqn:EL. clear - Hleds Hmod HK. split.
  - intros HKlt. split; [|split; [|split]].
    + rewrite Hleds, swap_rg_1, decide_True by lia. reflexivity.
    + rewrite Hleds, swap_rg_0. destruct (decide (L mod 3 = 2)%nat).
      * rewrite decide_True by lia. reflexivity.
      * rewrite decide_False by lia. reflexivity.
    + rewrite Hleds, swap_rg_2, decide_False by lia. reflexivity.
    + intros i Hi. apply (pixels_rest P _ _ _ i Hleds). lia.
  - intros HKge off Hoff. rewrite Hleds. rewrite decide_True; [reflexivity|].
    split; [assumption|].
    assert (Hs : (swap_rg off < 3 * 128)%nat) by (apply lt_swap_rg; lia).
    lia.
Qed.

(** C4, as the code has it.  After a header that starts a chunk, the decoder
    is back between messages when exactly the declared number of body bytes
    has been decoded, whatever the opcode, the length and the cutting into
    chunks (at once for a length of 0).  The position in the chunk alone
    says what a byte between messages is: the three bytes that follow are
    taken as a header when they are the first three of a chunk. *)
Theorem C4_next_header (s0 : machine) (op lo hi : Z) (P p0 : list Z)
    (rest : list (list Z)) (op' lo' hi' : Z) :
  data_remaining s0 = 0 -> is_u8 (toPC_count s0) ->
  (op = 2 -> length (leds s0) = 384%nat) -> (1 <= length (in_buf s0))%nat ->
  is_u8 lo -> is_u8 hi -> is_u8 lo' -> is_u8 hi' ->
  Z.lor lo (Z.shiftl hi 8) = Z.of_nat (length P) ->
  p0 ++ concat rest = P ->
  exists s1 s2,
    run (([op; lo; hi] ++ p0) :: rest) s0 = Some s1
    /\ data_remaining s1 = 0
    /\ run [[op'; lo'; hi']] s1 = Some s2
    /\ header_parsed op' lo' hi' s2.
Proof.
  intros Hidle Hc Hsz Hroom Hlo Hhi Hlo' Hhi' HL Hsplit.
  assert (Hc0 : 0 <= toPC_count s0) by (unfold is_u8 in Hc; lia).
  assert (Hs1 : exists s1, run (([op; lo; hi] ++ p0) :: rest) s0 = Some s1
                  /\ data_remaining s1 = 0 /\ 0 <= toPC_count s1).
  { destruct (latched_frame op lo hi s0 Hc0) as (_ & F2 & _ & _ & _ & F6 & _).
    destruct (lor_shiftl_byte lo hi Hlo Hhi) as [E1 _].
    destruct (decide (length P = 0%nat)) as [H0|H0].
    - destruct P; [|cbn in H0; lia].
      apply app_eq_nil in Hsplit as [-> Hrest].
      exists (latched op lo hi s0). cbn [run app]. unfold iteration.
      rewrite header_chunk by assumption. cbn [mbind option_bind].
      rewrite idle_run by assumption. rewrite F2, E1, HL, F6.
      repeat split; try reflexivity; lia.
    - destruct (message_run P op lo hi s0 p0 rest []) as (s1 & Hrun & Hd & _);
        try assumption; try lia; try (rewrite app_nil_r; assumption).
      rewrite Hsplit in Hd. destruct Hd as [_ Hrem Hcnt _ _ _ _ _].
      exists s1. repeat split; try assumption. rewrite Hrem. lia. }
  destruct Hs1 as (s1 & Hrun1 & Hidle1 & Hc1).
  exists s1, (latched op' lo' hi' s1). split; [assumption|].
  split; [assumption|]. split.
  - cbn [run]. unfold iteration. rewrite header_chunk by assumption.
    reflexivity.
  - destruct (latched_frame op' lo' hi' s1 Hc1) as (F1 & F2 & F3 & F4 & F5 & _).
    destruct (lor_shiftl_byte lo' hi' Hlo' Hhi') as [E1 _].
    unfold header_parsed. rewrite F2, E1. auto.
Qed.

(** C9. A byte received between two messages at position 3 or later of a
    chunk, and every byte after it in the chunk: opcode, remaining length,
    write cursor, colour phase, LED counter, pixel buffer and staged
    acknowledgments are as before; only the two latches [current_byte] and
    [previous_byte] of the loop take the bytes received. *)
Theorem C9_discarded_bytes (out_buf : list Z) (index : nat) (s : machine) :
  data_remaining s = 0 -> (3 <= index)%nat ->
  exists s',
    chunk_loop index out_buf s = Some s'
    /\ same_but_latches s s' /\ acks s' = acks s
    /\ forall byte : Z,
         loop_body index byte s
         = Some (set_current_byte byte (set_previous_byte (current_byte s) s)).
Proof.
  intros Hidle Hidx.
  assert (Hstep : forall (i : nat) (x : Z) (m : machine),
            data_remaining m = 0 -> (3 <= i)%nat ->
            loop_body i x m
            = Some (set_current_byte x (set_previous_byte (current_byte m) m))).
  { intros i x m Hm Hi. unfold loop_body. cbn. rewrite Hm. cbn.
    destruct i as [|[|[|i]]]; try lia. reflexivity. }
  assert (Hloop : forall (l : list Z) (i : nat) (m : machine),
            data_remaining m = 0 -> (3 <= i)%nat ->
            exists m', chunk_loop i l m = Some m' /\ same_but_latches m m').
  { induction l as [|x l IH]; intros i m Hm Hi.
    - exists m. split; [reflexivity|]. unfold same_but_latches. tauto.
    - cbn [chunk_loop]. rewrite Hstep by assumption. cbn [mbind option_bind].
      destruct (IH (S i) (set_current_byte x
                            (set_previous_byte (current_byte m) m)))
        as (m' & Hm' & Hsame); [assumption|lia|].
      exists m'. split; [assumption|]. unfold same_but_latches in *.
      cbn in Hsame. exact Hsame. }
  destruct (Hloop out_buf index s Hidle Hidx) as (s' & Hs' & Hsame).
  exists s'. split; [assumption|]. split; [assumption|]. split.
  - unfold acks. destruct Hsame as (_ & _ & _ & _ & _ & _ & E1 & E2 & E3 & _).
    rewrite E1, E2, E3. reflexivity.
  - intros byte. apply Hstep; assumption.
Qed.

(** C10. One chunk, received in any state the decoder can be in between two
    chunks, with an endpoint buffer of two bytes or more: the staging count
    is 0 when the first byte is decoded, at most two acknowledgments are
    staged while the chunk is decoded, each write to the staging buffer is
    inside it, and a length is latched at position 2 of a chunk only. *)
Theorem C10_staging_bound (out_buf : list Z) (s : machine) :
  decoder_inv s ->
  toPC_count (flush s) = 0
  /\ (exists s',
        iteration out_buf s = Some s' /\ 0 <= toPC_count s' <= 2
        /\ (Z.to_nat (toPC_count s') <= length (in_buf s'))%nat
        /\ acks s' = acks s ++ replicate (Z.to_nat (toPC_count s')) 0xFF
        /\ decoder_inv s')
  /\ (forall (index : nat) (byte : Z) (m m' : machine),
        data_remaining m = 0 -> index <> 2%nat ->
        loop_body index byte m = Some m' -> data_remaining m' = 0).
Proof.
  intros Hinv. destruct (flush_inv s Hinv) as (_ & Hf0 & _).
  split; [assumption|]. split.
  - destruct (iteration_safe out_buf s Hinv) as (s' & Hs' & Hinv' & Hc & Hle & Ha).
    exists s'. split; [assumption|]. split; [lia|].
    destruct Hinv' as (Hl' & Hb' & Hc' & Hcur').
    split; [lia|]. split.
    + rewrite Ha, Hc, Nat2Z.id. reflexivity.
    + unfold decoder_inv. auto.
  - intros index byte m m' Hm Hidx Hstep. unfold loop_body in Hstep.
    cbn in Hstep. rewrite Hm in Hstep. cbn in Hstep.
    injection Hstep as <-.
    destruct index as [|[|[|index]]]; try contradiction; cbn; assumption.
Qed.

(** Over any stream of chunks, from any state the decoder can be in
    between two chunks: the bytes queued for the host are one 0xFF for each
    byte that the decoder takes for the last of a body, in that order, and
    nothing else; it takes a byte for the last of a body when its counter
    stands at 1 before the byte is decoded; a header of length 0 at the
    start of a chunk queues nothing. *)
Lemma acks_completions (chunks : list (list Z)) (s : machine) (op : Z) :
  decoder_inv s ->
  (exists s',
     run chunks s = Some s'
     /\ acks s' = acks s ++ replicate (completions chunks s) 0xFF)
  /\ (forall m : machine,
        is_u16 (data_remaining m) -> last_of_body m = (data_remaining m =? 1))
  /\ (data_remaining s = 0 ->
      exists s', run [[op; 0; 0]] s = Some s' /\ data_remaining s' = 0
        /\ completions [[op; 0; 0]] s = 0%nat /\ acks s' = acks s).
Proof.
  intros Hinv. split; [|split].
  - destruct (run_safe chunks s Hinv) as (s' & Hs' & _ & Ha). eauto.
  - apply last_of_body_1.
  - intros Hidle. destruct (flush_inv s Hinv) as (Hf & Hf0 & _).
    destruct Hinv as (_ & _ & Hc & _).
    destruct (latched_frame op 0 0 s Hc) as (_ & F2 & _ & _ & _ & F6 & F7 & _).
    destruct (chunk_loop_safe [op; 0; 0] 0 (flush s) Hf) as (s' & Hs' & _ & Hn & _).
    rewrite header_chunk in Hs' by assumption. injection Hs' as <-.
    exists (latched op 0 0 s). cbn [run]. unfold iteration.
    rewrite header_chunk by assumption. split; [reflexivity|].
    split; [rewrite F2; reflexivity|]. split; [|assumption].
    cbn [completions]. unfold iteration. rewrite header_chunk by assumption.
    lia.
Qed.

(** ** The emitter *)

Lemma pulse_testbit (x : Z) : pulse x = pattern (Z.testbit x 7).
Proof.
  unfold pulse, pattern. change 0x80 with (2 ^ 7).
  destruct (Z.testbit x 7) eqn:E.
  - rewrite Zeqb_false; [reflexivity|]. intros H.
    assert (F : Z.testbit (Z.land x (2 ^ 7)) 7 = true)
      by (rewrite Z.land_spec, E, Z.pow2_bits_true by lia; reflexivity).
    rewrite H, Z.bits_0 in F. discriminate.
  - replace (Z.land x (2 ^ 7)) with 0; [reflexivity|]. symmetry.
    apply Z.bits_inj'. intros k Hk. rewrite Z.land_spec, Z.bits_0.
    destruct (Z.eq_dec k 7) as [->|Hne].
    + rewrite E. reflexivity.
    + rewrite Z.pow2_bits_false by lia. apply andb_false_r.
Qed.

Lemma shl8_iter (j : nat) (v : Z) :
  Nat.iter j shl8 v mod 256 = (v * 2 ^ Z.of_nat j) mod 256.
Proof.
  induction j as [|j IH].
  - cbn [Nat.iter]. change (2 ^ Z.of_nat 0) with 1. rewrite Z.mul_1_r.
    reflexivity.
  - change (Nat.iter (S j) shl8 v) with (shl8 (Nat.iter j shl8 v)).
    unfold shl8 at 1. unfold u8.
    rewrite Z.shiftl_mul_pow2 by lia. change (2 ^ 1) with 2.
    rewrite Z.mod_mod by lia. rewrite <- Z.mul_mod_idemp_l, IH by lia.
    rewrite Z.mul_mod_idemp_l by lia. f_equal.
    rewrite Nat2Z.inj_succ, Z.pow_succ_r by lia. lia.
Qed.

Lemma shl8_8 (v : Z) : Nat.iter 8 shl8 v = 0.
Proof.
  assert (H : Nat.iter 8 shl8 v = Nat.iter 8 shl8 v mod 256).
  { change (Nat.iter 8 shl8 v) with (shl8 (Nat.iter 7 shl8 v)).
    unfold shl8 at 1 3. unfold u8. rewrite Z.mod_mod by lia. reflexivity. }
  rewrite H, shl8_iter. change (2 ^ Z.of_nat 8) with 256. apply Z.mod_mul. lia.
Qed.

Lemma pulse_shl8 (j : nat) (v : Z) :
  (j < 8)%nat ->
  pulse (Nat.iter j shl8 v) = pattern (Z.testbit v (7 - Z.of_nat j)).
Proof.
  intros Hj. rewrite pulse_testbit. f_equal.
  rewrite <- (Z.mod_pow2_bits_low (Nat.iter j shl8 v) 8 7) by lia.
  change (2 ^ 8) with 256. rewrite shl8_iter. change 256 with (2 ^ 8).
  rewrite Z.mod_pow2_bits_low by lia. apply Z.mul_pow2_bits. lia.
Qed.

Lemma shift_out_8 (v : Z) : shift_out 8 v = map pattern (bits_msb_first v).
Proof.
  change (shift_out 8 v)
    with (map (fun j : nat => pulse (Nat.iter j shl8 v)) (seq 0 8)).
  unfold bits_msb_first. rewrite map_map. apply map_ext_in.
  intros j Hj. apply in_seq in Hj. rewrite pulse_shl8 by lia.
  do 2 f_equal. lia.
Qed.

Lemma waveform_length (bytes : list Z) :
  length (waveform bytes) = (8 * length bytes)%nat.
Proof.
  induction bytes as [|x l IH]; [reflexivity|].
  unfold waveform in *. cbn [flat_map]. rewrite length_app, IH.
  cbn [length]. unfold bits_msb_first. rewrite !length_map, length_seq. lia.
Qed.

Lemma waveform_snoc (bytes : list Z) (v : Z) :
  waveform (bytes ++ [v]) = waveform bytes ++ shift_out 8 v.
Proof.
  unfold waveform. rewrite flat_map_app. cbn [flat_map]. rewrite app_nil_r.
  rewrite shift_out_8. reflexivity.
Qed.

(** The three things an interrupt does. *)
Lemma interrupt_load (m : machine) (v : Z) :
  GIE m = true -> SSP1IF m = true -> bit_position m = 0 ->
  0 <= byte_count m < 384 -> leds m !! isr_ptr m = Some v ->
  interrupt m
  = Some (set_bit_position 1
            (set_isr_current_byte (shl8 v)
               (set_SSP1BUF (SSP1BUF m ++ [pulse v])
                  (set_byte_count (byte_count m + 1)
                     (set_isr_ptr (S (isr_ptr m)) m))))).
Proof.
  destruct m as [l ip tc cmd ci cb pb li dr w bp bc icb gie sif sbuf ib tp].
  fields. intros -> -> -> Hbc Hv. unfold interrupt, isr, shl8. fields.
  rewrite Hv. unfold LED_COUNT, sizeof_ws_led_struct. change (0 =? 0) with true.
  rewrite (Zeqb_false bc (128 * 3)) by lia. fields.
  change (Z.land (0 + 1) 7) with 1.
  replace (u16 (bc + 1)) with (bc + 1) by (unfold u16; lia). reflexivity.
Qed.

Lemma interrupt_shift (m : machine) :
  GIE m = true -> SSP1IF m = true -> 1 <= bit_position m <= 7 ->
  interrupt m
  = Some (set_bit_position (if bit_position m =? 7 then 0
                            else bit_position m + 1)
            (set_isr_current_byte (shl8 (isr_current_byte m))
               (set_SSP1BUF (SSP1BUF m ++ [pulse (isr_current_byte m)]) m))).
Proof.
  destruct m as [l ip tc cmd ci cb pb li dr w bp bc icb gie sif sbuf ib tp].
  fields. intros -> -> Hbp. unfold interrupt, isr, shl8. fields.
  rewrite (Zeqb_false bp 0) by lia. fields.
  assert (E : Z.land (bp + 1) 7 = if bp =? 7 then 0 else bp + 1).
  { assert (C : bp = 1 \/ bp = 2 \/ bp = 3 \/ bp = 4 \/ bp = 5 \/ bp = 6
                \/ bp = 7) by lia.
    destruct C as [->|[->|[->|[->|[->|[->| ->]]]]]]; reflexivity. }
  rewrite E. reflexivity.
Qed.

Lemma interrupt_done (m : machine) :
  GIE m = true -> SSP1IF m = true -> bit_position m = 0 ->
  byte_count m = 384 ->
  interrupt m = Some (set_byte_count 0 (set_GIE false (set_SSP1IF false m))).
Proof.
  destruct m as [l ip tc cmd ci cb pb li dr w bp bc icb gie sif sbuf ib tp].
  fields. intros -> -> -> ->. reflexivity.
Qed.

Lemma interrupt_idle (m : machine) : GIE m = false -> interrupt m = Some m.
Proof. intros H. unfold interrupt. rewrite H. reflexivity. Qed.

Lemma serve_idle (n : nat) (m : machine) : GIE m = false -> serve n m = Some m.
Proof.
  intros H. induction n as [|n IH]; [reflexivity|].
  cbn [serve]. rewrite interrupt_idle by assumption. exact IH.
Qed.

(** One byte of the buffer: eight interrupts. *)
Lemma serve_byte (m : machine) (q : nat) (v : Z) :
  leds m !! q = Some v -> (q < 384)%nat ->
  bit_position m = 0 ->
  serve 8 (in_pass m q) = Some (in_pass m (S q)).
Proof.
  intros Hv Hq Hbp. unfold in_pass.
  rewrite (take_S_r _ _ _ Hv), waveform_snoc.
  pose proof (shl8_8 v) as H8.
  change (Nat.iter 8 shl8 v)
    with (shl8 (shl8 (shl8 (shl8 (shl8 (shl8 (shl8 (shl8 v)))))))) in H8.
  destruct m as [l ip tc cmd ci cb pb li dr w bp bc icb gie sif sbuf ib tp].
  fields. subst bp. cbn [serve shift_out].
  rewrite (interrupt_load _ v); try reflexivity; try assumption;
    [|fields; lia]. fields.
  do 7 (rewrite interrupt_shift;
          [|reflexivity|reflexivity|fields; vm_compute; split; discriminate];
        fields;
        match goal with
        | |- context [if ?a =? 7 then _ else _] =>
            let b := eval vm_compute in (a =? 7) in
            change (a =? 7) with b; cbv iota
        end).
  rewrite H8, Nat2Z.inj_succ, <- !app_assoc. reflexivity.
Qed.

Lemma serve_bytes (m : machine) (j : nat) : forall q : nat,
  length (leds m) = 384%nat -> bit_position m = 0 -> (q + j <= 384)%nat ->
  serve (8 * j) (in_pass m q) = Some (in_pass m (q + j)).
Proof.
  induction j as [|j IH]; intros q Hl Hbp Hq.
  - rewrite Nat.add_0_r. reflexivity.
  - replace (8 * S j)%nat with (8 + 8 * j)%nat by lia. rewrite serve_add.
    destruct (lookup_lt_is_Some_2 (leds m) q) as [v Hv]; [lia|].
    rewrite (serve_byte m q v) by (assumption || lia).
    cbn [mbind option_bind]. rewrite IH by (assumption || lia).
    f_equal. f_equal. lia.
Qed.

Lemma hand_off_in_pass (m : machine) :
  byte_count m = 0 -> hand_off m = in_pass m 0.
Proof.
  destruct m as [l ip tc cmd ci cb pb li dr w bp bc icb gie sif sbuf ib tp].
  unfold in_pass. fields. intros ->. reflexivity.
Qed.

Lemma in_pass_done (m : machine) :
  length (leds m) = 384%nat -> bit_position m = 0 ->
  interrupt (in_pass m 384) = Some (after_pass m).
Proof.
  intros Hl Hbp. rewrite interrupt_done; try reflexivity; [|exact Hbp].
  unfold in_pass, after_pass. rewrite take_ge by lia.
  destruct m as [l ip tc cmd ci cb pb li dr w bp bc icb gie sif sbuf ib tp].
  reflexivity.
Qed.

Lemma interrupt_appends (m m' : machine) :
  interrupt m = Some m' ->
  exists x, SSP1BUF m' = SSP1BUF m ++ x /\ (length x <= 1)%nat.
Proof.
  destruct m as [l ip tc cmd ci cb pb li dr w bp bc icb gie sif sbuf ib tp].
  unfold interrupt, isr. fields.
  destruct gie, sif; cbn [andb]; fields;
    try (intros [= <-]; exists []; rewrite app_nil_r; split; [reflexivity|cbn; lia]).
  destruct (bp =? 0); cbn [andb];
    [destruct (bc =? LED_COUNT * sizeof_ws_led_struct);
     [|destruct (l !! ip)]|]; fields; intros [= <-];
    first [ exists []; rewrite app_nil_r; split; [reflexivity|cbn; lia]
          | eexists [_]; split; [reflexivity|cbn; lia] ].
Qed.

Lemma serve_appends (n : nat) : forall m m' : machine,
  serve n m = Some m' ->
  exists x, SSP1BUF m' = SSP1BUF m ++ x /\ (length x <= n)%nat.
Proof.
  induction n as [|n IH]; intros m m' H.
  - injection H as <-. exists []. rewrite app_nil_r. split; [reflexivity|cbn; lia].
  - cbn [serve] in H. destruct (interrupt m) as [m1|] eqn:E; [|discriminate].
    cbn in H. destruct (interrupt_appends _ _ E) as (x & Hx & Hlx).
    destruct (IH _ _ H) as (y & Hy & Hly).
    exists (x ++ y). rewrite Hy, Hx, <- app_assoc. split; [reflexivity|].
    rewrite length_app. lia.
Qed.

Lemma serve_pass (m : machine) :
  length (leds m) = 384%nat -> bit_position m = 0 -> byte_count m = 0 ->
  serve (8 * 384) (hand_off m) = Some (in_pass m 384).
Proof.
  intros Hl Hbp Hbc. rewrite hand_off_in_pass by assumption.
  apply (serve_bytes m 384 0); auto.
Qed.

Lemma serve_prefix (m : machine) (n : nat) :
  length (leds m) = 384%nat -> bit_position m = 0 -> byte_count m = 0 ->
  (n <= 8 * 384)%nat ->
  exists m',
    serve n (hand_off m) = Some m'
    /\ SSP1BUF m' = SSP1BUF m ++ [0x00] ++ take n (waveform (leds m)).
Proof.
  intros Hl Hbp Hbc Hn.
  assert (Hw : length (waveform (leds m)) = (8 * 384)%nat)
    by (rewrite waveform_length, Hl; reflexivity).
  pose proof (serve_pass m Hl Hbp Hbc) as Hall.
  replace (8 * 384)%nat with (n + (8 * 384 - n))%nat in Hall by lia.
  rewrite serve_add in Hall.
  destruct (serve n (hand_off m)) as [m'|] eqn:E; [|discriminate].
  cbn [mbind option_bind] in Hall. exists m'. split; [reflexivity|].
  destruct (serve_appends _ _ _ E) as (x & Hx & Hlx).
  destruct (serve_appends _ _ _ Hall) as (y & Hy & Hly).
  assert (Hxy : x ++ y = waveform (leds m)).
  { apply (app_inv_head (SSP1BUF m ++ [0])).
    transitivity (SSP1BUF (in_pass m 384)).
    - rewrite Hy, Hx. change (SSP1BUF (hand_off m)) with (SSP1BUF m ++ [0]).
      rewrite <- !app_assoc. reflexivity.
    - unfold in_pass. cbn. rewrite take_ge by lia.
      rewrite <- app_assoc. reflexivity. }
  assert (Hlen : length x = n).
  { apply (f_equal length) in Hxy. rewrite length_app, Hw in Hxy. lia. }
  rewrite Hx, <- Hxy, <- Hlen, take_app_length.
  change (SSP1BUF (hand_off m)) with (SSP1BUF m ++ [0]).
  rewrite <- app_assoc. reflexivity.
Qed.

Lemma serve_1 (m : machine) : serve 1 m = interrupt m.
Proof. cbn [serve]. destruct (interrupt m); reflexivity. Qed.

Lemma serve_whole_pass (m : machine) :
  length (leds m) = 384%nat -> bit_position m = 0 -> byte_count m = 0 ->
  serve (8 * 384 + 1) (hand_off m) = Some (after_pass m).
Proof.
  intros Hl Hbp Hbc. rewrite serve_add, serve_pass by assumption.
  change (serve 1 (in_pass m 384) = Some (after_pass m)).
  rewrite serve_1. apply in_pass_done; assumption.
Qed.

Lemma isr_after_pass (m : machine) : isr (after_pass m) = Some (after_pass m).
Proof. reflexivity. Qed.

(** A pass with nothing decoded meanwhile.  When the hand-off finds the
    emitter at rest: the next 3072 interrupts emit, one each, the pulses of
    the 384 bytes of the buffer, in order and most significant bit first,
    0xFF for a 1 and 0xF0 for a 0; the interrupt after them emits nothing
    and disables the interrupt, and from then on nothing is emitted and
    nothing changes. *)
Lemma pass_alone (m : machine) (n k : nat) :
  length (leds m) = Z.to_nat (LED_COUNT * sizeof_ws_led_struct) ->
  bit_position m = 0 -> byte_count m = 0 ->
  Z.of_nat n <= LED_COUNT * 3 * 8 ->
  length (waveform (leds m)) = Z.to_nat (LED_COUNT * 3 * 8)
  /\ (exists m',
        serve n (hand_off m) = Some m'
        /\ SSP1BUF m' = SSP1BUF m ++ [0x00] ++ take n (waveform (leds m)))
  /\ serve (Z.to_nat (LED_COUNT * 3 * 8) + 1) (hand_off m) = Some (after_pass m)
  /\ SSP1BUF (after_pass m) = SSP1BUF m ++ [0x00] ++ waveform (leds m)
  /\ GIE (after_pass m) = false /\ SSP1IF (after_pass m) = false
  /\ serve k (after_pass m) = Some (after_pass m)
  /\ isr (after_pass m) = Some (after_pass m).
Proof.
  intros Hl Hbp Hbc Hn.
  assert (E1 : Z.to_nat (LED_COUNT * sizeof_ws_led_struct) = 384%nat)
    by reflexivity.
  assert (E2 : Z.to_nat (LED_COUNT * 3 * 8) = (8 * 384)%nat) by reflexivity.
  assert (E3 : LED_COUNT * 3 * 8 = 3072) by reflexivity.
  rewrite E1 in Hl. rewrite E3 in Hn. rewrite E2.
  split; [rewrite waveform_length, Hl; reflexivity|].
  split; [apply serve_prefix; try assumption; lia|].
  split; [apply serve_whole_pass; assumption|].
  split; [reflexivity|]. split; [reflexivity|]. split; [reflexivity|].
  split; [apply serve_idle; reflexivity|apply isr_after_pass].
Qed.

(** ** The decoder does not look at the emitter *)

Ltac view_start m1 m2 :=
  destruct m1 as [l ip tc cmd ci cb pb li dr w bp bc icb gie sif sbuf ib tp];
  destruct m2 as [l2 ip2 tc2 cmd2 ci2 cb2 pb2 li2 dr2 w2 bp2 bc2 icb2 gie2 sif2
                     sbuf2 ib2 tp2];
  let H := fresh "Hview" in
  intros H;
  cbv beta iota delta
    [decoder_view leds toPC_count command color_index current_byte
     previous_byte led_index data_remaining wptr in_buf toPC] in H;
  injection H as <- <- <- <- <- <- <- <- <- <- <-.

Ltac view_done :=
  cbn [fmap option_fmap option_map mbind option_bind];
  unfold decoder_view; fields; reflexivity.

Lemma view_bind (a1 a2 : option machine) (f1 f2 : machine -> option machine) :
  decoder_view <$> a1 = decoder_view <$> a2 ->
  (forall x1 x2 : machine, decoder_view x1 = decoder_view x2 ->
     decoder_view <$> f1 x1 = decoder_view <$> f2 x2) ->
  decoder_view <$> (a1 ≫= f1) = decoder_view <$> (a2 ≫= f2).
Proof.
  intros Ha Hf. destruct a1 as [x1|], a2 as [x2|]; cbn in *;
    try discriminate; [|reflexivity].
  apply Hf. congruence.
Qed.

Lemma view_write_color (m1 m2 : machine) :
  decoder_view m1 = decoder_view m2 ->
  decoder_view <$> write_color m1 = decoder_view <$> write_color m2.
Proof.
  view_start m1 m2. unfold write_color. cbn [wptr color_index current_byte].
  destruct w as [w|]; [|view_done].
  destruct ci as [|[[?|?|]|[?|?|]|]|?]; try view_done;
    unfold store_leds, store; cbn [leds];
    match goal with |- context [decide ?p] => destruct (decide p) end;
    view_done.
Qed.

Lemma view_hand_off (m1 m2 : machine) :
  decoder_view m1 = decoder_view m2 ->
  decoder_view (hand_off m1) = decoder_view (hand_off m2).
Proof. view_start m1 m2. view_done. Qed.

Lemma view_next_color (m1 m2 : machine) :
  decoder_view m1 = decoder_view m2 ->
  decoder_view (next_color m1) = decoder_view (next_color m2).
Proof.
  view_start m1 m2. unfold next_color. fields.
  destruct (u8 (ci + 1) =? 3); [|view_done].
  destruct (u8 (li + 1) =? LED_COUNT); view_done.
Qed.

Lemma view_acknowledge (m1 m2 : machine) :
  decoder_view m1 = decoder_view m2 ->
  decoder_view <$> acknowledge m1 = decoder_view <$> acknowledge m2.
Proof.
  view_start m1 m2. unfold acknowledge, store. cbn [toPC_count in_buf].
  match goal with |- context [decide ?p] => destruct (decide p) end;
    view_done.
Qed.

Lemma view_remaining (m1 m2 : machine) :
  decoder_view m1 = decoder_view m2 ->
  data_remaining m1 = data_remaining m2 /\ command m1 = command m2.
Proof. view_start m1 m2. split; reflexivity. Qed.

Lemma view_payload_byte (m1 m2 : machine) :
  decoder_view m1 = decoder_view m2 ->
  decoder_view <$> payload_byte m1 = decoder_view <$> payload_byte m2.
Proof.
  intros Hv. unfold payload_byte.
  assert (Hv1 : decoder_view (set_data_remaining (u16 (data_remaining m1 - 1)) m1)
                = decoder_view (set_data_remaining (u16 (data_remaining m2 - 1)) m2))
    by (revert Hv; view_start m1 m2; view_done).
  cbv zeta. apply view_bind.
  - destruct (view_remaining _ _ Hv1) as [_ ->].
    destruct (command _ =? 2); [|cbn; congruence].
    apply view_bind; [apply view_write_color; assumption|].
    intros x1 x2 Hx. cbn. f_equal. apply view_next_color.
    destruct (view_remaining _ _ Hx) as [-> _].
    destruct (data_remaining x2 =? 0); [apply view_hand_off|]; assumption.
  - intros x1 x2 Hx. destruct (view_remaining _ _ Hx) as [-> _].
    destruct (data_remaining x2 =? 0); [apply view_acknowledge; assumption|].
    cbn. congruence.
Qed.

Lemma view_header_byte (index : nat) (m1 m2 : machine) :
  decoder_view m1 = decoder_view m2 ->
  decoder_view (header_byte index m1) = decoder_view (header_byte index m2).
Proof.
  view_start m1 m2. destruct index as [|[|[|index]]]; view_done.
Qed.

(** C8, as the code has it.  The decoder never reads the activation flag:
    what a byte does to the decoder's variables, to the pixel buffer and to
    the bytes for the host is the same whatever [GIE] and the state of the
    emitter are.  Nothing in the firmware keeps a body of command 2 from
    being written while a pass is in progress. *)
Theorem C8_no_gate (index : nat) (byte : Z) (m1 m2 : machine) :
  decoder_view m1 = decoder_view m2 ->
  decoder_view <$> loop_body index byte m1
  = decoder_view <$> loop_body index byte m2.
Proof.
  intros Hv. unfold loop_body. cbv zeta.
  assert (Hv1 : decoder_view (set_current_byte byte
                                (set_previous_byte (current_byte m1) m1))
                = decoder_view (set_current_byte byte
                                  (set_previous_byte (current_byte m2) m2)))
    by (revert Hv; view_start m1 m2; view_done).
  destruct (view_remaining _ _ Hv1) as [-> _].
  destruct (data_remaining _ =? 0).
  - cbn. f_equal. apply view_header_byte. assumption.
  - apply view_payload_byte. assumption.
Qed.

(** ** The claims on concrete inputs *)

Lemma reset_machine_inv : decoder_inv reset_machine.
Proof.
  unfold decoder_inv. split; [reflexivity|]. split; [cbn; lia|].
  split; [cbn; lia|]. left. reflexivity.
Defined.

(** Scenario A: header [2, 3, 0] and payload [10, 20, 30]. *)
Lemma C1_witness :
  exists s',
    run [[2; 3; 0; 10; 20; 30]] reset_machine = Some s'
    /\ led_at (leds s') 0 = Some {| g := 20; r := 10; b := 30 |}
    /\ led_at (leds s') 1 = Some {| g := 0; r := 0; b := 0 |}
    /\ acks s' = [0xFF].
Proof.
  destruct (C1_set_pixels reset_machine 3 0 [10; 20; 30] [10; 20; 30] [] 1)
    as (s' & Hrun & _ & Hpix & Hrest & _ & Hacks);
    try reflexivity; try (unfold is_u8, LED_COUNT; cbn; lia).
  exists s'. split; [exact Hrun|]. split; [|split].
  - apply (Hpix 0%nat 10 20 30); reflexivity.
  - rewrite (Hrest 1%nat) by lia. reflexivity.
  - exact Hacks.
Defined.

(** Scenario C with the next header in the same chunk: the bytes 5, 3, 0
    at positions 3 to 5 are not taken as a header. *)
Lemma C4_counterexample :
  exists s',
    run [[2; 0; 0; 5; 3; 0]] reset_machine = Some s' /\ ~ header_parsed 5 3 0 s'.
Proof.
  eexists. split; [vm_compute; reflexivity|].
  intros (H & _). vm_compute in H. discriminate.
Qed.

(** Scenario C with the next header in the next chunk. *)
Lemma C4_witness :
  exists s1 s2,
    run [[2; 0; 0]] reset_machine = Some s1
    /\ run [[5; 3; 0]] s1 = Some s2 /\ header_parsed 5 3 0 s2.
Proof.
  destruct (C4_next_header reset_machine 2 0 0 [] [] [] 5 3 0)
    as (s1 & s2 & H1 & _ & H2 & H3);
    try reflexivity; try (unfold is_u8; cbn; lia).
  exists s1, s2. split; [exact H1|]. split; [exact H2|exact H3].
Defined.

(** 130 triples sent in chunks of 64 bytes. *)
Lemma C5_witness :
  exists s',
    run (([2; 134; 1] ++ replicate 61 7)
           :: replicate 5 (replicate 64 7) ++ [replicate 9 7]) reset_machine
    = Some s'
    /\ data_remaining s' = 0 /\ wptr s' = None
    /\ length (leds s') = 384%nat /\ acks s' = [0xFF].
Proof.
  destruct (C5_overflow_guard reset_machine 134 1 (replicate 390 7)
              (replicate 61 7)
              (replicate 5 (replicate 64 7) ++ [replicate 9 7]) [] [])
    as ((s' & Hrun & Hrem & Hw & Hlen & _ & Hacks) & _);
    try reflexivity; try (unfold is_u8; cbn; lia).
  exists s'. split; [exact Hrun|]. split; [exact Hrem|].
  split; [exact Hw|]. split; [exact Hlen|exact Hacks].
Defined.

(** A body of four bytes: the fourth, received on its own, is written to
    the red channel of entry 1. *)
Lemma C6_counterexample :
  exists s1 s2,
    run [[2; 4; 0; 10; 20; 30]] reset_machine = Some s1
    /\ run [[40]] s1 = Some s2
    /\ led_at (leds s1) 1 = Some {| g := 0; r := 0; b := 0 |}
    /\ led_at (leds s2) 1 = Some {| g := 0; r := 40; b := 0 |}.
Proof.
  eexists. eexists. split; [vm_compute; reflexivity|].
  split; [vm_compute; reflexivity|]. split; reflexivity.
Qed.

Lemma C6_witness :
  exists s',
    run [[2; 4; 0; 10; 20; 30]; [40]] reset_machine = Some s'
    /\ leds s' !! 4%nat = Some 40 /\ leds s' !! 3%nat = Some 0
    /\ leds s' !! 5%nat = Some 0.
Proof.
  destruct (C6_partial_group reset_machine 4 0 [10; 20; 30; 40] [10; 20; 30]
              [[40]] 1)
    as (s' & Hrun & Hin & _);
    try reflexivity; try (unfold is_u8; cbn; lia).
  destruct Hin as (H1 & H2 & H3 & _); [lia|].
  exists s'. split; [exact Hrun|]. split; [exact H1|]. split; [exact H2|exact H3].
Defined.

(** Scenario B: header [5, 2, 0] and payload [0xAA, 0xBB]. *)
Lemma C7_witness :
  exists s',
    run [[5; 2; 0; 0xAA; 0xBB]] reset_machine = Some s'
    /\ leds s' = leds reset_machine /\ GIE s' = false /\ SSP1BUF s' = []
    /\ acks s' = [0xFF].
Proof.
  destruct (C7_other_opcode reset_machine 5 2 0 [0xAA; 0xBB] [0xAA; 0xBB] [])
    as (s' & Hrun & _ & Hleds & _ & Hgie & _ & Hbuf & Hacks);
    try reflexivity; try (unfold is_u8; cbn; lia).
  exists s'. split; [exact Hrun|]. split; [exact Hleds|].
  split; [exact Hgie|]. split; [exact Hbuf|exact Hacks].
Defined.

(** A second command 2 right behind the first: five interrupts after the
    hand-off the pass is at its fifth pulse, [GIE] is set, and the first
    body byte of the second command is written over entry 0. *)
Lemma C8_counterexample :
  exists m,
    run_irq [[(0%nat, 2); (0%nat, 3); (0%nat, 0); (0%nat, 10); (0%nat, 20);
              (0%nat, 30)];
             [(5%nat, 2); (0%nat, 3); (0%nat, 0)]] reset_machine = Some m
    /\ GIE m = true /\ bit_position m = 5 /\ byte_count m = 1
    /\ ~ gate_respected 3 1 m.
Proof.
  eexists. split; [vm_compute; reflexivity|].
  split; [reflexivity|]. split; [reflexivity|]. split; [reflexivity|].
  intros H. specialize (H eq_refl _ eq_refl).
  apply (f_equal (fun l : list Z => l !! 1%nat)) in H. vm_compute in H.
  discriminate.
Qed.

Lemma C8_witness :
  decoder_view <$> loop_body 3 1 (latched 2 3 0 reset_machine)
  = decoder_view <$> loop_body 3 1 (set_GIE true (latched 2 3 0 reset_machine)).
Proof.
  apply (C8_no_gate 3 1 (latched 2 3 0 reset_machine)
           (set_GIE true (latched 2 3 0 reset_machine))).
  reflexivity.
Defined.

Lemma C9_witness :
  exists s',
    chunk_loop 3 [7; 8; 9] reset_machine = Some s'
    /\ same_but_latches reset_machine s'.
Proof.
  destruct (C9_discarded_bytes [7; 8; 9] 3 reset_machine)
    as (s' & Hloop & Hsame & _); [reflexivity|lia|].
  exists s'. split; [exact Hloop|exact Hsame].
Defined.

Lemma C10_witness :
  exists s',
    iteration [2; 1; 0; 9; 5; 1; 0; 8] reset_machine = Some s'
    /\ 0 <= toPC_count s' <= 2.
Proof.
  destruct (C10_staging_bound [2; 1; 0; 9; 5; 1; 0; 8] reset_machine
              reset_machine_inv)
    as (_ & (s' & Hit & Hc & _) & _).
  exists s'. split; [exact Hit|exact Hc].
Defined.

(** * Further properties of the firmware *)

(** ** What each context leaves alone *)

Ltac split_machine m :=
  destruct m as [l ip tc cmd ci cb pb li dr w bp bc icb gie sif sbuf ib tp].

Lemma interrupt_view (m m' : machine) :
  interrupt m = Some m' ->
  decoder_view m' = decoder_view m /\ length (leds m') = length (leds m).
Proof.
  split_machine m. unfold interrupt, isr. fields.
  destruct gie, sif; cbn [andb]; fields;
    try (intros [= <-]; split; reflexivity).
  destruct (bp =? 0); cbn [andb];
    [destruct (bc =? LED_COUNT * sizeof_ws_led_struct);
     [|destruct (l !! ip)]|]; fields; intros [= <-]; split; reflexivity.
Qed.

Lemma serve_view (n : nat) : forall m m' : machine,
  serve n m = Some m' ->
  decoder_view m' = decoder_view m /\ length (leds m') = length (leds m).
Proof.
  induction n as [|n IH]; intros m m' H.
  - injection H as <-. split; reflexivity.
  - cbn [serve] in H. destruct (interrupt m) as [m1|] eqn:E; [|discriminate].
    cbn in H. destruct (IH _ _ H) as [-> ->]. apply (interrupt_view _ _ E).
Qed.

Lemma write_color_hw (m m' : machine) :
  write_color m = Some m' ->
  hw_view m' = hw_view m /\ data_remaining m' = data_remaining m
  /\ command m' = command m /\ toPC_count m' = toPC_count m
  /\ in_buf m' = in_buf m.
Proof.
  split_machine m. unfold write_color. cbn [wptr color_index current_byte].
  destruct w as [w|]; [|intros [= <-]; repeat split; reflexivity].
  destruct ci as [|[[?|?|]|[?|?|]|]|?];
    try (intros [= <-]; repeat split; reflexivity);
    unfold store_leds, store; cbn [leds];
    match goal with |- context [decide ?p] => destruct (decide p) end;
    cbn [mbind option_bind]; intros [= <-]; repeat split; reflexivity.
Qed.

Lemma next_color_hw (m : machine) :
  hw_view (next_color m) = hw_view m
  /\ data_remaining (next_color m) = data_remaining m
  /\ toPC_count (next_color m) = toPC_count m
  /\ in_buf (next_color m) = in_buf m.
Proof.
  split_machine m. unfold next_color. fields.
  destruct (u8 (ci + 1) =? 3); [|repeat split; reflexivity].
  destruct (u8 (li + 1) =? LED_COUNT); repeat split; reflexivity.
Qed.

Lemma acknowledge_hw (m m' : machine) :
  acknowledge m = Some m' -> hw_view m' = hw_view m.
Proof.
  split_machine m. unfold acknowledge, store. cbn [toPC_count in_buf].
  match goal with |- context [decide ?p] => destruct (decide p) end;
    cbn [mbind option_bind]; intros [= <-]; reflexivity.
Qed.

Lemma header_byte_hw (index : nat) (m : machine) :
  hw_view (header_byte index m) = hw_view m.
Proof. split_machine m. destruct index as [|[|[|index]]]; reflexivity. Qed.

Lemma hw_view_fields (m m' : machine) :
  hw_view m' = hw_view m ->
  isr_ptr m' = isr_ptr m /\ GIE m' = GIE m /\ SSP1IF m' = SSP1IF m
  /\ SSP1BUF m' = SSP1BUF m /\ bit_position m' = bit_position m
  /\ byte_count m' = byte_count m /\ isr_current_byte m' = isr_current_byte m
  /\ toPC m' = toPC m.
Proof. unfold hw_view. intros [= -> -> -> -> -> -> -> ->]. repeat split. Qed.

Lemma hw_view_hand_off (m1 m2 : machine) :
  hw_view m1 = hw_view m2 -> hw_view (hand_off m1) = hw_view (hand_off m2).
Proof.
  split_machine m1.
  destruct m2 as [l2 ip2 tc2 cmd2 ci2 cb2 pb2 li2 dr2 w2 bp2 bc2 icb2 gie2 sif2
                     sbuf2 ib2 tp2].
  unfold hw_view, hand_off, write_SSP1BUF. fields.
  intros [= _ _ _ -> -> -> -> ->]. reflexivity.
Qed.

(** The decoder's only action on the emitter is the hand-off, at the last
    byte of a body of command 2. *)
Lemma loop_body_hw (index : nat) (byte : Z) (m m' : machine) :
  loop_body index byte m = Some m' ->
  hw_view m' = hw_view (if hands_off m then hand_off m else m).
Proof.
  unfold loop_body, hands_off. cbv zeta.
  set (m1 := set_current_byte byte (set_previous_byte (current_byte m) m)).
  assert (H1 : hw_view m1 = hw_view m) by (split_machine m; reflexivity).
  assert (D1 : data_remaining m1 = data_remaining m)
    by (split_machine m; reflexivity).
  assert (C1 : command m1 = command m) by (split_machine m; reflexivity).
  rewrite D1. destruct (data_remaining m =? 0) eqn:E0; cbn [negb andb].
  - intros [= <-]. rewrite header_byte_hw. exact H1.
  - unfold payload_byte. cbv zeta.
    set (m2 := set_data_remaining (u16 (data_remaining m1 - 1)) m1).
    assert (H2 : hw_view m2 = hw_view m1)
      by (subst m2; split_machine m1; reflexivity).
    assert (D2 : data_remaining m2 = u16 (data_remaining m - 1))
      by (subst m2; rewrite <- D1; split_machine m1; reflexivity).
    assert (C2 : command m2 = command m)
      by (subst m2; rewrite <- C1; split_machine m1; reflexivity).
    rewrite C2. destruct (command m =? 2) eqn:Ec.
    + destruct (write_color m2) as [m3|] eqn:E3; [|discriminate].
      cbn [mbind option_bind].
      destruct (write_color_hw _ _ E3) as (H3 & D3 & _).
      rewrite D3, D2.
      set (m4 := if u16 (data_remaining m - 1) =? 0 then hand_off m3 else m3).
      destruct (next_color_hw m4) as (H5 & D5 & _).
      assert (D4 : data_remaining m4 = u16 (data_remaining m - 1)).
      { subst m4. destruct (u16 (data_remaining m - 1) =? 0);
          [split_machine m3; cbn in *|]; congruence. }
      rewrite D5, D4. intros Hack.
      assert (Hend : hw_view m' = hw_view m4).
      { destruct (u16 (data_remaining m - 1) =? 0).
        - rewrite (acknowledge_hw _ _ Hack). assumption.
        - injection Hack as <-. assumption. }
      rewrite Hend. subst m4.
      assert (H30 : hw_view m3 = hw_view m) by congruence.
      destruct (u16 (data_remaining m - 1) =? 0);
        [apply hw_view_hand_off|]; exact H30.
    + cbn [mbind option_bind andb]. rewrite D2. intros Hack.
      assert (Hend : hw_view m' = hw_view m2).
      { destruct (u16 (data_remaining m - 1) =? 0).
        - apply (acknowledge_hw _ _ Hack).
        - injection Hack as <-. reflexivity. }
      congruence.
Qed.

(** ** The emitter between two hand-offs *)

Lemma pass_left_range (m : machine) :
  emitter_inv m ->
  0 <= pass_left m <= 3080 /\ (pass_left m = 0 <-> GIE m = false).
Proof.
  unfold emitter_inv, pass_left, LED_COUNT, sizeof_ws_led_struct.
  intros (Hbc & Hbp & Hg). destruct (GIE m).
  - destruct (Z.eqb_spec (bit_position m) 0); split; try lia;
      split; try discriminate; lia.
  - split; [lia|]. split; reflexivity.
Qed.

(** One interrupt: it is served without a read outside the buffer, and it
    brings the end of the pass one step nearer. *)
Lemma interrupt_inv (m : machine) :
  emitter_inv m -> length (leds m) = 384%nat ->
  exists m1, interrupt m = Some m1 /\ emitter_inv m1
    /\ pass_left m1 = Z.max 0 (pass_left m - 1)
    /\ length (SSP1BUF m1)
       = (length (SSP1BUF m) + (if (1 <? pass_left m)%Z then 1 else 0))%nat.
Proof.
  unfold emitter_inv, pass_left, LED_COUNT, sizeof_ws_led_struct.
  split_machine m. fields. intros (Hbc & Hbp & Hg) Hl.
  destruct gie.
  - destruct Hg as [-> Hip].
    destruct (Z.eq_dec bp 0) as [->|N0].
    + destruct (Z.eq_dec bc 384) as [->|N].
      * eexists. split; [apply interrupt_done; reflexivity|].
        fields. change (0 =? 0) with true. cbv iota.
        repeat split; try lia.
        match goal with |- context [(?a <? ?b)%Z] =>
          destruct (Z.ltb_spec a b) end; lia.
      * destruct (lookup_lt_is_Some_2 l ip) as [v Hv]; [lia|].
        eexists. split; [apply (interrupt_load _ v); try reflexivity;
                         [fields; lia|exact Hv]|].
        fields. change (1 =? 0) with false. change (0 =? 0) with true.
        cbv iota. rewrite length_app. cbn [length].
        repeat split; try lia.
        match goal with |- context [(?a <? ?b)%Z] =>
          destruct (Z.ltb_spec a b) end; lia.
    + eexists. split; [apply interrupt_shift; try reflexivity; fields; lia|].
      fields. rewrite length_app. cbn [length].
      rewrite (Zeqb_false bp 0) by lia.
      destruct (Z.eqb_spec bp 7) as [->|N7].
      * change (0 =? 0) with true. cbv iota.
        repeat split; try lia.
        match goal with |- context [(?a <? ?b)%Z] =>
          destruct (Z.ltb_spec a b) end; lia.
      * rewrite (Zeqb_false (bp + 1) 0) by lia.
        repeat split; try lia.
        match goal with |- context [(?a <? ?b)%Z] =>
          destruct (Z.ltb_spec a b) end; lia.
  - eexists. split; [reflexivity|]. fields. repeat split; try lia.
    cbn. lia.
Qed.

Lemma serve_inv (n : nat) : forall m : machine,
  emitter_inv m -> length (leds m) = 384%nat ->
  exists m', serve n m = Some m' /\ emitter_inv m'
    /\ pass_left m' = Z.max 0 (pass_left m - Z.of_nat n)
    /\ Z.of_nat (length (SSP1BUF m'))
       = Z.of_nat (length (SSP1BUF m))
         + Z.min (Z.of_nat n) (Z.max 0 (pass_left m - 1)).
Proof.
  induction n as [|n IH]; intros m Hinv Hl.
  - exists m. split; [reflexivity|]. split; [assumption|].
    destruct (pass_left_range m Hinv) as [Hr _]. lia.
  - destruct (interrupt_inv m Hinv Hl) as (m1 & H1 & Hinv1 & Hp1 & Hb1).
    assert (Hl1 : length (leds m1) = 384%nat)
      by (rewrite (proj2 (interrupt_view _ _ H1)); exact Hl).
    destruct (IH m1 Hinv1 Hl1) as (m' & H' & Hinv' & Hp' & Hb').
    exists m'. cbn [serve]. rewrite H1. cbn [mbind option_bind].
    split; [exact H'|]. split; [exact Hinv'|].
    destruct (pass_left_range m Hinv) as [Hr _].
    split; [lia|]. rewrite Hb', Hb1, Hp1.
    destruct (Z.ltb_spec 1 (pass_left m)); lia.
Qed.

Lemma emitter_inv_hw (m m' : machine) :
  hw_view m' = hw_view m -> emitter_inv m -> emitter_inv m'.
Proof.
  intros H. destruct (hw_view_fields _ _ H)
    as (E1 & E2 & E3 & _ & E5 & E6 & _ & _).
  unfold emitter_inv. rewrite E1, E2, E3, E5, E6. exact (fun x => x).
Qed.

Lemma pass_left_hw (m m' : machine) :
  hw_view m' = hw_view m -> pass_left m' = pass_left m.
Proof.
  intros H. destruct (hw_view_fields _ _ H)
    as (_ & E2 & _ & _ & E5 & E6 & _ & _).
  unfold pass_left. rewrite E2, E5, E6. reflexivity.
Qed.

(** The hand-off starts a pass of 3073 interrupts when the emitter is at
    rest; a pass in progress is not prolonged by it. *)
Lemma hand_off_inv (m : machine) :
  emitter_inv m ->
  emitter_inv (hand_off m)
  /\ pass_left (hand_off m) = (if GIE m then pass_left m else 3073).
Proof.
  unfold emitter_inv, pass_left, LED_COUNT, sizeof_ws_led_struct.
  split_machine m. unfold hand_off, write_SSP1BUF. fields.
  intros (Hbc & Hbp & Hg). destruct gie.
  - repeat split; try lia.
  - destruct Hg as [-> ->]. repeat split; try lia.
Qed.

Lemma loop_body_emitter (index : nat) (byte : Z) (m m' : machine) :
  emitter_inv m -> loop_body index byte m = Some m' -> emitter_inv m'.
Proof.
  intros Hinv H. apply loop_body_hw in H.
  apply (emitter_inv_hw _ _ H).
  destruct (hands_off m); [apply hand_off_inv|]; assumption.
Qed.

Lemma flush_emitter (m : machine) : emitter_inv m -> emitter_inv (flush m).
Proof.
  unfold flush. destruct (0 <? toPC_count m); [|exact (fun x => x)].
  split_machine m. exact (fun x => x).
Qed.

Lemma chunk_inv_view (index : nat) (m m' : machine) :
  decoder_view m' = decoder_view m -> chunk_inv index m -> chunk_inv index m'.
Proof.
  split_machine m.
  destruct m' as [l2 ip2 tc2 cmd2 ci2 cb2 pb2 li2 dr2 w2 bp2 bc2 icb2 gie2 sif2
                     sbuf2 ib2 tp2].
  unfold decoder_view. fields. intros [= -> -> -> -> -> -> -> -> -> -> ->].
  exact (fun x => x).
Qed.

Lemma power_on_emitter (m : machine) : power_on m -> emitter_inv m.
Proof.
  intros (_ & _ & _ & Hbp & Hbc & _ & Hg & _).
  unfold emitter_inv, LED_COUNT, sizeof_ws_led_struct.
  rewrite Hbp, Hbc, Hg. lia.
Qed.

(** ** The two contexts interleaved *)

Lemma chunk_loop_irq_safe (out_buf : list (nat * Z)) :
  forall (index : nat) (m : machine),
  chunk_inv index m -> emitter_inv m ->
  exists m', chunk_loop_irq index out_buf m = Some m'
    /\ chunk_inv (index + length out_buf) m' /\ emitter_inv m'.
Proof.
  induction out_buf as [|[n byte] rest IH]; intros index m Hc He.
  - exists m. rewrite Nat.add_0_r. auto.
  - destruct (serve_inv n m He (proj1 Hc)) as (m1 & H1 & He1 & _).
    destruct (serve_view _ _ _ H1) as [Hv1 _].
    pose proof (chunk_inv_view _ _ _ Hv1 Hc) as Hc1.
    destruct (loop_body_safe index byte m1 Hc1) as (m2 & H2 & Hc2 & _).
    pose proof (loop_body_emitter _ _ _ _ He1 H2) as He2.
    destruct (IH (S index) m2 Hc2 He2) as (m' & H' & Hc' & He').
    exists m'. cbn [chunk_loop_irq]. rewrite H1. cbn [mbind option_bind].
    rewrite H2. cbn [mbind option_bind]. split; [exact H'|].
    cbn [length]. rewrite Nat.add_succ_r. auto.
Qed.

Lemma run_irq_safe (chunks : list (list (nat * Z))) : forall m : machine,
  decoder_inv m -> emitter_inv m ->
  exists m', run_irq chunks m = Some m' /\ decoder_inv m' /\ emitter_inv m'.
Proof.
  induction chunks as [|c cs IH]; intros m Hd He.
  - exists m. auto.
  - destruct (flush_inv m Hd) as (Hc & _).
    destruct (chunk_loop_irq_safe c 0 (flush m) Hc (flush_emitter m He))
      as (m1 & H1 & Hc1 & He1).
    destruct (IH m1 (proj1 (chunk_inv_decoder _ _ Hc1)) He1)
      as (m' & H' & Hd' & He').
    exists m'. cbn [run_irq]. unfold iteration_irq. rewrite H1. auto.
Qed.

(** A byte decoded after some interrupts does to the decoder what it does
    without them. *)
Lemma view_step (n index : nat) (byte : Z) (m1 m1' m2 : machine) :
  decoder_view m1 = decoder_view m2 -> serve n m1 = Some m1' ->
  decoder_view <$> loop_body index byte m1'
  = decoder_view <$> loop_body index byte m2.
Proof.
  intros Hv Hs. destruct (serve_view _ _ _ Hs) as [Hv' _].
  rewrite <- Hv' in Hv. clear Hs Hv' m1.
  unfold loop_body. cbv zeta.
  assert (Hv1 : decoder_view (set_current_byte byte
                                (set_previous_byte (current_byte m1') m1'))
                = decoder_view (set_current_byte byte
                                  (set_previous_byte (current_byte m2) m2)))
    by (revert Hv; view_start m1' m2; view_done).
  destruct (view_remaining _ _ Hv1) as [-> _].
  destruct (data_remaining _ =? 0).
  - cbn. f_equal. apply view_header_byte. assumption.
  - apply view_payload_byte. assumption.
Qed.

Lemma view_chunk_loop_irq (out_buf : list (nat * Z)) :
  forall (index : nat) (m1 m2 r : machine),
  decoder_view m1 = decoder_view m2 ->
  chunk_loop_irq index out_buf m1 = Some r ->
  exists r', chunk_loop index (map snd out_buf) m2 = Some r'
    /\ decoder_view r = decoder_view r'.
Proof.
  induction out_buf as [|[n byte] rest IH]; intros index m1 m2 r Hv H.
  - injection H as <-. exists m2. auto.
  - cbn [chunk_loop_irq] in H.
    destruct (serve n m1) as [m1'|] eqn:Es; [|discriminate].
    cbn [mbind option_bind] in H.
    pose proof (view_step n index byte m1 m1' m2 Hv Es) as Hstep.
    destruct (loop_body index byte m1') as [x1|]; [|discriminate].
    cbn [mbind option_bind] in H.
    destruct (loop_body index byte m2) as [x2|] eqn:E2; [|discriminate].
    assert (Hx : decoder_view x1 = decoder_view x2)
      by (cbn in Hstep; congruence).
    destruct (IH (S index) x1 x2 r Hx H) as (r' & Hr' & Hvr).
    exists r'. cbn [map chunk_loop snd]. rewrite E2. auto.
Qed.

Lemma view_flush (m1 m2 : machine) :
  decoder_view m1 = decoder_view m2 ->
  decoder_view (flush m1) = decoder_view (flush m2).
Proof.
  view_start m1 m2. unfold flush. fields. destruct (0 <? tc); reflexivity.
Qed.

Lemma view_run_irq (chunks : list (list (nat * Z))) :
  forall m1 m2 r : machine,
  decoder_view m1 = decoder_view m2 -> run_irq chunks m1 = Some r ->
  exists r', run (bytes_only chunks) m2 = Some r'
    /\ decoder_view r = decoder_view r'.
Proof.
  induction chunks as [|c cs IH]; intros m1 m2 r Hv H.
  - injection H as <-. exists m2. auto.
  - cbn [run_irq] in H. unfold iteration_irq in H.
    destruct (chunk_loop_irq 0 c (flush m1)) as [x1|] eqn:E1; [|discriminate].
    cbn [mbind option_bind] in H.
    destruct (view_chunk_loop_irq c 0 (flush m1) (flush m2) x1
                (view_flush _ _ Hv) E1) as (x2 & E2 & Hx).
    destruct (IH x1 x2 r Hx H) as (r' & Hr' & Hvr).
    exists r'. unfold bytes_only in *. cbn [map run]. unfold iteration.
    rewrite E2. auto.
Qed.

Lemma acks_view (m1 m2 : machine) :
  decoder_view m1 = decoder_view m2 -> acks m1 = acks m2.
Proof. view_start m1 m2. reflexivity. Qed.

(** X1. Whatever number of interrupts is served, the emitter writes neither
    the pixel buffer nor a variable of the decoder nor a byte for the
    host. *)
Theorem emitter_frame (n : nat) (m m' : machine) :
  serve n m = Some m' ->
  leds m' = leds m /\ decoder_view m' = decoder_view m /\ acks m' = acks m.
Proof.
  intros H. destruct (serve_view _ _ _ H) as [Hv _].
  split; [|split; [exact Hv|apply acks_view; exact Hv]].
  unfold decoder_view in Hv. congruence.
Qed.

(** X2. Decoding a byte touches the emitter in one way only: the hand-off (read
    pointer to the start of the buffer, interrupt enabled, one dummy 0x00
    written to the SPI data register), and that exactly when the byte is the
    last of a body of command 2.  The statics of [isr] and the bytes already
    handed to the host are never touched. *)
Theorem decoder_hand_off (index : nat) (byte : Z) (m m' : machine) :
  loop_body index byte m = Some m' ->
  bit_position m' = bit_position m /\ byte_count m' = byte_count m
  /\ isr_current_byte m' = isr_current_byte m /\ toPC m' = toPC m
  /\ if negb (data_remaining m =? 0) && (command m =? 2)
        && (u16 (data_remaining m - 1) =? 0)
     then
       isr_ptr m' = 0%nat /\ GIE m' = true /\ SSP1IF m' = true
       /\ SSP1BUF m' = SSP1BUF m ++ [0x00]
     else
       isr_ptr m' = isr_ptr m /\ GIE m' = GIE m /\ SSP1IF m' = SSP1IF m
       /\ SSP1BUF m' = SSP1BUF m.
Proof.
  intros H. apply loop_body_hw in H. unfold hands_off in H.
  destruct (negb (data_remaining m =? 0) && (command m =? 2)
            && (u16 (data_remaining m - 1) =? 0));
    destruct (hw_view_fields _ _ H) as (A1 & A2 & A3 & A4 & A5 & A6 & A7 & A8);
    [split_machine m; cbn in *|]; repeat split; assumption.
Qed.

(** X3. Memory safety of the two contexts together.  From power-on, and from
    every state in which the invariants of the decoder and of the emitter
    hold, every stream of chunks with any number of interrupts served
    before each byte is processed without a store outside [leds] or
    [in_buf] and without a read of the emitter outside [leds], and the
    invariants hold again at the end. *)
Theorem interleaved_safety (sched : list (list (nat * Z))) (m : machine) :
  (power_on m /\ (2 <= length (in_buf m))%nat)
  \/ (decoder_inv m /\ emitter_inv m) ->
  exists m', run_irq sched m = Some m' /\ decoder_inv m' /\ emitter_inv m'.
Proof.
  intros [[Hp Hb]|[Hd He]].
  - apply run_irq_safe; [apply power_on_inv|apply power_on_emitter]; assumption.
  - apply run_irq_safe; assumption.
Qed.

(** X4. The interrupts are invisible to the decoder: with any number of them
    served before each byte, the pixel buffer, the variables of [main] and
    the bytes for the host end up as they do with no interrupt at all. *)
Theorem interleaving_transparent (sched : list (list (nat * Z)))
    (m : machine) :
  decoder_inv m -> emitter_inv m ->
  exists r r', run_irq sched m = Some r /\ run (bytes_only sched) m = Some r'
    /\ decoder_view r = decoder_view r' /\ leds r = leds r'
    /\ acks r = acks r'.
Proof.
  intros Hd He. destruct (run_irq_safe sched m Hd He) as (r & Hr & _).
  destruct (view_run_irq sched m m r eq_refl Hr) as (r' & Hr' & Hv).
  exists r, r'. split; [exact Hr|]. split; [exact Hr'|].
  split; [exact Hv|]. split; [|apply acks_view; exact Hv].
  unfold decoder_view in Hv. congruence.
Qed.

(** X5. Every pass ends.  With [pass_left m] the number read off the statics of
    [isr] (0 when the interrupt is disabled, at most 3080), [n] interrupts
    are served without fault; the interrupt is disabled after them exactly
    when [n] reaches [pass_left m], the emitter is then at rest with
    [bit_position] and [byte_count] at 0, and the number of pulses written
    is the smaller of [n] and [pass_left m - 1]. *)
Theorem pass_terminates (n : nat) (m : machine) :
  emitter_inv m -> length (leds m) = 384%nat ->
  exists m', serve n m = Some m'
    /\ pass_left m <= 3080
    /\ (GIE m' = false <-> pass_left m <= Z.of_nat n)
    /\ (GIE m' = false -> bit_position m' = 0 /\ byte_count m' = 0)
    /\ Z.of_nat (length (SSP1BUF m'))
       = Z.of_nat (length (SSP1BUF m))
         + Z.min (Z.of_nat n) (Z.max 0 (pass_left m - 1)).
Proof.
  intros He Hl. destruct (serve_inv n m He Hl) as (m' & H' & He' & Hp' & Hb').
  destruct (pass_left_range m He) as [Hr _].
  destruct (pass_left_range m' He') as [_ Hz].
  exists m'. split; [exact H'|]. split; [lia|]. split; [|split; [|exact Hb']].
  - rewrite <- Hz, Hp'. lia.
  - intros Hg. destruct He' as (_ & _ & Hrest). rewrite Hg in Hrest.
    exact Hrest.
Qed.

(** X7. A hand-off that arrives during a pass does not start a new one.  When
    [k] interrupts of a pass have been served and the decoder hands off
    again, whatever it has decoded in between, the interrupt is disabled
    after [3073 - k] more interrupts and not before: the two passes
    together write the 3072 pulses of one pass, and the second frame is cut
    short by [k] pulses. *)
Theorem colliding_hand_off (k : nat) (m0 m1 m2 : machine) :
  emitter_inv m0 -> GIE m0 = false -> length (leds m0) = 384%nat ->
  (1 <= k <= 3072)%nat ->
  serve k (hand_off m0) = Some m1 ->
  hw_view m2 = hw_view (hand_off m1) -> length (leds m2) = 384%nat ->
  exists m3, serve (3073 - k) m2 = Some m3 /\ GIE m3 = false
    /\ length (SSP1BUF m3) = (length (SSP1BUF m0) + 2 + 3072)%nat
    /\ forall j : nat, (j < 3073 - k)%nat ->
       exists mj, serve j m2 = Some mj /\ GIE mj = true.
Proof.
  intros He0 Hg0 Hl0 Hk H1 Hv2 Hl2.
  destruct (hand_off_inv m0 He0) as [Heh Hph]. rewrite Hg0 in Hph.
  assert (Hlh : length (leds (hand_off m0)) = 384%nat)
    by (rewrite <- Hl0; split_machine m0; reflexivity).
  assert (Hbh : length (SSP1BUF (hand_off m0)) = S (length (SSP1BUF m0))).
  { split_machine m0. unfold hand_off, write_SSP1BUF. fields.
    rewrite length_app. cbn [length]. lia. }
  destruct (serve_inv k _ Heh Hlh) as (m1' & H1' & He1 & Hp1 & Hb1).
  rewrite H1 in H1'. injection H1' as <-.
  assert (Hg1 : GIE m1 = true).
  { destruct (pass_left_range m1 He1) as [_ Hz].
    destruct (GIE m1); [reflexivity|]. exfalso.
    assert (pass_left m1 = 0) by (apply Hz; reflexivity). lia. }
  destruct (hand_off_inv m1 He1) as [Heh1 Hph1]. rewrite Hg1 in Hph1.
  assert (Hbh1 : length (SSP1BUF (hand_off m1)) = S (length (SSP1BUF m1))).
  { clear. split_machine m1. unfold hand_off, write_SSP1BUF. fields.
    rewrite length_app. cbn [length]. lia. }
  pose proof (emitter_inv_hw _ _ Hv2 Heh1) as He2.
  pose proof (pass_left_hw _ _ Hv2) as Hp2.
  assert (Hb2 : SSP1BUF m2 = SSP1BUF (hand_off m1))
    by (apply (hw_view_fields _ _ Hv2)).
  assert (P2 : pass_left m2 = 3073 - Z.of_nat k) by lia.
  destruct (serve_inv (3073 - k) m2 He2 Hl2) as (m3 & H3 & He3 & Hp3 & Hb3).
  exists m3. split; [exact H3|].
  split; [apply (pass_left_range m3 He3); lia|]. split.
  - rewrite Hb2, Hbh1 in Hb3. lia.
  - intros j Hj.
    destruct (serve_inv j m2 He2 Hl2) as (mj & Hmj & Hej & Hpj & _).
    exists mj. split; [exact Hmj|].
    destruct (pass_left_range mj Hej) as [_ Hz].
    destruct (GIE mj); [reflexivity|]. exfalso.
    assert (pass_left mj = 0) by (apply Hz; reflexivity). lia.
Qed.

(** ** From the bytes of the host to the pulses on the wire *)

Lemma swap_rg_SSS (k : nat) : swap_rg (S (S (S k))) = S (S (S (swap_rg k))).
Proof.
  pose proof (swap_rg_cases k). pose proof (swap_rg_cases (S (S (S k)))). lia.
Qed.

Lemma wire_order_lookup (n : nat) : forall P : list Z,
  length P = (3 * n)%nat ->
  length (wire_order P) = (3 * n)%nat
  /\ forall off : nat, (off < 3 * n)%nat ->
     wire_order P !! off = P !! swap_rg off.
Proof.
  induction n as [|n IH]; intros P HP.
  - destruct P; [|discriminate]. split; [reflexivity|]. intros off Hoff. lia.
  - destruct P as [|rv [|gv [|bv P']]]; try (cbn in HP; lia).
    destruct (IH P') as [Hlen Hlook]; [cbn in HP; lia|].
    cbn [wire_order length]. split; [lia|].
    intros [|[|[|off]]] Hoff; try reflexivity.
    rewrite swap_rg_SSS. cbn. apply Hlook. lia.
Qed.

(** The buffer after a body of [3 * K] bytes, as a list. *)
Lemma pixels_buffer (P l l0 : list Z) (K : nat) :
  length P = (3 * K)%nat -> (K <= 128)%nat ->
  length l = 384%nat -> length l0 = 384%nat ->
  (forall off : nat,
     l !! off = if decide (off < 384 /\ swap_rg off < length P)%nat
                then P !! swap_rg off else l0 !! off) ->
  l = wire_order P ++ drop (length P) l0.
Proof.
  intros HP HK Hl Hl0 H. destruct (wire_order_lookup K P HP) as [Hlen Hlook].
  apply list_eq. intros off. rewrite H, HP.
  destruct (decide (off < 3 * K)%nat) as [Hlt|Hge].
  - rewrite lookup_app_l by lia. rewrite Hlook by assumption.
    rewrite decide_True; [reflexivity|].
    split; [lia|apply lt_swap_rg; assumption].
  - rewrite lookup_app_r by lia. rewrite lookup_drop, Hlen.
    replace (3 * K + (off - 3 * K))%nat with off by lia.
    rewrite decide_False; [reflexivity|].
    intros [_ Hs]. apply swap_rg_lt in Hs. lia.
Qed.

(** A machine on which the hand-off has just been done. *)
Lemma handed_off (s : machine) (B : list Z) :
  isr_ptr s = 0%nat -> GIE s = true -> SSP1IF s = true ->
  SSP1BUF s = B ++ [0] -> s = hand_off (set_SSP1BUF B s).
Proof.
  split_machine s. unfold hand_off, write_SSP1BUF. fields.
  intros -> -> -> ->. reflexivity.
Qed.

(** A whole frame: the header and the body in chunks, then the pass. *)
Lemma frame_pass (s0 : machine) (lo hi : Z) (P p0 : list Z)
      (rest : list (list Z)) (K : nat) :
  data_remaining s0 = 0 -> 0 <= toPC_count s0 ->
  (1 <= length (in_buf s0))%nat -> length (leds s0) = 384%nat ->
  bit_position s0 = 0 -> byte_count s0 = 0 ->
  is_u8 lo -> is_u8 hi ->
  Z.of_nat (length P) = Z.lor lo (Z.shiftl hi 8) ->
  length P = (3 * K)%nat -> (1 <= K <= 128)%nat ->
  p0 ++ concat rest = P ->
  exists s' s'',
    run (([2; lo; hi] ++ p0) :: rest) s0 = Some s'
    /\ leds s' = wire_order P ++ drop (length P) (leds s0)
    /\ serve (8 * 384 + 1) s' = Some s''
    /\ SSP1BUF s'' = SSP1BUF s0 ++ [0] ++ waveform (leds s')
    /\ GIE s'' = false /\ bit_position s'' = 0 /\ byte_count s'' = 0
    /\ acks s' = acks s0 ++ [0xFF].
Proof.
  intros Hidle Hc Hroom Hl Hbp Hbc Hlo Hhi HL HP HK Hsplit.
  destruct (message_run P 2 lo hi s0 p0 rest [])
    as (s' & Hrun & Hdec & Hpx); try assumption; try lia; auto.
  { rewrite app_nil_r. exact Hsplit. }
  destruct (latched_frame 2 lo hi s0 Hc)
    as (F1 & _ & _ & _ & _ & _ & F7 & F8 & _ & _ & _ & _ & F13 & F14 & F15 & _).
  rewrite decide_True in Hpx by exact F1.
  rewrite Hsplit in *.
  destruct Hdec as [_ _ _ _ Hacks _ Hlen (S1 & S2 & _)].
  destruct Hpx as [_ _ _ Hleds Hhand].
  rewrite decide_True in Hhand by reflexivity.
  rewrite decide_True in Hacks by reflexivity.
  destruct Hhand as (H1 & H2 & H3 & H4).
  rewrite F8 in Hlen. rewrite F13 in H4. rewrite F14 in S1. rewrite F15 in S2.
  rewrite F7 in Hacks.
  assert (Hbuf : leds s' = wire_order P ++ drop (length P) (leds s0)).
  { apply (pixels_buffer P _ _ K); try assumption; try lia.
    intros off. rewrite Hleds, F8. reflexivity. }
  exists s'. eexists. split; [exact Hrun|]. split; [exact Hbuf|].
  split; [|split; [|split; [|split; [|split]]]].
  - rewrite (handed_off s' (SSP1BUF s0) H1 H2 H3 H4) at 1.
    apply serve_whole_pass.
    + rewrite <- Hl, <- Hlen. clear. split_machine s'. reflexivity.
    + rewrite <- Hbp, <- S1. clear. split_machine s'. reflexivity.
    + rewrite <- Hbc, <- S2. clear. split_machine s'. reflexivity.
  - clear. split_machine s'. reflexivity.
  - reflexivity.
  - rewrite <- Hbp, <- S1. clear. split_machine s'. reflexivity.
  - reflexivity.
  - exact Hacks.
Qed.

(** ** Reading the pulses back *)

Lemma bit_of_pulse_pattern (bit : bool) : bit_of_pulse (pattern bit) = bit.
Proof. destruct bit; reflexivity. Qed.

Lemma byte_of_bits_msb_first (byte : Z) :
  is_u8 byte -> byte_of_bits (bits_msb_first byte) = byte.
Proof.
  intros Hb.
  assert (Hall : forallb (fun k : nat =>
                            byte_of_bits (bits_msb_first (Z.of_nat k))
                            =? Z.of_nat k) (seq 0 256) = true)
    by (vm_compute; reflexivity).
  rewrite forallb_forall in Hall.
  specialize (Hall (Z.to_nat byte)).
  rewrite Z2Nat.id in Hall by (unfold is_u8 in Hb; lia).
  apply Z.eqb_eq, Hall, in_seq. unfold is_u8 in Hb. lia.
Qed.

Lemma waveform_cons (byte : Z) (bytes : list Z) :
  waveform (byte :: bytes)
  = map pattern (bits_msb_first byte) ++ waveform bytes.
Proof. reflexivity. Qed.

Lemma bytes_of_pulses_waveform (bytes : list Z) : forall tail : list Z,
  Forall is_u8 bytes ->
  bytes_of_pulses (length bytes) (waveform bytes ++ tail) = bytes.
Proof.
  induction bytes as [|x bytes IH]; intros tail Hall; [reflexivity|].
  inversion Hall as [|? ? Hx Hrest]; subst.
  rewrite waveform_cons, <- app_assoc. cbn [length bytes_of_pulses].
  assert (H8 : length (map pattern (bits_msb_first x)) = 8%nat)
    by (unfold bits_msb_first; rewrite !length_map, length_seq; reflexivity).
  rewrite take_app_length' by exact H8.
  rewrite drop_app_length' by exact H8.
  rewrite map_map, (map_ext _ (fun bit => bit) bit_of_pulse_pattern), map_id.
  rewrite byte_of_bits_msb_first by assumption.
  f_equal. apply IH. assumption.
Qed.

(** X8. A frame from end to end.  A command 2 of [K] triples, [1 <= K <= 128],
    received after a header that starts a chunk while the emitter is at
    rest, and the 3073 interrupts after it: the SPI data register is
    written the dummy 0x00 and then the 3072 pulses of the 384 bytes of the
    buffer, which are the body in the order green, red, blue followed by
    the bytes the buffer held before beyond entry [K]; the interrupt is
    disabled again, the emitter at rest, and the host has been sent one
    0xFF. *)
Theorem frame_on_the_wire (s0 : machine) (lo hi : Z) (P p0 : list Z)
    (rest : list (list Z)) (K : nat) :
  data_remaining s0 = 0 -> 0 <= toPC_count s0 ->
  (1 <= length (in_buf s0))%nat -> length (leds s0) = 384%nat ->
  bit_position s0 = 0 -> byte_count s0 = 0 ->
  is_u8 lo -> is_u8 hi ->
  Z.of_nat (length P) = Z.lor lo (Z.shiftl hi 8) ->
  length P = (3 * K)%nat -> (1 <= K <= 128)%nat ->
  p0 ++ concat rest = P ->
  exists s' s'',
    run (([2; lo; hi] ++ p0) :: rest) s0 = Some s'
    /\ serve (8 * 384 + 1) s' = Some s''
    /\ SSP1BUF s''
       = SSP1BUF s0 ++ [0x00]
         ++ waveform (wire_order P ++ drop (length P) (leds s0))
    /\ GIE s'' = false /\ bit_position s'' = 0 /\ byte_count s'' = 0
    /\ acks s'' = acks s0 ++ [0xFF].
Proof.
  intros Hidle Hc Hroom Hl Hbp Hbc Hlo Hhi HL HP HK Hsplit.
  destruct (frame_pass s0 lo hi P p0 rest K)
    as (s' & s'' & H1 & H2 & H3 & H4 & H5 & H6 & H7 & H8); try assumption.
  exists s', s''. split; [exact H1|]. split; [exact H3|].
  split; [rewrite H4, H2; reflexivity|].
  split; [exact H5|]. split; [exact H6|]. split; [exact H7|].
  rewrite <- H8. apply acks_view, (serve_view _ _ _ H3).
Qed.

(** X9. The pulses of a pass carry the buffer without loss.  After a
    hand-off that finds the emitter at rest, what the 3073 interrupts of
    the pass have written to the SPI data register behind the dummy byte,
    read with every 0xFF as a 1 and every 0xF0 as a 0, eight to a byte and
    most significant bit first, is the 384 bytes of the buffer. *)
Theorem pass_round_trip (m : machine) :
  length (leds m) = 384%nat -> bit_position m = 0 -> byte_count m = 0 ->
  Forall is_u8 (leds m) ->
  exists m',
    serve (8 * 384 + 1) (hand_off m) = Some m'
    /\ bytes_of_pulses 384 (drop (S (length (SSP1BUF m))) (SSP1BUF m'))
       = leds m.
Proof.
  intros Hl Hbp Hbc Hall. exists (after_pass m).
  split; [apply serve_whole_pass; assumption|].
  assert (E : SSP1BUF (after_pass m)
              = (SSP1BUF m ++ [0]) ++ waveform (leds m))
    by (rewrite <- app_assoc; clear; split_machine m; reflexivity).
  rewrite E, drop_app_length' by (rewrite length_app; cbn [length]; lia).
  rewrite <- Hl at 1. rewrite <- (app_nil_r (waveform (leds m))).
  apply bytes_of_pulses_waveform. exact Hall.
Qed.

(** ** The polling loop *)

Lemma main_loop_iteration (u : usb_answers) (m : machine) :
  main_loop u m
  = if usb_ready u then iteration (default [] (usb_get_out_buffer u)) m
    else Some m.
Proof.
  unfold main_loop, usb_ready, iteration.
  destruct (usb_is_configured u); [|reflexivity].
  destruct (usb_in_endpoint_halted u || usb_in_endpoint_busy u);
    [reflexivity|].
  destruct (usb_get_out_buffer u); reflexivity.
Qed.

Lemma poll_run (us : list usb_answers) : forall m : machine,
  poll us m = run (chunks_of us) m.
Proof.
  induction us as [|u us IH]; intros m; [reflexivity|].
  cbn [poll]. rewrite main_loop_iteration. unfold chunks_of in *.
  cbn [flat_map]. destruct (usb_ready u); cbn [app run mbind option_bind].
  - destruct (iteration _ m) as [m'|]; cbn; [apply IH|reflexivity].
  - apply IH.
Qed.

Lemma chunk_loop_toPC (out_buf : list Z) :
  forall (index : nat) (m m' : machine),
  chunk_loop index out_buf m = Some m' -> toPC m' = toPC m.
Proof.
  induction out_buf as [|x rest IH]; intros index m m' H.
  - injection H as <-. reflexivity.
  - cbn [chunk_loop] in H.
    destruct (loop_body index x m) as [m1|] eqn:E; [|discriminate].
    cbn [mbind option_bind] in H. rewrite (IH _ _ _ H).
    apply loop_body_hw in E.
    destruct (hw_view_fields _ _ E) as (_ & _ & _ & _ & _ & _ & _ & ->).
    destruct (hands_off m); [|reflexivity].
    clear. split_machine m. reflexivity.
Qed.

Lemma flush_toPC (m : machine) :
  toPC (flush m) = toPC m ++ concat (in_packet m).
Proof.
  unfold flush, in_packet. destruct (0 <? toPC_count m).
  - split_machine m. cbn [concat]. fields. rewrite app_nil_r. reflexivity.
  - cbn [concat]. rewrite app_nil_r. reflexivity.
Qed.

(** What is staged at the end of an iteration is one 0xFF for each body
    that ended in it. *)
Lemma iteration_staged (out_buf : list Z) (m : machine) :
  decoder_inv m ->
  exists m', iteration out_buf m = Some m' /\ decoder_inv m' /\ staged_ok m'
    /\ toPC m' = toPC m ++ concat (in_packet m)
    /\ acks m'
       = acks m ++ replicate (completions_chunk 0 out_buf (flush m)) 0xFF.
Proof.
  intros Hinv.
  destruct (iteration_safe out_buf m Hinv) as (m' & H & Hinv' & Hc & Hle & Ha).
  destruct (flush_inv m Hinv) as (_ & Hf0 & Hfa).
  exists m'. split; [exact H|]. split; [exact Hinv'|].
  assert (Ht : toPC m' = toPC (flush m)) by (apply (chunk_loop_toPC _ _ _ _ H)).
  split; [|split; [rewrite Ht; apply flush_toPC|exact Ha]].
  split; [exact Hle|].
  assert (Hf : acks (flush m) = toPC (flush m)).
  { unfold acks. rewrite Hf0. change (Z.to_nat 0) with 0%nat.
    rewrite take_0. apply app_nil_r. }
  rewrite <- Hfa, Hf, <- Ht in Ha. unfold acks in Ha.
  apply app_inv_head in Ha. rewrite Ha, Hc, Nat2Z.id. reflexivity.
Qed.

Lemma staged_packet (m : machine) :
  decoder_inv m -> staged_ok m ->
  Forall (fun p : list Z => p = [0xFF] \/ p = [0xFF; 0xFF]) (in_packet m).
Proof.
  intros (_ & _ & Hc & _) [Hle Hst]. unfold in_packet.
  destruct (Z.ltb_spec 0 (toPC_count m)); [|constructor].
  constructor; [|constructor]. rewrite Hst.
  assert (C : toPC_count m = 1 \/ toPC_count m = 2) by lia.
  destruct C as [-> | ->]; [left|right]; reflexivity.
Qed.

Lemma poll_staged (us : list usb_answers) : forall m : machine,
  decoder_inv m -> staged_ok m ->
  exists m', poll us m = Some m' /\ decoder_inv m' /\ staged_ok m'
    /\ toPC m' = toPC m ++ concat (packets us m)
    /\ Forall (fun p : list Z => p = [0xFF] \/ p = [0xFF; 0xFF])
         (packets us m)
    /\ (Forall (fun u : usb_answers => usb_ready u = false) us -> m' = m).
Proof.
  induction us as [|u us IH]; intros m Hinv Hst.
  - exists m. cbn [poll packets concat]. rewrite app_nil_r.
    split; [reflexivity|]. split; [exact Hinv|]. split; [exact Hst|].
    split; [reflexivity|]. split; [constructor|reflexivity].
  - cbn [poll packets]. rewrite main_loop_iteration.
    destruct (usb_ready u) eqn:Er.
    + destruct (iteration_staged (default [] (usb_get_out_buffer u)) m Hinv)
        as (m1 & H1 & Hinv1 & Hst1 & Ht1 & _).
      destruct (IH m1 Hinv1 Hst1) as (m' & H' & Hinv' & Hst' & Ht' & Hp' & _).
      exists m'. rewrite H1. cbn [mbind option_bind].
      split; [exact H'|]. split; [exact Hinv'|]. split; [exact Hst'|].
      split; [|split].
      * rewrite Ht', Ht1, concat_app, app_assoc. reflexivity.
      * apply Forall_app. split; [apply staged_packet; assumption|exact Hp'].
      * intros Hall. inversion Hall as [|? ? Hu _]; subst. congruence.
    + destruct (IH m Hinv Hst) as (m' & H' & Hinv' & Hst' & Ht' & Hp' & Hn').
      exists m'. cbn [mbind option_bind app].
      split; [exact H'|]. split; [exact Hinv'|]. split; [exact Hst'|].
      split; [exact Ht'|]. split; [exact Hp'|].
      intros Hall. inversion Hall; subst. auto.
Qed.

(** X10. The loop of [main], whatever the USB stack answers.  It never stores
    outside the buffers; an iteration stopped by one of the guards changes
    nothing, so staged acknowledgments wait and no chunk is consumed; the
    bytes the host receives are the packets handed over at line 94, in
    order, every one of them one or two 0xFF; and the decoder has seen
    exactly the chunks of the iterations that passed the guards, so that
    no acknowledgment is lost or doubled. *)
Theorem polling_loop (us : list usb_answers) (m : machine) :
  decoder_inv m -> staged_ok m ->
  exists m', poll us m = Some m' /\ decoder_inv m' /\ staged_ok m'
    /\ run (chunks_of us) m = Some m'
    /\ toPC m' = toPC m ++ concat (packets us m)
    /\ Forall (fun p : list Z => p = [0xFF] \/ p = [0xFF; 0xFF])
         (packets us m)
    /\ acks m' = acks m ++ replicate (completions (chunks_of us) m) 0xFF
    /\ (Forall (fun u : usb_answers => usb_ready u = false) us -> m' = m).
Proof.
  intros Hinv Hst.
  destruct (poll_staged us m Hinv Hst) as (m' & H & Hi & Hs & Ht & Hp & Hn).
  destruct (run_safe (chunks_of us) m Hinv) as (r & Hr & _ & Ha).
  assert (E : r = m') by (rewrite poll_run in H; congruence). subst r.
  exists m'. split; [exact H|]. split; [exact Hi|]. split; [exact Hs|].
  split; [exact Hr|]. split; [exact Ht|]. split; [exact Hp|].
  split; [exact Ha|exact Hn].
Qed.

(** ** The locals that are not initialised *)

Lemma previous_byte_overwritten (index : nat) (byte x : Z) (m : machine) :
  loop_body index byte (set_previous_byte x m) = loop_body index byte m.
Proof. split_machine m. unfold loop_body. fields. reflexivity. Qed.

Lemma agree_locals (k : nat) (m1 m2 : machine) :
  agree k m1 m2 -> same_but_locals m1 m2.
Proof.
  destruct k as [|[|k]]; cbn [agree].
  - intros [H _]. exact H.
  - intros ->. split_machine m1. unfold same_but_locals. fields.
    repeat split; reflexivity.
  - intros ->. unfold same_but_locals. repeat split; reflexivity.
Qed.

Lemma flush_agree (k : nat) (m1 m2 : machine) :
  agree k m1 m2 -> agree k (flush m1) (flush m2).
Proof.
  destruct k as [|[|k]]; cbn [agree].
  - split_machine m1.
    destruct m2 as [l2 ip2 tc2 cmd2 ci2 cb2 pb2 li2 dr2 w2 bp2 bc2 icb2 gie2
                       sif2 sbuf2 ib2 tp2].
    unfold same_but_locals, flush. fields.
    intros [(-> & -> & -> & -> & -> & -> & -> & -> & -> & -> & -> & ->) ->].
    destruct (0 <? tc2); fields; repeat split; reflexivity.
  - intros ->. split_machine m1. unfold flush. fields.
    destruct (0 <? tc); reflexivity.
  - intros ->. reflexivity.
Qed.

(** The first byte ever decoded is at position 0 of its chunk and sets the
    command and the cursor; [previous_byte] is overwritten by every byte
    before it is read. *)
Lemma loop_body_agree (k index : nat) (byte : Z) (m1 m2 : machine) :
  agree k m1 m2 -> (k = 0%nat -> index = 0%nat) ->
  option_Forall2 (agree (S k))
    (loop_body index byte m1) (loop_body index byte m2).
Proof.
  destruct k as [|[|k]]; cbn [agree].
  - intros [Hs Hd] Hi. rewrite (Hi eq_refl). revert Hs Hd. split_machine m1.
    destruct m2 as [l2 ip2 tc2 cmd2 ci2 cb2 pb2 li2 dr2 w2 bp2 bc2 icb2 gie2
                       sif2 sbuf2 ib2 tp2].
    unfold same_but_locals, loop_body, header_byte. fields.
    intros (-> & -> & -> & -> & -> & -> & -> & -> & -> & -> & -> & ->) E.
    subst dr2. change (0 =? 0) with true. cbv iota.
    constructor. reflexivity.
  - intros -> _. rewrite previous_byte_overwritten.
    destruct (loop_body index byte m1); constructor. reflexivity.
  - intros -> _. destruct (loop_body index byte m2); constructor. reflexivity.
Qed.

Lemma chunk_loop_agree (out_buf : list Z) :
  forall (k index : nat) (m1 m2 : machine),
  agree k m1 m2 -> (k = 0%nat -> index = 0%nat) ->
  option_Forall2 (agree (k + length out_buf))
    (chunk_loop index out_buf m1) (chunk_loop index out_buf m2).
Proof.
  induction out_buf as [|x rest IH]; intros k index m1 m2 Ha Hi.
  - cbn [chunk_loop length]. rewrite Nat.add_0_r. constructor. exact Ha.
  - cbn [chunk_loop length]. rewrite Nat.add_succ_r.
    destruct (loop_body_agree k index x m1 m2 Ha Hi) as [x1 x2 Hx|];
      cbn [mbind option_bind]; [|constructor].
    apply (IH (S k) (S index) x1 x2 Hx). discriminate.
Qed.

Lemma run_agree (chunks : list (list Z)) : forall (k : nat) (m1 m2 : machine),
  agree k m1 m2 ->
  option_Forall2 (agree (k + length (concat chunks)))
    (run chunks m1) (run chunks m2).
Proof.
  induction chunks as [|c cs IH]; intros k m1 m2 Ha.
  - cbn [run concat length]. rewrite Nat.add_0_r. constructor. exact Ha.
  - cbn [run concat]. unfold iteration. rewrite length_app, Nat.add_assoc.
    destruct (chunk_loop_agree c k 0 (flush m1) (flush m2)
                (flush_agree _ _ _ Ha) (fun _ => eq_refl)) as [x1 x2 Hx|];
      cbn [mbind option_bind]; [|constructor].
    apply IH. exact Hx.
Qed.

(** X11. The locals [command], [color_index], [current_byte], [previous_byte],
    [led_index] and [wptr] are not initialised before the loop, and line
    107 reads [current_byte] at the first byte.  Nothing depends on what
    they hold: two runs that start between messages and differ in these
    locals only fail or succeed together; they agree on everything else
    throughout, on everything but [previous_byte] after the first byte, and
    on everything after the second. *)
Theorem locals_need_no_init (chunks : list (list Z)) (m1 m2 : machine) :
  same_but_locals m1 m2 -> data_remaining m1 = 0 ->
  option_Forall2
    (fun r1 r2 : machine =>
       same_but_locals r1 r2
       /\ ((1 <= length (concat chunks))%nat ->
           r2 = set_previous_byte (previous_byte r2) r1)
       /\ ((2 <= length (concat chunks))%nat -> r1 = r2))
    (run chunks m1) (run chunks m2).
Proof.
  intros Hs Hd.
  destruct (run_agree chunks 0 m1 m2 (conj Hs Hd)) as [r1 r2 Hr|];
    constructor.
  cbn [Nat.add] in Hr. split; [apply (agree_locals _ _ _ Hr)|].
  destruct (length (concat chunks)) as [|[|n]]; cbn [agree] in Hr.
  - split; intros; lia.
  - split; [intros _; exact Hr|intros; lia].
  - subst r2. split; [|reflexivity]. intros _. clear. split_machine r1.
    reflexivity.
Qed.

(** ** A body that ends inside the first three bytes of a chunk *)

Lemma write_color_latch (m m' : machine) :
  write_color m = Some m' -> latch_view m' = latch_view m.
Proof.
  split_machine m. unfold write_color. cbn [wptr color_index current_byte].
  destruct w as [w|]; [|intros [= <-]; reflexivity].
  destruct ci as [|[[?|?|]|[?|?|]|]|?];
    try (intros [= <-]; reflexivity);
    unfold store_leds, store; cbn [leds];
    match goal with |- context [decide ?p] => destruct (decide p) end;
    cbn [mbind option_bind]; intros [= <-]; reflexivity.
Qed.

Lemma next_color_latch (m : machine) :
  latch_view (next_color m) = latch_view m.
Proof.
  split_machine m. unfold next_color. fields.
  destruct (u8 (ci + 1) =? 3); [|reflexivity].
  destruct (u8 (li + 1) =? LED_COUNT); reflexivity.
Qed.

Lemma acknowledge_latch (m m' : machine) :
  acknowledge m = Some m' -> latch_view m' = latch_view m.
Proof.
  split_machine m. unfold acknowledge, store. cbn [toPC_count in_buf].
  match goal with |- context [decide ?p] => destruct (decide p) end;
    cbn [mbind option_bind]; intros [= <-]; reflexivity.
Qed.

Lemma hand_off_latch (m : machine) : latch_view (hand_off m) = latch_view m.
Proof. split_machine m. reflexivity. Qed.

Lemma latch_view_fields (m m' : machine) :
  latch_view m' = latch_view m ->
  command m' = command m /\ current_byte m' = current_byte m
  /\ previous_byte m' = previous_byte m
  /\ data_remaining m' = data_remaining m.
Proof. unfold latch_view. intros [= -> -> -> ->]. repeat split. Qed.

(** A byte of a body counts the length down and leaves the command
    alone. *)
Lemma loop_body_payload (index : nat) (byte : Z) (m m' : machine) :
  loop_body index byte m = Some m' -> data_remaining m <> 0 ->
  latch_view m'
  = (command m, byte, current_byte m, u16 (data_remaining m - 1)).
Proof.
  intros H Hd. unfold loop_body in H. cbv zeta in H.
  set (m1 := set_current_byte byte (set_previous_byte (current_byte m) m)) in H.
  assert (L1 : latch_view m1
               = (command m, byte, current_byte m, data_remaining m))
    by (split_machine m; reflexivity).
  assert (D1 : data_remaining m1 = data_remaining m)
    by (split_machine m; reflexivity).
  rewrite D1, (Zeqb_false _ _ Hd) in H. unfold payload_byte in H. cbv zeta in H.
  set (m2 := set_data_remaining (u16 (data_remaining m1 - 1)) m1) in H.
  assert (L2 : latch_view m2
               = (command m, byte, current_byte m, u16 (data_remaining m - 1))).
  { subst m2. rewrite D1. revert L1. clear. split_machine m1.
    unfold latch_view. fields. intros [= -> -> -> _]. reflexivity. }
  destruct (if command m2 =? 2
            then m0 ← write_color m2;
                 Some (next_color (if data_remaining m0 =? 0
                                   then hand_off m0 else m0))
            else Some m2) as [m3|] eqn:E3; [|discriminate].
  cbn [mbind option_bind] in H.
  assert (L3 : latch_view m3 = latch_view m2).
  { destruct (command m2 =? 2); [|injection E3 as <-; reflexivity].
    destruct (write_color m2) as [m0|] eqn:E0; [|discriminate].
    cbn [mbind option_bind] in E3. injection E3 as <-.
    rewrite next_color_latch.
    destruct (data_remaining m0 =? 0); [rewrite hand_off_latch|];
      apply (write_color_latch _ _ E0). }
  rewrite <- L2, <- L3.
  destruct (data_remaining m3 =? 0);
    [apply (acknowledge_latch _ _ H)|injection H as <-; reflexivity].
Qed.

Lemma flush_latch (m : machine) : latch_view (flush m) = latch_view m.
Proof.
  unfold flush. destruct (0 <? toPC_count m); [|reflexivity].
  split_machine m. reflexivity.
Qed.

(** Between messages, the byte at position 2 latches a length. *)
Lemma loop_body_2 (byte : Z) (m : machine) :
  data_remaining m = 0 ->
  exists m', loop_body 2 byte m = Some m'
    /\ data_remaining m' = Z.lor (u16 (Z.shiftl byte 8)) (current_byte m)
    /\ command m' = command m /\ wptr m' = wptr m
    /\ color_index m' = color_index m /\ led_index m' = led_index m
    /\ leds m' = leds m /\ acks m' = acks m.
Proof.
  split_machine m. fields. intros ->. eexists.
  unfold loop_body, header_byte, acks. fields. change (0 =? 0) with true.
  cbv iota. split; [reflexivity|]. fields. repeat split; reflexivity.
Qed.

Lemma loop_body_1 (byte : Z) (m : machine) :
  data_remaining m = 0 ->
  exists m', loop_body 1 byte m = Some m'
    /\ data_remaining m' = 0 /\ current_byte m' = byte
    /\ command m' = command m /\ wptr m' = wptr m
    /\ color_index m' = color_index m /\ led_index m' = led_index m
    /\ leds m' = leds m /\ acks m' = acks m.
Proof.
  split_machine m. fields. intros ->. eexists.
  unfold loop_body, header_byte, acks. fields. change (0 =? 0) with true.
  cbv iota. split; [reflexivity|]. fields. repeat split; reflexivity.
Qed.

(** X12. The header is found by position in the chunk alone.  When a body ends
    with the byte at position 0 or 1 of a chunk, the byte at position 2 of
    that chunk latches a length all the same, with the byte before it as
    the low byte, even when that byte belonged to the body: a new body
    begins although no command byte was read, under the command of the
    message that has just ended and with the cursor where that message
    left it. *)
Theorem stale_header (a b c : Z) (m : machine) :
  decoder_inv m -> data_remaining m = 1 \/ data_remaining m = 2 ->
  exists mk m',
    chunk_loop 0 (take (Z.to_nat (data_remaining m)) [a; b; c]) (flush m)
    = Some mk
    /\ data_remaining mk = 0
    /\ iteration [a; b; c] m = Some m'
    /\ data_remaining m' = Z.lor (u16 (Z.shiftl c 8)) b
    /\ command m' = command m /\ wptr m' = wptr mk
    /\ color_index m' = color_index mk /\ led_index m' = led_index mk
    /\ leds m' = leds mk /\ acks m' = acks mk.
Proof.
  intros Hinv Hd. destruct (flush_inv m Hinv) as (Hc0 & _).
  destruct (latch_view_fields _ _ (flush_latch m)) as (Fc & _ & _ & Fd).
  unfold iteration.
  destruct (loop_body_safe 0 a (flush m) Hc0) as (m1 & H1 & Hc1 & _).
  pose proof (loop_body_payload _ _ _ _ H1) as L1.
  destruct Hd as [Hd|Hd]; rewrite Hd in *.
  - change (take (Z.to_nat 1) [a; b; c]) with [a].
    rewrite Fd in L1. specialize (L1 ltac:(lia)).
    change (u16 (1 - 1)) with 0 in L1.
    assert (D1 : data_remaining m1 = 0 /\ command m1 = command m).
    { revert L1. rewrite Fc. clear. unfold latch_view.
      intros [= -> _ _ ->]. split; reflexivity. }
    destruct D1 as [D1 C1].
    destruct (loop_body_1 b m1 D1)
      as (m2 & H2 & D2 & B2 & C2 & W2 & I2 & X2 & Y2 & A2).
    destruct (loop_body_2 c m2 D2)
      as (m3 & H3 & D3 & C3 & W3 & I3 & X3 & Y3 & A3).
    exists m1, m3. cbn [chunk_loop]. rewrite H1. cbn [mbind option_bind].
    rewrite H2. cbn [mbind option_bind]. rewrite H3.
    split; [reflexivity|]. split; [exact D1|]. split; [reflexivity|].
    rewrite B2 in D3.
    split; [exact D3|]. repeat split; congruence.
  - change (take (Z.to_nat 2) [a; b; c]) with [a; b].
    rewrite Fd in L1. specialize (L1 ltac:(lia)).
    change (u16 (2 - 1)) with 1 in L1.
    assert (D1 : data_remaining m1 = 1 /\ command m1 = command m).
    { revert L1. rewrite Fc. clear. unfold latch_view.
      intros [= -> _ _ ->]. split; reflexivity. }
    destruct D1 as [D1 C1].
    destruct (loop_body_safe 1 b m1 Hc1) as (m2 & H2 & _).
    pose proof (loop_body_payload _ _ _ _ H2) as L2.
    rewrite D1 in L2. specialize (L2 ltac:(lia)).
    change (u16 (1 - 1)) with 0 in L2.
    assert (D2 : data_remaining m2 = 0 /\ command m2 = command m
                 /\ current_byte m2 = b).
    { revert L2. rewrite C1. clear. unfold latch_view.
      intros [= -> -> _ ->]. repeat split; reflexivity. }
    destruct D2 as (D2 & C2 & B2).
    destruct (loop_body_2 c m2 D2)
      as (m3 & H3 & D3 & C3 & W3 & I3 & X3 & Y3 & A3).
    exists m2, m3. cbn [chunk_loop]. rewrite H1. cbn [mbind option_bind].
    rewrite H2. cbn [mbind option_bind]. rewrite H3.
    split; [reflexivity|]. split; [exact D2|]. split; [reflexivity|].
    rewrite B2 in D3.
    split; [exact D3|]. repeat split; congruence.
Qed.

(** X13. The length of a message travels low byte first: the header
    [op; L mod 256; L / 256] at the start of a chunk, received between
    messages, announces a body of [L] bytes for every [L] a 16-bit counter
    holds, sets the command and rewinds the cursor. *)
Theorem header_length (op L : Z) (m : machine) :
  data_remaining m = 0 -> 0 <= L < 65536 ->
  exists m', iteration [op; L mod 256; L / 256] m = Some m'
    /\ data_remaining m' = L /\ command m' = op
    /\ wptr m' = Some 0%nat /\ color_index m' = 0 /\ led_index m' = 0
    /\ leds m' = leds m.
Proof.
  intros Hd HL. exists (latched op (L mod 256) (L / 256) m).
  split; [apply header_chunk; exact Hd|].
  assert (Hlo : is_u8 (L mod 256)) by (unfold is_u8; lia).
  assert (Hhi : is_u8 (L / 256)) by (unfold is_u8; lia).
  destruct (lor_shiftl_byte _ _ Hlo Hhi) as [E1 E2].
  unfold latched, flush. split_machine m. fields.
  destruct (0 <? tc); fields; (split; [rewrite E1, E2; lia|]);
    repeat split; reflexivity.
Qed.

(** ** A pass from wherever it stands *)

Lemma hw_view_read (m : machine) (ip : nat) (gie sif : bool) (sbuf : list Z)
      (bp bc icb : Z) (tp : list Z) :
  hw_view m = (ip, gie, sif, sbuf, bp, bc, icb, tp) ->
  isr_ptr m = ip /\ GIE m = gie /\ SSP1IF m = sif /\ SSP1BUF m = sbuf
  /\ bit_position m = bp /\ byte_count m = bc /\ isr_current_byte m = icb.
Proof. unfold hw_view. intros [= -> -> -> -> -> -> -> _]. repeat split. Qed.

Lemma shift_out_app (j : nat) : forall (k : nat) (v : Z),
  shift_out (j + k) v = shift_out j v ++ shift_out k (Nat.iter j shl8 v).
Proof.
  induction j as [|j IH]; intros k v; [reflexivity|].
  cbn [Nat.add shift_out app]. rewrite IH, Nat.iter_succ_r. reflexivity.
Qed.

(** The bits of the byte in hand. *)
Lemma serve_bits (k : nat) : forall m : machine,
  GIE m = true -> SSP1IF m = true ->
  1 <= bit_position m <= 7 -> bit_position m + Z.of_nat k <= 8 ->
  exists m', serve k m = Some m'
    /\ hw_view m'
       = (isr_ptr m, true, true,
          SSP1BUF m ++ shift_out k (isr_current_byte m),
          Z.land (bit_position m + Z.of_nat k) 7, byte_count m,
          Nat.iter k shl8 (isr_current_byte m), toPC m)
    /\ leds m' = leds m.
Proof.
  induction k as [|k IH]; intros m Hg Hs Hbp Hk.
  - exists m. split; [reflexivity|]. split; [|reflexivity].
    revert Hg Hs Hbp. clear. split_machine m. unfold hw_view. fields.
    intros -> -> Hbp. cbn [shift_out Nat.iter]. rewrite app_nil_r.
    change (Z.of_nat 0) with 0. rewrite Z.add_0_r.
    change 7 with (Z.ones 3). rewrite Z.land_ones by lia.
    rewrite Z.mod_small by (change (2 ^ 3) with 8; lia). reflexivity.
  - cbn [serve]. rewrite interrupt_shift by assumption.
    cbn [mbind option_bind].
    destruct (Z.eq_dec (bit_position m) 7) as [E7|N7].
    + assert (k = 0%nat) by lia. subst k. eexists. split; [reflexivity|].
      revert Hg Hs E7. clear. split_machine m. unfold hw_view. fields.
      intros -> -> ->. split; reflexivity.
    + rewrite (Zeqb_false _ _ N7).
      edestruct (IH (set_bit_position (bit_position m + 1)
                       (set_isr_current_byte (shl8 (isr_current_byte m))
                          (set_SSP1BUF
                             (SSP1BUF m ++ [pulse (isr_current_byte m)]) m))))
        as (m' & H' & Hv' & Hl').
      * revert Hg. clear. split_machine m. exact (fun x => x).
      * revert Hs. clear. split_machine m. exact (fun x => x).
      * revert Hbp N7. clear. split_machine m. fields. lia.
      * revert Hk. clear. split_machine m. fields. lia.
      * exists m'. split; [exact H'|]. rewrite Hv', Hl'.
        clear. split_machine m. fields. rewrite <- app_assoc.
        cbn [shift_out app]. rewrite Nat.iter_succ_r.
        split; [|reflexivity].
        replace (bp + Z.of_nat (S k)) with (bp + 1 + Z.of_nat k) by lia.
        reflexivity.
Qed.

(** Eight interrupts from a byte boundary: the byte under the read pointer,
    as the buffer holds it then. *)
Lemma serve_byte_at (m : machine) (v : Z) :
  GIE m = true -> SSP1IF m = true -> bit_position m = 0 ->
  0 <= byte_count m < 384 -> leds m !! isr_ptr m = Some v ->
  exists m', serve 8 m = Some m'
    /\ hw_view m'
       = (S (isr_ptr m), true, true, SSP1BUF m ++ shift_out 8 v, 0,
          byte_count m + 1, 0, toPC m)
    /\ leds m' = leds m.
Proof.
  intros Hg Hs Hbp Hbc Hv.
  change 8%nat with (1 + 7)%nat. rewrite serve_add, serve_1.
  rewrite (interrupt_load m v) by assumption. cbn [mbind option_bind].
  edestruct (serve_bits 7
               (set_bit_position 1
                  (set_isr_current_byte (shl8 v)
                     (set_SSP1BUF (SSP1BUF m ++ [pulse v])
                        (set_byte_count (byte_count m + 1)
                           (set_isr_ptr (S (isr_ptr m)) m))))))
    as (m' & H' & Hv' & Hl').
  - revert Hg. clear. split_machine m. exact (fun x => x).
  - revert Hs. clear. split_machine m. exact (fun x => x).
  - clear. split_machine m. fields. lia.
  - clear. split_machine m. fields. lia.
  - exists m'. split; [exact H'|]. rewrite Hv', Hl'.
    clear. split_machine m. fields. rewrite <- app_assoc.
    split; [|reflexivity].
    change (Nat.iter 7 shl8 (shl8 v)) with (Nat.iter 8 shl8 v).
    rewrite (shl8_8 v). reflexivity.
Qed.

Lemma serve_bytes_at (j : nat) : forall m : machine,
  GIE m = true -> SSP1IF m = true -> bit_position m = 0 ->
  0 <= byte_count m -> byte_count m + Z.of_nat j <= 384 ->
  (isr_ptr m + j <= length (leds m))%nat ->
  exists m', serve (8 * j) m = Some m'
    /\ hw_view m'
       = ((isr_ptr m + j)%nat, true, true,
          SSP1BUF m ++ waveform (take j (drop (isr_ptr m) (leds m))), 0,
          byte_count m + Z.of_nat j,
          match j with O => isr_current_byte m | _ => 0 end, toPC m)
    /\ leds m' = leds m.
Proof.
  induction j as [|j IH]; intros m Hg Hs Hbp Hbc Hj Hp.
  - exists m. split; [reflexivity|]. split; [|reflexivity].
    revert Hg Hs Hbp. clear. split_machine m. unfold hw_view. fields.
    intros -> -> ->. rewrite Nat.add_0_r, Z.add_0_r.
    cbn [take waveform flat_map].
    rewrite app_nil_r. reflexivity.
  - replace (8 * S j)%nat with (8 + 8 * j)%nat by lia. rewrite serve_add.
    destruct (lookup_lt_is_Some_2 (leds m) (isr_ptr m)) as [v Hv]; [lia|].
    destruct (serve_byte_at m v Hg Hs Hbp ltac:(lia) Hv)
      as (m1 & H1 & Hv1 & Hl1).
    rewrite H1. cbn [mbind option_bind].
    destruct (hw_view_read _ _ _ _ _ _ _ _ _ Hv1)
      as (A1 & A2 & A3 & A4 & A5 & A6 & A7).
    destruct (IH m1) as (m' & H' & Hv' & Hl'); try assumption.
    + rewrite A6. lia.
    + rewrite A6. lia.
    + rewrite A1, Hl1. lia.
    + exists m'. split; [exact H'|]. split; [|congruence].
      rewrite Hv', A1, A4, A6, Hl1. unfold hw_view in Hv1.
      assert (Ht : toPC m1 = toPC m) by congruence. rewrite Ht.
      rewrite (drop_S _ _ _ Hv). cbn [take]. rewrite waveform_cons.
      rewrite <- shift_out_8, <- app_assoc.
      replace (S (isr_ptr m) + j)%nat with (isr_ptr m + S j)%nat by lia.
      replace (byte_count m + 1 + Z.of_nat j)
        with (byte_count m + Z.of_nat (S j)) by lia.
      destruct j; [rewrite A7|]; reflexivity.
Qed.

Lemma pass_from_boundary (m : machine) :
  GIE m = true -> SSP1IF m = true -> bit_position m = 0 ->
  0 <= byte_count m <= 384 -> Z.of_nat (isr_ptr m) <= byte_count m ->
  length (leds m) = 384%nat ->
  exists m', serve (8 * Z.to_nat (384 - byte_count m) + 1) m = Some m'
    /\ GIE m' = false /\ bit_position m' = 0 /\ byte_count m' = 0
    /\ SSP1BUF m'
       = SSP1BUF m
         ++ waveform (take (Z.to_nat (384 - byte_count m))
                        (drop (isr_ptr m) (leds m))).
Proof.
  intros Hg Hs Hbp Hbc Hip Hl.
  destruct (serve_bytes_at (Z.to_nat (384 - byte_count m)) m)
    as (m1 & H1 & Hv1 & Hl1); try assumption; try lia.
  destruct (hw_view_read _ _ _ _ _ _ _ _ _ Hv1)
    as (A1 & A2 & A3 & A4 & A5 & A6 & A7).
  rewrite serve_add, H1. cbn [mbind option_bind]. rewrite serve_1.
  rewrite interrupt_done; try assumption; [|rewrite A6; lia].
  eexists. split; [reflexivity|]. rewrite <- A4. revert A5. clear.
  split_machine m1. fields. intros ->. repeat split; reflexivity.
Qed.

(** X6. The rest of a pass, from wherever it stands.  While the interrupt is
    enabled, [pass_left m] interrupts end the pass: they write the bits
    still to come of the byte in hand and then the bytes from the read
    pointer on, as many as the byte counter lacks to 384, and leave the
    emitter at rest.  After a hand-off at rest these are the 384 bytes of
    the buffer.  After a hand-off during a pass the read pointer is back at
    the start of the buffer but the byte counter is not: the bytes sent are
    the first [384 - byte_count m] of the buffer only. *)
Theorem rest_of_pass (m : machine) :
  emitter_inv m -> GIE m = true -> length (leds m) = 384%nat ->
  exists m', serve (Z.to_nat (pass_left m)) m = Some m'
    /\ GIE m' = false /\ bit_position m' = 0 /\ byte_count m' = 0
    /\ SSP1BUF m'
       = SSP1BUF m
         ++ shift_out (Z.to_nat ((8 - bit_position m) mod 8))
              (isr_current_byte m)
         ++ waveform (take (Z.to_nat (384 - byte_count m))
                        (drop (isr_ptr m) (leds m))).
Proof.
  unfold emitter_inv, pass_left, LED_COUNT, sizeof_ws_led_struct.
  intros (Hbc & Hbp & Hrest) Hg Hl. rewrite Hg in *.
  destruct Hrest as [Hs Hip].
  change (128 * 3) with 384 in *.
  destruct (Z.eqb_spec (bit_position m) 0) as [E0|N0].
  - rewrite E0. change (Z.to_nat ((8 - 0) mod 8)) with 0%nat.
    cbn [shift_out app].
    replace (Z.to_nat (0 + 8 * (384 - byte_count m) + 1))
      with (8 * Z.to_nat (384 - byte_count m) + 1)%nat by lia.
    apply pass_from_boundary; assumption.
  - replace (Z.to_nat ((8 - bit_position m) mod 8))
      with (Z.to_nat (8 - bit_position m)) by lia.
    replace (Z.to_nat (8 - bit_position m + 8 * (384 - byte_count m) + 1))
      with (Z.to_nat (8 - bit_position m)
            + (8 * Z.to_nat (384 - byte_count m) + 1))%nat by lia.
    destruct (serve_bits (Z.to_nat (8 - bit_position m)) m)
      as (m0 & H0 & Hv0 & Hl0); try assumption; try lia.
    destruct (hw_view_read _ _ _ _ _ _ _ _ _ Hv0)
      as (A1 & A2 & A3 & A4 & A5 & A6 & A7).
    assert (B5 : bit_position m0 = 0).
    { rewrite A5, Z2Nat.id by lia.
      replace (bit_position m + (8 - bit_position m)) with 8 by lia.
      reflexivity. }
    destruct (pass_from_boundary m0) as (m' & H' & G1 & G2 & G3 & G4);
      try assumption; try (rewrite A6; assumption);
      try (rewrite A1, A6; assumption); try (rewrite Hl0; assumption).
    exists m'. rewrite serve_add, H0. cbn [mbind option_bind].
    rewrite A6 in H'. split; [exact H'|].
    split; [exact G1|]. split; [exact G2|]. split; [exact G3|].
    rewrite G4, A4, A1, A6, Hl0, <- app_assoc. reflexivity.
Qed.

(** * Streams of messages that start a chunk *)

(** A message whose header starts a chunk, received between messages, up
    to any point of its body. *)
Lemma message_partial (op lo hi : Z) (P p0 : list Z) (rest : list (list Z))
      (tail : list Z) (s : machine) :
  decoder_inv s -> data_remaining s = 0 ->
  is_u8 lo -> is_u8 hi ->
  Z.lor lo (Z.shiftl hi 8) = Z.of_nat (length P) ->
  p0 ++ concat rest ++ tail = P ->
  exists s', run (([op; lo; hi] ++ p0) :: rest) s = Some s'
    /\ decoder_inv s' /\ data_remaining s' = Z.of_nat (length tail)
    /\ acks s'
       = acks s ++ (if decide (tail = [] /\ P <> []) then [0xFF] else []).
Proof.
  intros Hinv Hidle Hlo Hhi HL Hsplit.
  destruct (run_safe (([op; lo; hi] ++ p0) :: rest) s Hinv)
    as (s' & Hrun & Hinv' & _).
  exists s'. split; [exact Hrun|]. split; [exact Hinv'|].
  destruct Hinv as (Hl & Hb & Hc & _).
  destruct (latched_frame op lo hi s Hc) as (_ & F2 & _ & _ & _ & F6 & F7 & _).
  destruct (lor_shiftl_byte lo hi Hlo Hhi) as [E1 _].
  destruct (decide (length P = 0%nat)) as [H0|H0].
  - destruct P; [|cbn in H0; lia].
    apply app_eq_nil in Hsplit as [-> Hrest].
    apply app_eq_nil in Hrest as [Hrest ->].
    cbn [run app] in Hrun. unfold iteration in Hrun.
    rewrite header_chunk in Hrun by assumption.
    cbn [mbind option_bind] in Hrun.
    rewrite idle_run in Hrun by assumption. injection Hrun as <-.
    rewrite F2, E1, HL, F7. rewrite decide_False by (intros [_ H]; auto).
    rewrite app_nil_r. split; reflexivity.
  - destruct (message_run P op lo hi s p0 rest tail)
      as (s1 & Hrun1 & Hd & _); try assumption; try lia; auto.
    rewrite Hrun in Hrun1. injection Hrun1 as <-.
    destruct Hd as [_ Hrem _ _ Hacks _ _ _].
    assert (Hn : length P = (length (p0 ++ concat rest) + length tail)%nat)
      by (rewrite <- Hsplit, app_assoc, length_app; reflexivity).
    split; [rewrite Hrem; lia|].
    rewrite Hacks, F7. f_equal.
    destruct (decide (length (p0 ++ concat rest) = length P)) as [E|N].
    + rewrite decide_True; [reflexivity|].
      split; [destruct tail; [reflexivity|cbn in Hn; lia]|].
      intros ->. cbn in H0. lia.
    + rewrite decide_False; [reflexivity|].
      intros [-> _]. cbn in Hn. lia.
Qed.

Lemma message_whole (c : message) (s : machine) :
  decoder_inv s -> data_remaining s = 0 -> framed c ->
  exists s', run (msg_chunks c) s = Some s'
    /\ decoder_inv s' /\ data_remaining s' = 0
    /\ acks s' = acks s ++ replicate (length (with_body [c])) 0xFF.
Proof.
  intros Hinv Hidle (Hlo & Hhi & HL).
  destruct (message_partial (msg_op c) (msg_lo c) (msg_hi c) (msg_body c)
              (msg_first c) (msg_rest c) [] s)
    as (s' & Hrun & Hinv' & Hd & Ha); try assumption.
  { unfold msg_body. rewrite app_nil_r. reflexivity. }
  exists s'. split; [exact Hrun|]. split; [exact Hinv'|].
  split; [exact Hd|]. rewrite Ha. f_equal.
  unfold with_body. cbn [List.filter].
  destruct (msg_body c) as [|x l].
  - rewrite decide_False by (intros [_ H]; auto). reflexivity.
  - rewrite decide_True by (split; [reflexivity|discriminate]). reflexivity.
Qed.

Lemma stream_run (cs : list message) : forall s : machine,
  decoder_inv s -> data_remaining s = 0 -> Forall framed cs ->
  exists s', run (stream cs) s = Some s'
    /\ decoder_inv s' /\ data_remaining s' = 0
    /\ acks s' = acks s ++ replicate (length (with_body cs)) 0xFF.
Proof.
  induction cs as [|c cs IH]; intros s Hinv Hidle Hall.
  - exists s. cbn. rewrite app_nil_r. auto.
  - inversion Hall as [|? ? Hc Hcs]; subst.
    destruct (message_whole c s Hinv Hidle Hc) as (s1 & H1 & Hinv1 & Hd1 & Ha1).
    destruct (IH s1 Hinv1 Hd1 Hcs) as (s2 & H2 & Hinv2 & Hd2 & Ha2).
    exists s2. unfold stream in *. cbn [flat_map]. rewrite run_app, H1.
    cbn [mbind option_bind]. split; [exact H2|]. split; [exact Hinv2|].
    split; [exact Hd2|]. rewrite Ha2, Ha1, <- app_assoc, <- replicate_add.
    f_equal. f_equal. unfold with_body. cbn [List.filter].
    destruct (negb (length (msg_body c) =? 0)%nat); reflexivity.
Qed.

(** C3, as the code has it.  For a stream in which every message starts a
    chunk, received from a state between messages: when the messages [cs]
    have been decoded, one 0xFF has been queued for each of them that has a
    body, whatever its opcode, and nothing else; and while the next message
    is decoded, its 0xFF is queued when the last byte of its body has been
    decoded and not before, and never when it declares length 0. *)
Theorem C3_acknowledgments (cs : list message) (s0 : machine) (op lo hi : Z)
    (P p0 : list Z) (rest : list (list Z)) (tail : list Z) :
  decoder_inv s0 -> data_remaining s0 = 0 -> Forall framed cs ->
  is_u8 lo -> is_u8 hi ->
  Z.lor lo (Z.shiftl hi 8) = Z.of_nat (length P) ->
  p0 ++ concat rest ++ tail = P ->
  exists s1 s2,
    run (stream cs) s0 = Some s1
    /\ data_remaining s1 = 0
    /\ acks s1 = acks s0 ++ replicate (length (with_body cs)) 0xFF
    /\ run (([op; lo; hi] ++ p0) :: rest) s1 = Some s2
    /\ data_remaining s2 = Z.of_nat (length tail)
    /\ acks s2
       = acks s1 ++ (if decide (tail = [] /\ P <> []) then [0xFF] else []).
Proof.
  intros Hinv Hidle Hall Hlo Hhi HL Hsplit.
  destruct (stream_run cs s0 Hinv Hidle Hall) as (s1 & H1 & Hinv1 & Hd1 & Ha1).
  destruct (message_partial op lo hi P p0 rest tail s1)
    as (s2 & H2 & _ & Hd2 & Ha2); try assumption.
  exists s1, s2. split; [exact H1|]. split; [exact Hd1|].
  split; [exact Ha1|]. split; [exact H2|]. split; [exact Hd2|exact Ha2].
Qed.

(** * A pass while the decoder goes on decoding *)














(** ** The further properties on concrete inputs *)

Lemma reset_machine_emitter : emitter_inv reset_machine.
Proof.
  unfold emitter_inv, LED_COUNT, sizeof_ws_led_struct. cbn. lia.
Defined.

Lemma reset_machine_power_on : power_on reset_machine.
Proof.
  unfold power_on, is_u8. cbn.
  repeat split; try reflexivity; lia.
Defined.

(** Nine interrupts of a pass. *)
Lemma emitter_frame_witness :
  exists m',
    serve 9 (hand_off reset_machine) = Some m'
    /\ leds m' = leds (hand_off reset_machine)
    /\ decoder_view m' = decoder_view (hand_off reset_machine)
    /\ acks m' = acks (hand_off reset_machine).
Proof.
  eexists. split; [vm_compute; reflexivity|].
  apply (emitter_frame 9 (hand_off reset_machine)). vm_compute. reflexivity.
Defined.

(** The only byte of a body of command 2. *)
Lemma decoder_hand_off_witness :
  exists m',
    loop_body 3 7 (latched 2 1 0 reset_machine) = Some m'
    /\ isr_ptr m' = 0%nat /\ GIE m' = true /\ SSP1IF m' = true
    /\ SSP1BUF m' = [0].
Proof.
  eexists. split; [vm_compute; reflexivity|].
  refine (proj2 (proj2 (proj2 (proj2
            (decoder_hand_off 3 7 (latched 2 1 0 reset_machine) _ _))))).
  vm_compute. reflexivity.
Defined.

(** Two commands 2, five interrupts after the first and four thousand in
    the middle of the second. *)
Lemma interleaved_safety_witness :
  exists m',
    run_irq [[(0%nat, 2); (0%nat, 3); (0%nat, 0); (0%nat, 10); (0%nat, 20);
              (0%nat, 30)];
             [(5%nat, 2); (0%nat, 3); (0%nat, 0); (4000%nat, 1)]]
      reset_machine = Some m'
    /\ decoder_inv m' /\ emitter_inv m'.
Proof.
  apply interleaved_safety. left. split; [exact reset_machine_power_on|].
  cbn. lia.
Defined.

Lemma interleaving_transparent_witness :
  exists r r',
    run_irq [[(0%nat, 2); (0%nat, 3); (0%nat, 0); (0%nat, 10); (0%nat, 20);
              (0%nat, 30)];
             [(5%nat, 2); (0%nat, 3); (0%nat, 0); (4000%nat, 1)]]
      reset_machine = Some r
    /\ run [[2; 3; 0; 10; 20; 30]; [2; 3; 0; 1]] reset_machine = Some r'
    /\ decoder_view r = decoder_view r' /\ leds r = leds r'
    /\ acks r = acks r'.
Proof.
  exact (interleaving_transparent
           [[(0%nat, 2); (0%nat, 3); (0%nat, 0); (0%nat, 10); (0%nat, 20);
             (0%nat, 30)];
            [(5%nat, 2); (0%nat, 3); (0%nat, 0); (4000%nat, 1)]]
           reset_machine reset_machine_inv reset_machine_emitter).
Defined.

(** A whole pass after a hand-off at rest. *)
Lemma pass_terminates_witness :
  exists m',
    serve 3073 (hand_off reset_machine) = Some m' /\ GIE m' = false
    /\ bit_position m' = 0 /\ byte_count m' = 0.
Proof.
  destruct (pass_terminates 3073 (hand_off reset_machine))
    as (m' & H & _ & Hg & Hrest & _).
  - unfold emitter_inv, LED_COUNT, sizeof_ws_led_struct. cbn. lia.
  - reflexivity.
  - exists m'. split; [exact H|].
    assert (G : GIE m' = false)
      by (apply Hg; vm_compute; intros X; discriminate X).
    split; [exact G|exact (Hrest G)].
Defined.

(** A second hand-off five interrupts into a pass. *)
Lemma colliding_hand_off_witness :
  let m1 :=
    {| leds := replicate 384 0; isr_ptr := 1; toPC_count := 0; command := 0;
       color_index := 0; current_byte := 0; previous_byte := 0;
       led_index := 0; data_remaining := 0; wptr := None; bit_position := 5;
       byte_count := 1; isr_current_byte := 0; GIE := true; SSP1IF := true;
       SSP1BUF := [0; 240; 240; 240; 240; 240]; in_buf := replicate 64 0;
       toPC := [] |} in
  exists m3,
    serve 3068 (hand_off m1) = Some m3 /\ GIE m3 = false
    /\ length (SSP1BUF m3) = 3074%nat.
Proof.
  intros m1.
  destruct (colliding_hand_off 5 reset_machine m1 (hand_off m1))
    as (m3 & H & Hg & Hl & _).
  - exact reset_machine_emitter.
  - reflexivity.
  - reflexivity.
  - lia.
  - vm_compute. reflexivity.
  - reflexivity.
  - reflexivity.
  - exists m3. split; [exact H|]. split; [exact Hg|exact Hl].
Defined.

(** One triple, then the pass. *)
Lemma frame_on_the_wire_witness :
  exists s' s'',
    run [[2; 3; 0; 10; 20; 30]] reset_machine = Some s'
    /\ serve 3073 s' = Some s''
    /\ SSP1BUF s'' = [0] ++ waveform ([20; 10; 30] ++ replicate 381 0)
    /\ GIE s'' = false /\ acks s'' = [0xFF].
Proof.
  destruct (frame_on_the_wire reset_machine 3 0 [10; 20; 30] [10; 20; 30] [] 1)
    as (s' & s'' & H1 & H2 & H3 & H4 & _ & _ & H7);
    try reflexivity; try (unfold is_u8; cbn; lia).
  exists s', s''. split; [exact H1|]. split; [exact H2|].
  split; [exact H3|]. split; [exact H4|exact H7].
Defined.

(** A buffer whose first byte is 0xA5. *)
Lemma pass_round_trip_witness :
  exists m',
    serve 3073 (hand_off (set_leds (0xA5 :: replicate 383 0) reset_machine))
    = Some m'
    /\ bytes_of_pulses 384 (drop 1 (SSP1BUF m')) = 0xA5 :: replicate 383 0.
Proof.
  destruct (pass_round_trip (set_leds (0xA5 :: replicate 383 0) reset_machine))
    as (m' & H1 & H2); try reflexivity.
  - constructor; [unfold is_u8; lia|].
    apply Forall_replicate. unfold is_u8. lia.
  - exists m'. split; [exact H1|exact H2].
Defined.

(** An iteration without USB configuration, one with a chunk, one with the
    endpoint busy, one without data. *)
Lemma polling_loop_witness :
  exists m',
    poll [ {| usb_is_configured := false; usb_in_endpoint_halted := false;
              usb_in_endpoint_busy := false;
              usb_get_out_buffer := Some [9; 9; 9] |};
           {| usb_is_configured := true; usb_in_endpoint_halted := false;
              usb_in_endpoint_busy := false;
              usb_get_out_buffer := Some [2; 3; 0; 10; 20; 30] |};
           {| usb_is_configured := true; usb_in_endpoint_halted := false;
              usb_in_endpoint_busy := true;
              usb_get_out_buffer := Some [9; 9; 9] |};
           {| usb_is_configured := true; usb_in_endpoint_halted := false;
              usb_in_endpoint_busy := false;
              usb_get_out_buffer := None |} ] reset_machine = Some m'
    /\ toPC m' = [0xFF] /\ acks m' = [0xFF].
Proof.
  destruct (polling_loop
    [ {| usb_is_configured := false; usb_in_endpoint_halted := false;
         usb_in_endpoint_busy := false;
         usb_get_out_buffer := Some [9; 9; 9] |};
      {| usb_is_configured := true; usb_in_endpoint_halted := false;
         usb_in_endpoint_busy := false;
         usb_get_out_buffer := Some [2; 3; 0; 10; 20; 30] |};
      {| usb_is_configured := true; usb_in_endpoint_halted := false;
         usb_in_endpoint_busy := true;
         usb_get_out_buffer := Some [9; 9; 9] |};
      {| usb_is_configured := true; usb_in_endpoint_halted := false;
         usb_in_endpoint_busy := false;
         usb_get_out_buffer := None |} ] reset_machine)
    as (m' & H & _ & _ & _ & Ht & _ & Ha & _).
  - exact reset_machine_inv.
  - split; [cbn; lia|reflexivity].
  - exists m'. split; [exact H|]. split; [exact Ht|exact Ha].
Defined.

(** The same stream from two machines that differ in every local that is
    not initialised. *)
Lemma locals_need_no_init_witness :
  run [[2; 3; 0; 10; 20; 30]] reset_machine
  = run [[2; 3; 0; 10; 20; 30]]
      {| leds := replicate 384 0; isr_ptr := 0; toPC_count := 0;
         command := 2; color_index := 1; current_byte := 77;
         previous_byte := 88; led_index := 99; data_remaining := 0;
         wptr := Some 12%nat; bit_position := 0; byte_count := 0;
         isr_current_byte := 0; GIE := false; SSP1IF := false;
         SSP1BUF := []; in_buf := replicate 64 0; toPC := [] |}.
Proof.
  destruct (locals_need_no_init [[2; 3; 0; 10; 20; 30]] reset_machine
    {| leds := replicate 384 0; isr_ptr := 0; toPC_count := 0;
       command := 2; color_index := 1; current_byte := 77;
       previous_byte := 88; led_index := 99; data_remaining := 0;
       wptr := Some 12%nat; bit_position := 0; byte_count := 0;
       isr_current_byte := 0; GIE := false; SSP1IF := false;
       SSP1BUF := []; in_buf := replicate 64 0; toPC := [] |})
    as [r1 r2 (_ & _ & Heq)|].
  - unfold same_but_locals. repeat split; reflexivity.
  - reflexivity.
  - f_equal. apply Heq. cbn. lia.
  - reflexivity.
Defined.

(** A body of four bytes with its last byte at position 0 of the next
    chunk: the bytes 7 and 1 behind it announce 263 more bytes of
    command 2. *)
Lemma stale_header_witness :
  let m := default reset_machine (run [[2; 4; 0; 10; 20; 30]] reset_machine) in
  exists m',
    iteration [40; 7; 1] m = Some m'
    /\ data_remaining m' = 263 /\ command m' = 2.
Proof.
  intros m.
  destruct (stale_header 40 7 1 m) as (_ & m' & _ & _ & H & Hl & Hcmd & _).
  - vm_compute in (value of m). subst m.
    unfold decoder_inv, cursor_ok, LED_COUNT.
    split; [reflexivity|]. split; [cbn; lia|]. split; [cbn; lia|].
    right. cbn. lia.
  - left. reflexivity.
  - exists m'. split; [exact H|]. split; [exact Hl|exact Hcmd].
Defined.

Lemma header_length_witness :
  exists m',
    iteration [2; 44; 1] reset_machine = Some m' /\ data_remaining m' = 300.
Proof.
  destruct (header_length 2 300 reset_machine)
    as (m' & H & Hd & _); [reflexivity|lia|].
  exists m'. split; [exact H|exact Hd].
Defined.

(** A hand-off when the first byte of a pass has been sent: the pass that
    follows sends 383 bytes. *)
Lemma rest_of_pass_witness :
  let m :=
    {| leds := 0xA5 :: replicate 383 0; isr_ptr := 0; toPC_count := 0;
       command := 2; color_index := 0; current_byte := 0; previous_byte := 0;
       led_index := 0; data_remaining := 0; wptr := None; bit_position := 0;
       byte_count := 1; isr_current_byte := 0; GIE := true; SSP1IF := true;
       SSP1BUF := []; in_buf := replicate 64 0; toPC := [] |} in
  exists m',
    serve 3065 m = Some m' /\ GIE m' = false
    /\ SSP1BUF m' = waveform (0xA5 :: replicate 382 0).
Proof.
  intros m.
  destruct (rest_of_pass m) as (m' & H & Hg & _ & _ & Hb).
  - unfold emitter_inv, LED_COUNT, sizeof_ws_led_struct. cbn. lia.
  - reflexivity.
  - reflexivity.
  - exists m'. split; [exact H|]. split; [exact Hg|exact Hb].
Defined.

(** ** Messages that do not start a chunk *)

(** Scenario A behind another message in the same chunk: the header
    [2; 3; 0] sits at positions 4 to 6.  Entry 0 is not written, no pass is
    started, and the one 0xFF queued is that of the message before. *)
Lemma C1_counterexample :
  exists s',
    run [[5; 1; 0; 9; 2; 3; 0; 10; 20; 30]] reset_machine = Some s'
    /\ led_at (leds s') 0 = Some {| g := 0; r := 0; b := 0 |}
    /\ led_at (leds s') 0 <> Some {| g := 20; r := 10; b := 30 |}
    /\ acks s' = [0xFF] /\ GIE s' = false /\ command s' = 5.
Proof.
  eexists. split; [vm_compute; reflexivity|].
  split; [reflexivity|]. split; [discriminate|].
  split; [reflexivity|]. split; reflexivity.
Qed.

(** Scenario B behind another message in the same chunk: when the first
    six bytes have been decoded one 0xFF is queued, and the five bytes of
    the message [5; 2; 0; 0xAA; 0xBB] at positions 6 to 10 add none. *)
Lemma C7_counterexample :
  exists s1 s',
    chunk_loop 0 [2; 3; 0; 10; 20; 30] (flush reset_machine) = Some s1
    /\ acks s1 = [0xFF]
    /\ chunk_loop 6 [5; 2; 0; 0xAA; 0xBB] s1 = Some s'
    /\ run [[2; 3; 0; 10; 20; 30; 5; 2; 0; 0xAA; 0xBB]] reset_machine
       = Some s'
    /\ acks s' = [0xFF] /\ command s' = 2.
Proof.
  eexists. eexists. split; [vm_compute; reflexivity|].
  split; [reflexivity|]. split; [vm_compute; reflexivity|].
  split; [vm_compute; reflexivity|]. split; reflexivity.
Qed.

(** A command 2 that declares 129 triples, its header at positions 3 to 5
    of a chunk and its 387 body bytes, all of value 2, in that chunk and
    the six that follow.  When the last of them has been decoded the write
    cursor is still active, at entry 108; entry 127 has not been written;
    the decoder is inside a body of its own making, with 188 bytes to
    come, and nothing has been queued for the host. *)
Lemma C5_counterexample :
  exists s',
    run (([0; 0; 0; 2; 131; 1] ++ replicate 58 2)
           :: replicate 5 (replicate 64 2) ++ [replicate 9 2]) reset_machine
    = Some s'
    /\ Z.lor 131 (Z.shiftl 1 8) = 3 * 129
    /\ wptr s' = Some 324%nat
    /\ led_at (leds s') 127 = Some {| g := 0; r := 0; b := 0 |}
    /\ data_remaining s' = 188 /\ acks s' = [].
Proof.
  eexists. split; [vm_compute; reflexivity|].
  split; [reflexivity|]. split; [reflexivity|]. split; [reflexivity|].
  split; reflexivity.
Qed.

(** One message with a body of one byte, and the header of a second
    message behind it in the same chunk: the stream holds one complete
    message and two 0xFF are queued.  The byte 0 at position 2 of the
    second chunk latches the length 1 with the byte before it, and the
    byte 8 is taken for the body. *)
Lemma C3_counterexample :
  concat [[2; 1; 0]; [9; 1; 0; 8]] = ([2; 1; 0] ++ [9]) ++ [1; 0; 8]
  /\ Z.lor 0 (Z.shiftl 8 8) = 2048
  /\ exists s',
       run [[2; 1; 0]; [9; 1; 0; 8]] reset_machine = Some s'
       /\ acks s' = [0xFF; 0xFF].
Proof.
  split; [reflexivity|]. split; [reflexivity|].
  eexists. split; [vm_compute; reflexivity|]. reflexivity.
Qed.


(** ** Passes and streams of messages on concrete inputs *)


(** Three messages that start a chunk, one of them without a body, and the
    first two of the three body bytes of a fourth. *)
Lemma C3_witness :
  exists s1 s2,
    run [[2; 3; 0; 10; 20; 30]; [5; 2; 0; 1]; [2]; [7; 0; 0]] reset_machine
    = Some s1
    /\ acks s1 = [0xFF; 0xFF]
    /\ run [[2; 3; 0; 1; 2]] s1 = Some s2
    /\ data_remaining s2 = 1 /\ acks s2 = acks s1.
Proof.
  destruct (C3_acknowledgments
              [ {| msg_op := 2; msg_lo := 3; msg_hi := 0;
                   msg_first := [10; 20; 30]; msg_rest := [] |};
                {| msg_op := 5; msg_lo := 2; msg_hi := 0;
                   msg_first := [1]; msg_rest := [[2]] |};
                {| msg_op := 7; msg_lo := 0; msg_hi := 0;
                   msg_first := []; msg_rest := [] |} ]
              reset_machine 2 3 0 [1; 2; 3] [1; 2] [] [3])
    as (s1 & s2 & H1 & _ & H2 & H3 & H4 & H5);
    try reflexivity; try (unfold is_u8; lia).
  - exact reset_machine_inv.
  - repeat constructor; unfold is_u8; cbn; lia.
  - exists s1, s2. split; [exact H1|]. split; [exact H2|].
    split; [exact H3|]. split; [exact H4|].
    rewrite H5. apply app_nil_r.
Defined.
